(** * OSPFS (ospfsmod.c): a shallow embedding of the on-disk data engine

    The module keeps the whole file system in one byte array,
    [ospfs_data].  Every structure of the source (superblock, free-block
    bitmap, inode table, indirect blocks, directory entries, file data) is
    a window of that array, and the source reaches all of them through
    pointer casts.  The embedding keeps that shape: the image is a map from
    byte offsets to bytes, a pointer into the image is its byte offset, and
    each C function becomes a function that takes the image and returns the
    updated image together with the C return value.

    Integers are [Z] with the wrap-around of their C type written out.  The
    target is the 32-bit little-endian x86 kernel the module is built for
    (the source casts pointers to [uint32_t]). *)

From Stdlib Require Import String Ascii ZArith List Lia Bool.
Import ListNotations.
Local Open Scope Z_scope.

(** ** Machine integers *)

Definition u32 (x : Z) : Z := x mod 2 ^ 32.
Definition s32 (x : Z) : Z := (x + 2 ^ 31) mod 2 ^ 32 - 2 ^ 31.
Definition s64 (x : Z) : Z := (x + 2 ^ 63) mod 2 ^ 64 - 2 ^ 63.

(** Linux errno values used by the module (asm-generic/errno-base.h). *)
Definition EIO : Z := 5.
Definition ENOMEM : Z := 12.
Definition EFAULT : Z := 14.
Definition EEXIST : Z := 17.
Definition ENOSPC : Z := 28.
Definition ENAMETOOLONG : Z := 36.

(** ** The disk image *)

(** [ospfs_data]: byte offset to byte value.  A cell is read modulo 256, so
    that every map is an array of bytes. *)
Definition mem : Type := Z -> Z.

Definition load8 (m : mem) (a : Z) : Z := m a mod 256.

Definition store8 (m : mem) (a v : Z) : mem :=
  fun x => if x =? a then v mod 256 else m x.

(** A [uint32_t] is four bytes, least significant first. *)
Definition load32 (m : mem) (a : Z) : Z :=
  load8 m a + 256 * load8 m (a + 1) + 65536 * load8 m (a + 2)
  + 16777216 * load8 m (a + 3).

Definition store32 (m : mem) (a v : Z) : mem :=
  fun x =>
    if (a <=? x) && (x <? a + 4)
    then (v / 2 ^ (8 * (x - a))) mod 256
    else m x.

(** [memset(p, c, n)] on the image. *)
Definition memset (m : mem) (p c n : Z) : mem :=
  fun x => if (p <=? x) && (x <? p + n) then c mod 256 else m x.

(** [memcpy(p, bs, length bs)] from a kernel buffer into the image. *)
Definition memcpy (m : mem) (p : Z) (bs : list Z) : mem :=
  fun x =>
    if (p <=? x) && (x <? p + Z.of_nat (length bs))
    then nth (Z.to_nat (x - p)) bs 0 mod 256
    else m x.

(** The bytes [p, p+n) of the image. *)
Fixpoint load_bytes (m : mem) (p : Z) (n : nat) : list Z :=
  match n with
  | O => []
  | S k => load8 m p :: load_bytes m (p + 1) k
  end.

(** ** ospfs.h

    The header is not part of the sources at hand; its constants are the
    fields of a class, and the structure layouts follow the specification's
    description of the on-disk format. *)

Class ospfs_h : Type := {
  OSPFS_BLKSIZE : Z;
  OSPFS_NDIRECT : Z;
  OSPFS_MAXNAMELEN : Z;
  OSPFS_MAXSYMLINKLEN : Z;
  OSPFS_INODESIZE : Z;
  OSPFS_DIRENTRY_SIZE : Z;
  OSPFS_FTYPE_REG : Z;
  OSPFS_FTYPE_DIR : Z;
  OSPFS_FTYPE_SYMLINK : Z;
  (** [extern uint32_t ospfs_length]: the size of the image in bytes. *)
  ospfs_length : Z
}.

Section Ospfs.

Context {H : ospfs_h}.

(** Modelled from the spec: ospfs.h is missing; "NI = BLKSIZE / 4". *)
Definition OSPFS_NINDIRECT : Z := OSPFS_BLKSIZE / 4.

(** Modelled from the spec: ospfs.h is missing; "A file's maximum block
    count is ND + NI + NI*NI". *)
Definition OSPFS_MAXFILEBLKS : Z :=
  OSPFS_NDIRECT + OSPFS_NINDIRECT + OSPFS_NINDIRECT * OSPFS_NINDIRECT.

(** Modelled from the spec: ospfs.h is missing; the free bitmap starts at
    block 2 ("Blocks 2 ... (first-inode-block - 1): free bitmap"). *)
Definition OSPFS_FREEMAP_BLK : Z := 2.

(** Modelled from the spec: ospfs.h is missing; the superblock is block 1
    and holds, in this order, magic, total block count, total inode count
    and the index of the first inode block, four bytes each. *)
Definition ospfs_super : Z := OSPFS_BLKSIZE.
Definition os_nblocks (m : mem) : Z := load32 m (ospfs_super + 4).
Definition os_ninodes (m : mem) : Z := load32 m (ospfs_super + 8).
Definition os_firstinob (m : mem) : Z := load32 m (ospfs_super + 12).

(** Modelled from the spec: ospfs.h is missing; inode record fields at fixed
    offsets: size, ftype, nlink, mode (four bytes each), then either
    direct[ND], indirect, indirect2 or the inline symlink bytes. *)
Definition oi_size (m : mem) (oi : Z) : Z := load32 m oi.
Definition oi_ftype (m : mem) (oi : Z) : Z := load32 m (oi + 4).
Definition oi_nlink (m : mem) (oi : Z) : Z := load32 m (oi + 8).
Definition oi_mode (m : mem) (oi : Z) : Z := load32 m (oi + 12).
Definition oi_direct_at (oi i : Z) : Z := oi + 16 + 4 * i.
Definition oi_direct (m : mem) (oi i : Z) : Z := load32 m (oi_direct_at oi i).
Definition oi_indirect_at (oi : Z) : Z := oi + 16 + 4 * OSPFS_NDIRECT.
Definition oi_indirect (m : mem) (oi : Z) : Z := load32 m (oi_indirect_at oi).
Definition oi_indirect2_at (oi : Z) : Z := oi + 20 + 4 * OSPFS_NDIRECT.
Definition oi_indirect2 (m : mem) (oi : Z) : Z := load32 m (oi_indirect2_at oi).
Definition oi_symlink (oi : Z) : Z := oi + 16.

Definition set_oi_size (m : mem) (oi v : Z) : mem := store32 m oi v.
Definition set_oi_ftype (m : mem) (oi v : Z) : mem := store32 m (oi + 4) v.
Definition set_oi_nlink (m : mem) (oi v : Z) : mem := store32 m (oi + 8) v.
Definition set_oi_mode (m : mem) (oi v : Z) : mem := store32 m (oi + 12) v.

(** Modelled from the spec: ospfs.h is missing; a directory entry is a
    four-byte inode number followed by the null-terminated name. *)
Definition od_ino (m : mem) (od : Z) : Z := load32 m od.
Definition od_name (od : Z) : Z := od + 4.

(** ** Bitvector operations *)

(** [((uint32_t * ) vector)[i / 32] |= (1 << (i % 32))] *)
Definition bitvector_set (m : mem) (vector i : Z) : mem :=
  let w := vector + 4 * Z.quot i 32 in
  store32 m w (Z.lor (load32 m w) (u32 (Z.shiftl 1 (Z.rem i 32)))).

(** [((uint32_t * ) vector)[i / 32] &= ~(1 << (i % 32))] *)
Definition bitvector_clear (m : mem) (vector i : Z) : mem :=
  let w := vector + 4 * Z.quot i 32 in
  store32 m w (Z.land (load32 m w) (u32 (Z.lnot (Z.shiftl 1 (Z.rem i 32))))).

(** [(((const uint32_t * ) vector)[i / 32] & (1 << (i % 32))) != 0] *)
Definition bitvector_test (m : mem) (vector i : Z) : bool :=
  let w := vector + 4 * Z.quot i 32 in
  negb (Z.land (load32 m w) (u32 (Z.shiftl 1 (Z.rem i 32))) =? 0).

(** ** Helper functions *)

Definition ospfs_size2nblocks (size : Z) : Z :=
  u32 (size + OSPFS_BLKSIZE - 1) / OSPFS_BLKSIZE.

(** [&ospfs_data[blockno * OSPFS_BLKSIZE]], as an offset into the image. *)
Definition ospfs_block (blockno : Z) : Z := u32 (blockno * OSPFS_BLKSIZE).

(** [ospfs_inode(ino)]: [None] is the null pointer. *)
Definition ospfs_inode (m : mem) (ino : Z) : option Z :=
  if os_ninodes m <=? ino then None
  else Some (ospfs_block (os_firstinob m) + ino * OSPFS_INODESIZE).

Definition ospfs_inode_blockno (m : mem) (oi offset : Z) : Z :=
  let blockno := offset / OSPFS_BLKSIZE in
  if (oi_size m oi <=? offset) || (oi_ftype m oi =? OSPFS_FTYPE_SYMLINK) then 0
  else if OSPFS_NDIRECT + OSPFS_NINDIRECT <=? blockno then
    let blockoff := blockno - (OSPFS_NDIRECT + OSPFS_NINDIRECT) in
    let indirect2_block := ospfs_block (oi_indirect2 m oi) in
    let indirect_block :=
      ospfs_block (load32 m (indirect2_block + 4 * (blockoff / OSPFS_NINDIRECT))) in
    load32 m (indirect_block + 4 * (blockoff mod OSPFS_NINDIRECT))
  else if OSPFS_NDIRECT <=? blockno then
    let indirect_block := ospfs_block (oi_indirect m oi) in
    load32 m (indirect_block + 4 * (blockno - OSPFS_NDIRECT))
  else oi_direct m oi blockno.

Definition ospfs_inode_data (m : mem) (oi offset : Z) : Z :=
  let blockno := ospfs_inode_blockno m oi offset in
  ospfs_block blockno + offset mod OSPFS_BLKSIZE.

(** ** Free-block bitmap *)

(** The scan of [allocate_block]: [bit] runs upwards while [bit < num_bits];
    [todo] is the number of bits still to look at. *)
Fixpoint allocate_scan (m : mem) (vector : Z) (todo : nat) (bit : Z) : bool * Z :=
  match todo with
  | O => (false, bit)
  | S k =>
      if bitvector_test m vector bit then (true, bit)
      else allocate_scan m vector k (bit + 1)
  end.

Definition allocate_block (m : mem) : Z * mem :=
  let free_block_bitmap := ospfs_block OSPFS_FREEMAP_BLK in
  let bitmap_blk_size := s32 (os_firstinob m - OSPFS_FREEMAP_BLK) in
  let num_bits := s32 (bitmap_blk_size * OSPFS_BLKSIZE * 8) in
  let '(free_block, bit) :=
    allocate_scan m free_block_bitmap (Z.to_nat num_bits) 0 in
  if free_block
  then (bit, bitvector_clear m free_block_bitmap bit)
  else (0, m).

Definition free_block (m : mem) (blockno : Z) : mem :=
  bitvector_set m (ospfs_block OSPFS_FREEMAP_BLK) (s32 blockno).

(** ** Unpacking a file block index *)

Definition indir2_index (b : Z) : Z :=
  if (OSPFS_NDIRECT + OSPFS_NINDIRECT <=? b) && (b <? OSPFS_MAXFILEBLKS)
  then 0
  else -1.

Definition indir_index (b : Z) : Z :=
  if (OSPFS_NDIRECT <=? b) && (b <? OSPFS_NINDIRECT + OSPFS_NDIRECT) then 0
  else if (OSPFS_NINDIRECT + OSPFS_NDIRECT <=? b) && (b <? OSPFS_MAXFILEBLKS)
  then s32 ((b - (OSPFS_NINDIRECT + OSPFS_NDIRECT)) / OSPFS_NINDIRECT)
  else -1.

Definition direct_index (b : Z) : Z :=
  if (0 <=? b) && (b <? OSPFS_NDIRECT) then s32 b
  else if (OSPFS_NDIRECT <=? b) && (b <? OSPFS_NINDIRECT + OSPFS_NDIRECT)
  then s32 (b - OSPFS_NDIRECT)
  else if (OSPFS_NINDIRECT + OSPFS_NDIRECT <=? b) && (b <? OSPFS_MAXFILEBLKS)
  then s32 ((b - (OSPFS_NINDIRECT + OSPFS_NDIRECT))
            mod (OSPFS_NINDIRECT + OSPFS_NDIRECT))
  else -1.

(** ** Growing and shrinking a file *)

(** The size update that ends a successful [add_block]. *)
Definition add_block_size (m : mem) (oi : Z) : mem :=
  let sz := oi_size m oi in
  if negb (sz mod OSPFS_BLKSIZE =? 0)
  then set_oi_size m oi
         (u32 (sz + (OSPFS_BLKSIZE - sz mod OSPFS_BLKSIZE) + OSPFS_BLKSIZE))
  else set_oi_size m oi (u32 (sz + OSPFS_BLKSIZE)).

Definition add_block (m : mem) (oi : Z) : Z * mem :=
  let n := ospfs_size2nblocks (oi_size m oi) in
  if n <? 0 then (- EIO, m)
  else if n <? OSPFS_NDIRECT then
    let '(a0, m) := allocate_block m in
    if a0 =? 0 then (- ENOSPC, m)
    else
      let m := memset m (ospfs_block a0) 0 OSPFS_BLKSIZE in
      let m := store32 m (oi_direct_at oi n) a0 in
      (0, add_block_size m oi)
  else if n <? OSPFS_NDIRECT + OSPFS_NINDIRECT then
    if direct_index n <? 0 then (- EIO, m)
    else if negb (oi_indirect m oi =? 0) then
      let '(a0, m) := allocate_block m in
      if negb (a0 =? 0) then
        let m := memset m (ospfs_block a0) 0 OSPFS_BLKSIZE in
        let indir_block_contents := ospfs_block (oi_indirect m oi) in
        let m := store32 m (indir_block_contents + 4 * direct_index n) a0 in
        (0, add_block_size m oi)
      else (- ENOSPC, m)
    else
      let '(a0, m) := allocate_block m in
      if a0 =? 0 then (- ENOSPC, m)
      else
        let m := memset m (ospfs_block a0) 0 OSPFS_BLKSIZE in
        let m := store32 m (oi_indirect_at oi) a0 in
        let '(a1, m) := allocate_block m in
        if negb (a1 =? 0) then
          let m := memset m (ospfs_block a1) 0 OSPFS_BLKSIZE in
          let indir_block_contents := ospfs_block (oi_indirect m oi) in
          let m := store32 m (indir_block_contents + 4 * direct_index n) a1 in
          (0, add_block_size m oi)
        else
          let m := free_block m a0 in
          let m := store32 m (oi_indirect_at oi) 0 in
          (- ENOSPC, m)
  else if n <? OSPFS_MAXFILEBLKS then
    if (indir_index n <? 0) || (direct_index n <? 0) then (- EIO, m)
    else if negb (oi_indirect2 m oi =? 0) then
      let indir_block_contents := ospfs_block (oi_indirect2 m oi) in
      if indir_index n <? 0 then (- EIO, m)
      else if negb (load32 m (indir_block_contents + 4 * indir_index n) =? 0) then
        let '(a0, m) := allocate_block m in
        if negb (a0 =? 0) then
          let m := memset m (ospfs_block a0) 0 OSPFS_BLKSIZE in
          let dir_block_contents :=
            ospfs_block (load32 m (indir_block_contents + 4 * indir_index n)) in
          let m := store32 m (dir_block_contents + 4 * direct_index n) a0 in
          (0, add_block_size m oi)
        else (- ENOSPC, m)
      else
        let '(a0, m) := allocate_block m in
        if a0 =? 0 then (- ENOSPC, m)
        else
          (* the fresh indirect block is linked as it is: no memset here *)
          let m := store32 m (indir_block_contents + 4 * indir_index n) a0 in
          let '(a1, m) := allocate_block m in
          if a1 =? 0 then
            let m := free_block m a0 in
            let m := store32 m (indir_block_contents + 4 * indir_index n) 0 in
            (- ENOSPC, m)
          else
            let m := memset m (ospfs_block a1) 0 OSPFS_BLKSIZE in
            let dir_block_contents := ospfs_block a0 in
            let m := store32 m (dir_block_contents + 4 * direct_index n) a1 in
            (0, add_block_size m oi)
    else
      let '(a0, m) := allocate_block m in
      if a0 =? 0 then (- ENOSPC, m)
      else
        let m := memset m (ospfs_block a0) 0 OSPFS_BLKSIZE in
        let m := store32 m (oi_indirect2_at oi) a0 in
        let '(a1, m) := allocate_block m in
        if negb (a1 =? 0) then
          let m := memset m (ospfs_block a1) 0 OSPFS_BLKSIZE in
          let indir_block_contents := ospfs_block (oi_indirect2 m oi) in
          let m := store32 m (indir_block_contents + 4 * indir_index n) a1 in
          let '(a2, m) := allocate_block m in
          if negb (a2 =? 0) then
            let m := memset m (ospfs_block a2) 0 OSPFS_BLKSIZE in
            let dir_block_contents := ospfs_block a1 in
            let m := store32 m (dir_block_contents + 4 * direct_index n) a2 in
            (0, add_block_size m oi)
          else
            let m := free_block m a0 in
            let m := free_block m a1 in
            let m := store32 m (oi_indirect2_at oi) 0 in
            (- ENOSPC, m)
        else
          let m := free_block m a0 in
          let m := store32 m (oi_indirect2_at oi) 0 in
          (- ENOSPC, m)
  else (- EIO, m).

(** The size update that ends a successful [remove_block]. *)
Definition remove_block_size (m : mem) (oi : Z) : mem :=
  let sz := oi_size m oi in
  if negb (sz mod OSPFS_BLKSIZE =? 0)
  then set_oi_size m oi (u32 (sz - sz mod OSPFS_BLKSIZE))
  else set_oi_size m oi (u32 (sz - OSPFS_BLKSIZE)).

Definition remove_block (m : mem) (oi : Z) : Z * mem :=
  let n := ospfs_size2nblocks (oi_size m oi) in
  if n <=? 0 then (- EIO, m)
  else if indir_index (u32 (n - 1)) <? 0 then
    let m := free_block m (oi_direct m oi (n - 1)) in
    let m := store32 m (oi_direct_at oi (n - 1)) 0 in
    (0, remove_block_size m oi)
  else if indir2_index (u32 (n - 1)) <? 0 then
    if (direct_index (u32 (n - 1)) <? 0) || (oi_indirect m oi =? 0)
    then (- EIO, m)
    else
      let indir_block_contents := ospfs_block (oi_indirect m oi) in
      let slot := indir_block_contents + 4 * direct_index (u32 (n - 1)) in
      let m := free_block m (load32 m slot) in
      let m := store32 m slot 0 in
      let m :=
        if indir_index (u32 (n - 2)) <? 0 then
          let m := free_block m (oi_indirect m oi) in
          store32 m (oi_indirect_at oi) 0
        else m in
      (0, remove_block_size m oi)
  else if 0 <=? indir_index (u32 (n - 1)) then
    if (indir_index (u32 (n - 1)) <? 0) || (direct_index (u32 (n - 1)) <? 0)
    then (- EIO, m)
    else if oi_indirect2 m oi =? 0 then (- EIO, m)
    else
      let indir_block_contents := ospfs_block (oi_indirect2 m oi) in
      let islot := indir_block_contents + 4 * indir_index (u32 (n - 1)) in
      let dir_block_contents := ospfs_block (load32 m islot) in
      let dslot := dir_block_contents + 4 * direct_index (u32 (n - 1)) in
      let m := free_block m (load32 m dslot) in
      let m := store32 m dslot 0 in
      let m :=
        if direct_index (u32 (n - 1)) =? 0 then
          let m := free_block m (load32 m islot) in
          let m := store32 m islot 0 in
          if indir2_index (u32 (n - 2)) <? 0 then
            let m := free_block m (oi_indirect2 m oi) in
            store32 m (oi_indirect2_at oi) 0
          else m
        else m in
      (0, remove_block_size m oi)
  else (- EIO, m).

(** The roll-back loop of [change_size]:
    [while (oi->oi_size > old_size) { r = remove_block(oi); if (r) return r; }
     return -ENOSPC;].  [None] when the fuel runs out. *)
Fixpoint change_size_undo (fuel : nat) (m : mem) (oi old_size : Z)
  : option (Z * mem) :=
  match fuel with
  | O => None
  | S k =>
      if old_size <? oi_size m oi then
        let '(r, m) := remove_block m oi in
        if negb (r =? 0) then Some (r, m)
        else change_size_undo k m oi old_size
      else Some (- ENOSPC, m)
  end.

(** The shrinking loop and the final store of [change_size]. *)
Fixpoint change_size_shrink (fuel : nat) (m : mem) (oi new_size : Z)
  : option (Z * mem) :=
  match fuel with
  | O => None
  | S k =>
      if ospfs_size2nblocks new_size <? ospfs_size2nblocks (oi_size m oi) then
        let '(r, m) := remove_block m oi in
        if r <? 0 then Some (r, m)
        else change_size_shrink k m oi new_size
      else Some (0, set_oi_size m oi new_size)
  end.

(** The growing loop of [change_size], followed by the rest of the function. *)
Fixpoint change_size_grow (fuel : nat) (m : mem) (oi old_size new_size : Z)
  : option (Z * mem) :=
  match fuel with
  | O => None
  | S k =>
      if ospfs_size2nblocks (oi_size m oi) <? ospfs_size2nblocks new_size then
        let '(r, m) := add_block m oi in
        if r =? - ENOSPC then
          change_size_undo (Z.to_nat (oi_size m oi / OSPFS_BLKSIZE + 2)) m oi old_size
        else if r <? 0 then Some (r, m)
        else change_size_grow k m oi old_size new_size
      else
        change_size_shrink (Z.to_nat (oi_size m oi / OSPFS_BLKSIZE + 2)) m oi new_size
  end.

(** [change_size(oi, new_size)].  Each loop gets as many rounds as there are
    blocks to add or to remove, and one to leave it. *)
Definition change_size (m : mem) (oi new_size : Z) : option (Z * mem) :=
  let old_size := oi_size m oi in
  change_size_grow (Z.to_nat (ospfs_size2nblocks new_size + 1))
    m oi old_size new_size.

(** ** User space

    The byte-copy primitives of the kernel are outside the module.  User
    memory maps an address to its byte, or to nothing where the address is
    not mapped; a copy stops at the first unmapped address and reports how
    many bytes it did not copy, which is what the module tests. *)

Definition umem : Type := Z -> option Z.

Fixpoint copy_to_user (um : umem) (to : Z) (bs : list Z) : Z * umem :=
  match bs with
  | [] => (0, um)
  | b :: rest =>
      match um to with
      | None => (Z.of_nat (length bs), um)
      | Some _ =>
          copy_to_user (fun x => if x =? to then Some b else um x) (to + 1) rest
      end
  end.

(** The bytes that reach the kernel buffer; past a fault they are zero. *)
Fixpoint copy_from_user (um : umem) (from : Z) (n : nat) : Z * list Z :=
  match n with
  | O => (0, [])
  | S k =>
      match um from with
      | None => (Z.of_nat n, repeat 0 n)
      | Some b =>
          let '(uncopied, bs) := copy_from_user um (from + 1) k in
          (uncopied, b :: bs)
      end
  end.

(** ** Reading and writing file data *)

(** The copy loop of [ospfs_read].  The result is the value returned, the
    file position and user memory.  [None] when the fuel runs out. *)
Fixpoint read_loop (fuel : nat) (m : mem) (oi : Z) (um : umem)
    (buffer count amount f_pos : Z) : option (Z * Z * umem) :=
  if amount <? count then
    match fuel with
    | O => None
    | S k =>
        let blockno := ospfs_inode_blockno m oi (u32 f_pos) in
        if blockno =? 0 then Some (- EIO, f_pos, um)
        else
          let data := ospfs_block blockno in
          let current_data_offset := ospfs_inode_data m oi (u32 f_pos) in
          let blk_off := u32 (current_data_offset - data) in
          let blk_bytes_to_read := u32 (OSPFS_BLKSIZE - blk_off) in
          let bytes_to_read := u32 (count - amount) in
          let n :=
            if bytes_to_read <=? blk_bytes_to_read
            then bytes_to_read else blk_bytes_to_read in
          let '(uncopied, um) :=
            copy_to_user um buffer (load_bytes m (data + blk_off) (Z.to_nat n)) in
          if negb (uncopied =? 0) then Some (- EFAULT, f_pos, um)
          else read_loop k m oi um (buffer + n) count (u32 (amount + n)) (s64 (f_pos + n))
    end
  else Some (s32 amount, f_pos, um).

(** [ospfs_read(filp, buffer, count, f_pos)]; [oi] is the inode of the open
    file, [ospfs_inode(filp->f_dentry->d_inode->i_ino)]. *)
Definition ospfs_read (m : mem) (oi : Z) (um : umem) (buffer count f_pos : Z)
  : option (Z * Z * umem) :=
  let count :=
    if oi_size m oi <? s64 (f_pos + count)
    then u32 (oi_size m oi - f_pos)
    else count in
  read_loop (Z.to_nat count) m oi um buffer count 0 f_pos.

(** The copy loop of [ospfs_write]: the value returned, the file position
    and the image. *)
Fixpoint write_loop (fuel : nat) (m : mem) (oi : Z) (um : umem)
    (buffer count amount f_pos : Z) : option (Z * Z * mem) :=
  if amount <? count then
    match fuel with
    | O => None
    | S k =>
        let blockno := ospfs_inode_blockno m oi (u32 f_pos) in
        if blockno =? 0 then Some (- EIO, f_pos, m)
        else
          let data := ospfs_block blockno in
          let current_data_offset := ospfs_inode_data m oi (u32 f_pos) in
          let blk_off := u32 (current_data_offset - data) in
          let blk_bytes_to_write := u32 (OSPFS_BLKSIZE - blk_off) in
          let bytes_to_write := u32 (count - amount) in
          let n :=
            if bytes_to_write <=? blk_bytes_to_write
            then bytes_to_write else blk_bytes_to_write in
          let '(uncopied, bs) := copy_from_user um buffer (Z.to_nat n) in
          let m := memcpy m (data + blk_off) bs in
          if negb (uncopied =? 0) then Some (- EFAULT, f_pos, m)
          else write_loop k m oi um (buffer + n) count (u32 (amount + n)) (s64 (f_pos + n))
    end
  else Some (s32 amount, f_pos, m).

(** [O_APPEND] of the x86 kernel (octal 02000). *)
Definition O_APPEND : Z := 1024.

(** The growth step of [ospfs_write]: when fewer than [count] bytes lie
    between the position and the end of the file, the file is made larger.
    The value of [change_size] is dropped, as in the source. *)
Definition make_room (m : mem) (oi count f_pos : Z) : option mem :=
  let free_space := u32 (oi_size m oi - f_pos) in
  if free_space <? count then
    let bytes_to_add := u32 (count - free_space) in
    option_map snd (change_size m oi (u32 (oi_size m oi + bytes_to_add)))
  else Some m.

(** The part of [ospfs_write] that follows the [O_APPEND] test: make room,
    then copy. *)
Definition ospfs_write_at (m : mem) (oi : Z) (um : umem)
    (buffer count f_pos : Z) : option (Z * Z * mem) :=
  match make_room m oi count f_pos with
  | None => None
  | Some m => write_loop (Z.to_nat count) m oi um buffer count 0 f_pos
  end.

(** [ospfs_write(filp, buffer, count, f_pos)]; [f_flags] is
    [filp->f_flags] and [oi] the inode of the open file. *)
Definition ospfs_write (m : mem) (oi f_flags : Z) (um : umem)
    (buffer count f_pos : Z) : option (Z * Z * mem) :=
  let f_pos :=
    if negb (Z.land f_flags O_APPEND =? 0) then oi_size m oi else f_pos in
  ospfs_write_at m oi um buffer count f_pos.

(** ** C strings in the image *)

(** [strlen(&ospfs_data[p])].  The scan stops at the end of the image, where
    the C function would leave the array. *)
Fixpoint strlen_scan (m : mem) (p : Z) (todo : nat) : Z :=
  match todo with
  | O => 0
  | S k => if load8 m p =? 0 then 0 else 1 + strlen_scan m (p + 1) k
  end.

Definition strlen (m : mem) (p : Z) : Z :=
  strlen_scan m p (Z.to_nat (ospfs_length - p)).

(** The string a [char *] into the image denotes. *)
Definition cstring (m : mem) (p : Z) : list Z :=
  load_bytes m p (Z.to_nat (strlen m p)).

(** [strncpy(&ospfs_data[dst], src, n)] for a string [src] given by its
    characters; the value is the image and the pointer returned, [dst]. *)
Definition strncpy (m : mem) (dst : Z) (src : list Z) (n : Z) : mem * option Z :=
  let k := Z.to_nat n in
  (memcpy m dst (firstn k src ++ repeat 0 (k - length src)), Some dst).

(** [strcpy(&ospfs_data[dst], src)]: the characters and the terminator. *)
Definition strcpy (m : mem) (dst : Z) (src : list Z) : mem :=
  memcpy m dst (src ++ [0]).

(** The first [n] bytes at a [const char *] argument whose string has the
    characters [s]: the characters and, behind them, the terminator.  A
    comparison over more than [length s] bytes meets the terminator. *)
Definition str_bytes (s : list Z) (n : Z) : list Z :=
  firstn (Z.to_nat n) (s ++ [0]).

(** [memcmp(&ospfs_data[p], bs, length bs) == 0] *)
Fixpoint memcmp0 (m : mem) (p : Z) (bs : list Z) : bool :=
  match bs with
  | [] => true
  | b :: rest => (load8 m p =? b) && memcmp0 m (p + 1) rest
  end.

(** ** Directories *)

(** The loop of [find_direntry], from offset [off] on. *)
Fixpoint find_direntry_from (m : mem) (dir_oi : Z) (name : list Z) (namelen : Z)
    (todo : nat) (off : Z) : option Z :=
  match todo with
  | O => None
  | S k =>
      if off <? oi_size m dir_oi then
        let od := ospfs_inode_data m dir_oi off in
        if negb (od_ino m od =? 0)
           && (strlen m (od_name od) =? namelen)
           && memcmp0 m (od_name od) (str_bytes name namelen)
        then Some od
        else find_direntry_from m dir_oi name namelen k (off + OSPFS_DIRENTRY_SIZE)
      else None
  end.

(** [find_direntry(dir_oi, name, namelen)]; [None] is the null pointer.
    [name] holds the characters up to the terminator. *)
Definition find_direntry (m : mem) (dir_oi : Z) (name : list Z) (namelen : Z)
  : option Z :=
  let namelen := if namelen <? 0 then Z.of_nat (length name) else namelen in
  find_direntry_from m dir_oi name namelen
    (Z.to_nat (oi_size m dir_oi / OSPFS_DIRENTRY_SIZE + 1)) 0.

(** A [ospfs_direntry_t *]: a pointer into the image, or an integer turned
    into a pointer by [ERR_PTR]. *)
Inductive direntry_ptr : Type :=
| InImage (off : Z)
| ERR_PTR (error : Z).

(** [IS_ERR] and [PTR_ERR] of linux/err.h: the error pointers are the top
    [MAX_ERRNO] addresses, where the kernel maps nothing. *)
Definition MAX_ERRNO : Z := 4095.

Definition IS_ERR (p : direntry_ptr) : bool :=
  match p with
  | InImage _ => false
  | ERR_PTR e => u32 (- MAX_ERRNO) <=? u32 e
  end.

Definition PTR_ERR (p : direntry_ptr) : Z :=
  match p with
  | InImage off => s32 off
  | ERR_PTR e => s32 e
  end.

(** The first loop of [create_blank_direntry]: a blank entry, or the offset
    at which the loop ends. *)
Fixpoint blank_scan (m : mem) (dir_oi : Z) (todo : nat) (off : Z) : Z + Z :=
  match todo with
  | O => inr off
  | S k =>
      if off <? oi_size m dir_oi then
        let od := ospfs_inode_data m dir_oi off in
        if od_ino m od =? 0 then inl od
        else blank_scan m dir_oi k (off + OSPFS_DIRENTRY_SIZE)
      else inr off
  end.

Definition create_blank_direntry (m : mem) (dir_oi : Z) : direntry_ptr * mem :=
  match blank_scan m dir_oi
          (Z.to_nat (oi_size m dir_oi / OSPFS_DIRENTRY_SIZE + 1)) 0 with
  | inl od => (InImage od, m)
  | inr off =>
      let '(success, m) := add_block m dir_oi in
      if success <? 0 then (ERR_PTR (- success), m)
      else
        let od := ospfs_inode_data m dir_oi off in
        if negb (od_ino m od =? 0) then (ERR_PTR (- EIO), m)
        else (InImage od, m)
  end.

(** What a call of a directory operation comes to: it returns, or it goes
    through a pointer that does not point into the image. *)
Inductive outcome : Type :=
| Returns (r : Z) (m : mem)
| Wild (addr : Z) (m : mem).

(** The inode scan of [ospfs_create] and [ospfs_symlink]: the first
    [entry_ino] whose inode has no links, or [os_ninodes]. *)
Fixpoint free_inode_scan (m : mem) (todo : nat) (entry_ino : Z) : Z :=
  match todo with
  | O => entry_ino
  | S k =>
      match ospfs_inode m entry_ino with
      | None => entry_ino
      | Some entry_oi =>
          if oi_nlink m entry_oi =? 0 then entry_ino
          else free_inode_scan m k (entry_ino + 1)
      end
  end.

(** Address of the inode record [ino], without the range check. *)
Definition inode_at (m : mem) (ino : Z) : Z :=
  ospfs_block (os_firstinob m) + ino * OSPFS_INODESIZE.

(** [ospfs_link]: [src_ino] is [src_dentry->d_inode->i_ino], [dir_ino] is
    [dir->i_ino] and [name] holds the [d_name.len] characters of the new
    name. *)
Definition ospfs_link (m : mem) (src_ino dir_ino : Z) (name : list Z) : outcome :=
  let destination_inode := u32 src_ino in
  let len := Z.of_nat (length name) in
  match ospfs_inode m dir_ino with
  | None => Wild 0 m
  | Some containing_directory =>
      match find_direntry m containing_directory name len with
      | Some _ => Returns (- EEXIST) m
      | None =>
          let '(new_dir_entry, m) := create_blank_direntry m containing_directory in
          if IS_ERR new_dir_entry then Returns (PTR_ERR new_dir_entry) m
          else if OSPFS_MAXNAMELEN <? len then Returns (- ENAMETOOLONG) m
          else
            match new_dir_entry with
            | ERR_PTR e => Wild (u32 e) m
            | InImage od =>
                let m := memcpy m (od_name od) name in
                let m := store8 m (od_name od + len) 0 in
                let m := store32 m od destination_inode in
                match ospfs_inode m destination_inode with
                | None => Wild 0 m
                | Some target =>
                    Returns 0 (set_oi_nlink m target (u32 (oi_nlink m target + 1)))
                end
            end
      end
  end.

(** [ospfs_create]; the Linux inode made at the end is kernel glue and is
    taken to succeed. *)
Definition ospfs_create (m : mem) (dir_ino : Z) (name : list Z) (mode : Z)
  : outcome :=
  let len := Z.of_nat (length name) in
  if OSPFS_MAXNAMELEN <? len then Returns (- ENAMETOOLONG) m
  else
    match ospfs_inode m dir_ino with
    | None => Returns (- EIO) m
    | Some dir_oi =>
        match find_direntry m dir_oi name len with
        | Some _ => Returns (- EEXIST) m
        | None =>
            let '(od, m) := create_blank_direntry m dir_oi in
            if IS_ERR od then Returns (PTR_ERR od) m
            else
              let entry_ino := free_inode_scan m (Z.to_nat (os_ninodes m)) 0 in
              if entry_ino =? os_ninodes m then Returns (- ENOSPC) m
              else
                match od with
                | ERR_PTR e => Wild (u32 e) m
                | InImage od =>
                    let m := store32 m od entry_ino in
                    let m := memcpy m (od_name od) name in
                    let m := store8 m (od_name od + len) 0 in
                    match ospfs_inode m (od_ino m od) with
                    | None => Wild 0 m
                    | Some ino =>
                        let m := memset m ino 0 OSPFS_INODESIZE in
                        let m := set_oi_ftype m ino OSPFS_FTYPE_REG in
                        let m := set_oi_nlink m ino (u32 (oi_nlink m ino + 1)) in
                        let m := set_oi_mode m ino (u32 mode) in
                        Returns 0 m
                    end
                end
        end
    end.

(** [ospfs_symlink]; [symname] holds the characters of the target. *)
Definition ospfs_symlink (m : mem) (dir_ino : Z) (name symname : list Z)
  : outcome :=
  let len := Z.of_nat (length name) in
  match ospfs_inode m dir_ino with
  | None =>
      if (OSPFS_MAXNAMELEN <? len)
         || (OSPFS_MAXSYMLINKLEN <? Z.of_nat (length symname))
      then Returns (- ENAMETOOLONG) m
      else Wild 0 m
  | Some containing_directory =>
      if (OSPFS_MAXNAMELEN <? len)
         || (OSPFS_MAXSYMLINKLEN <? Z.of_nat (length symname))
      then Returns (- ENAMETOOLONG) m
      else
        match find_direntry m containing_directory name len with
        | Some _ => Returns (- EEXIST) m
        | None =>
            let entry_ino := free_inode_scan m (Z.to_nat (os_ninodes m)) 0 in
            if entry_ino =? os_ninodes m then Returns (- ENOSPC) m
            else
              let entry_oi := inode_at m entry_ino in
              let '(new_dir_entry, m) :=
                create_blank_direntry m containing_directory in
              if IS_ERR new_dir_entry then Returns (PTR_ERR new_dir_entry) m
              else
                let m := set_oi_size m entry_oi (Z.of_nat (length symname)) in
                let m := set_oi_ftype m entry_oi OSPFS_FTYPE_SYMLINK in
                let m := set_oi_nlink m entry_oi 1 in
                let m := strcpy m (oi_symlink entry_oi) symname in
                match new_dir_entry with
                | ERR_PTR e => Wild (u32 e) m
                | InImage od =>
                    let m := store32 m od entry_ino in
                    let m := memcpy m (od_name od) name in
                    let m := store8 m (od_name od + len) 0 in
                    Returns 0 m
                end
        end
  end.

(** ** Following a symbolic link *)

(** The loop of [ospfs_follow_link] that looks for the colon (58). *)
Fixpoint colon_scan (m : mem) (sym : Z) (todo : nat) (i : Z) : mem * Z :=
  match todo with
  | O => (m, i)
  | S k =>
      if i <? strlen m sym then
        if load8 m (sym + i) =? 58 then (store8 m (sym + i) 0, i)
        else colon_scan m sym k (i + 1)
      else (m, i)
  end.

(** The characters of [root?]. *)
Definition root_prefix : list Z := [114; 111; 111; 116; 63].

(** [ospfs_follow_link]: [oi] is the inode of the link, [uid] is
    [current->uid].  The value is the image and the pointer handed to
    [nd_set_link]. *)
Definition ospfs_follow_link (m : mem) (oi uid : Z) : mem * Z :=
  let '(m, r) := strncpy m (oi_symlink oi) root_prefix 5 in
  match r with
  | Some _ =>
      let '(m, i) :=
        colon_scan m (oi_symlink oi)
          (Z.to_nat (strlen m (oi_symlink oi) + 1)) 0 in
      if uid =? 0 then (m, oi_symlink oi + 5)
      else (m, oi_symlink oi + i + 1)
  | None => (m, oi_symlink oi)
  end.

(** The path the kernel walks after [ospfs_follow_link]: the string at the
    pointer given to [nd_set_link]. *)
Definition follow_symlink (m : mem) (oi uid : Z) : list Z :=
  let '(m, p) := ospfs_follow_link m oi uid in
  cstring m p.

(** The process that makes the call, [current] in the source.  Of its
    [struct task_struct] (linux/sched.h of the 2.6 kernels the module is
    built for; the header is no part of the repository) the user ids are
    kept: [uid] is the real user id, the field [ospfs_follow_link] reads,
    and [euid] the effective one, which differs from it while a
    set-user-id program runs. *)
Record task_struct : Type := { uid : Z; euid : Z }.

(** [ospfs_follow_link] called by the process [current], and the path the
    kernel walks then. *)
Definition ospfs_follow_link_as (m : mem) (oi : Z) (current : task_struct)
  : mem * Z :=
  ospfs_follow_link m oi (uid current).

Definition follow_symlink_as (m : mem) (oi : Z) (current : task_struct)
  : list Z :=
  let '(m, p) := ospfs_follow_link_as m oi current in
  cstring m p.

(** ** Where the bytes of a file lie *)

(** The addresses of the pointer words that [ospfs_inode_blockno] reads
    for the file block [b]. *)
Definition block_index_words (m : mem) (oi b : Z) : list Z :=
  if OSPFS_NDIRECT + OSPFS_NINDIRECT <=? b then
    let blockoff := b - (OSPFS_NDIRECT + OSPFS_NINDIRECT) in
    let w2 := ospfs_block (oi_indirect2 m oi) + 4 * (blockoff / OSPFS_NINDIRECT) in
    [ oi_indirect2_at oi; w2;
      ospfs_block (load32 m w2) + 4 * (blockoff mod OSPFS_NINDIRECT) ]
  else if OSPFS_NDIRECT <=? b then
    [ oi_indirect_at oi; ospfs_block (oi_indirect m oi) + 4 * (b - OSPFS_NDIRECT) ]
  else [ oi_direct_at oi b ].

(** The bytes [lo, hi) of the file lie in blocks of their own: every byte
    has a block, the size and type fields of the inode and the pointer
    words that lead to the blocks lie outside them, and two file blocks do
    not share bytes. *)
Definition tree_apart (m : mem) (oi lo hi : Z) : Prop :=
  (forall p, lo <= p < hi -> ospfs_inode_blockno m oi p <> 0)
  /\ forall p q, lo <= p < hi -> lo <= q < hi ->
       let dp := ospfs_block (ospfs_inode_blockno m oi p) in
       let dq := ospfs_block (ospfs_inode_blockno m oi q) in
       (forall w,
          In w ([oi; oi + 4] ++ block_index_words m oi (p / OSPFS_BLKSIZE)) ->
          w + 4 <= dq \/ dq + OSPFS_BLKSIZE <= w)
       /\ (p / OSPFS_BLKSIZE <> q / OSPFS_BLKSIZE ->
           dp + OSPFS_BLKSIZE <= dq \/ dq + OSPFS_BLKSIZE <= dp).

(** The addresses of the bytes [lo, hi) of the file in the image [m0], and
    the images that differ from [m0] at most there. *)
Definition data_addr (m0 : mem) (oi lo hi a : Z) : Prop :=
  exists p, lo <= p < hi /\ a = ospfs_inode_data m0 oi p.

Definition same_outside (m0 : mem) (oi lo hi : Z) (m : mem) : Prop :=
  forall a, ~ data_addr m0 oi lo hi a -> load8 m a = load8 m0 a.

(** ** The free map as a whole *)

(** The number of bits [allocate_block] looks at. *)
Definition freemap_bits (m : mem) : Z :=
  s32 (s32 (os_firstinob m - OSPFS_FREEMAP_BLK) * OSPFS_BLKSIZE * 8).

(** The scan of [allocate_block] ends without a free bit. *)
Definition disk_full (m : mem) : bool :=
  negb (fst (allocate_scan m (ospfs_block OSPFS_FREEMAP_BLK)
               (Z.to_nat (freemap_bits m)) 0)).

(** ** Linux inodes *)

(** More errno values (asm-generic/errno-base.h). *)
Definition EPERM : Z := 1.
Definition ENOENT : Z := 2.
Definition EINVAL : Z := 22.

(** The file type bits of [i_mode] and the permission bits a symbolic link
    gets (linux/stat.h). *)
Definition S_IFREG : Z := 32768.
Definition S_IFDIR : Z := 16384.
Definition S_IFLNK : Z := 40960.
Definition S_IRWXUGO : Z := 511.

(** The operation tables [ospfs_mk_linux_inode] installs. *)
Inductive inode_ops : Type :=
| ospfs_reg_inode_ops
| ospfs_dir_inode_ops
| ospfs_symlink_inode_ops.

(** The fields of [struct inode] the module fills from the image.
    [i_mode] is a [umode_t], sixteen bits wide; the time stamps are the
    time of the call and are left out. *)
Record linux_inode : Type := {
  i_ino : Z;
  i_uid : Z;
  i_gid : Z;
  i_size : Z;
  i_mode : Z;
  i_op : inode_ops;
  i_nlink : Z
}.

(** What [ospfs_mk_linux_inode] comes to: an inode, the null pointer, or a
    kernel panic. *)
Inductive made_inode : Type :=
| Made (inode : linux_inode)
| NoInode
| Panic.

(** [ospfs_mk_linux_inode(sb, ino)]; [new_inode] is kernel glue and is taken
    to succeed. *)
Definition ospfs_mk_linux_inode (m : mem) (ino : Z) : made_inode :=
  match ospfs_inode m ino with
  | None => NoInode
  | Some oi =>
      let mk mode ops nlink :=
        Made {| i_ino := ino; i_uid := 0; i_gid := 0; i_size := oi_size m oi;
                i_mode := mode mod 2 ^ 16; i_op := ops; i_nlink := nlink |} in
      if oi_ftype m oi =? OSPFS_FTYPE_REG then
        mk (Z.lor (oi_mode m oi) S_IFREG) ospfs_reg_inode_ops (oi_nlink m oi)
      else if oi_ftype m oi =? OSPFS_FTYPE_DIR then
        mk (Z.lor (oi_mode m oi) S_IFDIR) ospfs_dir_inode_ops
           (u32 (oi_nlink m oi + 1))
      else if oi_ftype m oi =? OSPFS_FTYPE_SYMLINK then
        mk (Z.lor S_IRWXUGO S_IFLNK) ospfs_symlink_inode_ops (oi_nlink m oi)
      else Panic
  end.

(** ** Looking up, listing and removing directory entries *)

(** The loop of [ospfs_dir_lookup], from offset [off] on: the first entry
    in use that carries the name. *)
Fixpoint lookup_scan (m : mem) (dir_oi : Z) (name : list Z) (namelen : Z)
    (todo : nat) (off : Z) : option Z :=
  match todo with
  | O => None
  | S k =>
      if off <? oi_size m dir_oi then
        let od := ospfs_inode_data m dir_oi off in
        if (0 <? od_ino m od)
           && (strlen m (od_name od) =? namelen)
           && memcmp0 m (od_name od) (str_bytes name namelen)
        then Some od
        else lookup_scan m dir_oi name namelen k (off + OSPFS_DIRENTRY_SIZE)
      else None
  end.

(** What [ospfs_dir_lookup] hands back: an error pointer, a negative
    dentry, a dentry with its inode; or the call panics, or goes through
    the null pointer. *)
Inductive lookup_result : Type :=
| LookupError (e : Z)
| Negative
| Positive (inode : linux_inode)
| LookupPanic
| LookupWild.

(** [ospfs_dir_lookup]: [dir_ino] is [dir->i_ino] and [name] holds the
    [d_name.len] characters looked for. *)
Definition ospfs_dir_lookup (m : mem) (dir_ino : Z) (name : list Z)
  : lookup_result :=
  let len := Z.of_nat (length name) in
  if OSPFS_MAXNAMELEN <? len then LookupError (- ENAMETOOLONG)
  else
    match ospfs_inode m dir_ino with
    | None => LookupWild
    | Some dir_oi =>
        match lookup_scan m dir_oi name len
                (Z.to_nat (oi_size m dir_oi / OSPFS_DIRENTRY_SIZE + 1)) 0 with
        | None => Negative
        | Some od =>
            match ospfs_mk_linux_inode m (od_ino m od) with
            | Made inode => Positive inode
            | NoInode => LookupError (- EINVAL)
            | Panic => LookupPanic
            end
        end
    end.

(** [d_type] values handed to [filldir] (linux/fs.h). *)
Definition DT_DIR : Z := 4.
Definition DT_REG : Z := 8.
Definition DT_LNK : Z := 10.

(** What a call of [ospfs_dir_readdir] comes to: the value returned with
    the file position and the state of the caller's buffer, or a read
    through the null pointer. *)
Inductive readdir_outcome (St : Type) : Type :=
| Listed (r f_pos : Z) (s : St)
| ListWild (s : St).

Arguments Listed {St} r f_pos s.
Arguments ListWild {St} s.

Section Readdir.

(** The callback: the kernel's buffer is a state [St]; [filldir s name
    offset ino d_type] is the value returned and the next state.  [name]
    holds the [namelen] characters of the name. *)
Variable St : Type.
Variable filldir : St -> list Z -> Z -> Z -> Z -> Z * St.

(** The loop over the entries proper.  [pos0] is [filp->f_pos] as the call
    found it; [None] when the fuel runs out. *)
Fixpoint readdir_loop (fuel : nat) (m : mem) (dir_oi : option Z) (pos0 : Z)
    (s : St) (f_pos : Z) : option (readdir_outcome St) :=
  if 2 <=? f_pos then
    match fuel with
    | O => None
    | S k =>
        let entry_off := s32 (f_pos - 2) in
        match dir_oi with
        | None => Some (ListWild s)
        | Some oi =>
            if oi_size m oi <=? u32 entry_off then Some (Listed 1 f_pos s)
            else
              let od := ospfs_inode_data m oi (u32 entry_off) in
              if 0 <? od_ino m od then
                match ospfs_inode m (od_ino m od) with
                | None => Some (ListWild s)
                | Some entry_oi =>
                    let emit entry_type :=
                      let '(ok_so_far, s) :=
                        filldir s (cstring m (od_name od)) f_pos (od_ino m od)
                          entry_type in
                      if ok_so_far <? 0 then Some (Listed 0 f_pos s)
                      else readdir_loop k m dir_oi pos0 s
                             (u32 (f_pos + OSPFS_DIRENTRY_SIZE)) in
                    if oi_ftype m entry_oi =? OSPFS_FTYPE_REG then emit DT_REG
                    else if oi_ftype m entry_oi =? OSPFS_FTYPE_DIR then emit DT_DIR
                    else if oi_ftype m entry_oi =? OSPFS_FTYPE_SYMLINK
                    then emit DT_LNK
                    else Some (Listed (- EINVAL) pos0 s)
                end
              else readdir_loop k m dir_oi pos0 s
                     (u32 (f_pos + OSPFS_DIRENTRY_SIZE))
        end
    end
  else Some (Listed 0 f_pos s).

(** [ospfs_dir_readdir]: [dir_ino] and [parent_ino] are the inode numbers
    of the directory and of its parent, [pos0] is [filp->f_pos]. *)
Definition ospfs_dir_readdir (m : mem) (dir_ino parent_ino pos0 : Z) (s : St)
  : option (readdir_outcome St) :=
  let dir_oi := ospfs_inode m dir_ino in
  let f_pos := u32 pos0 in
  let '(ok_so_far, f_pos, s) :=
    if f_pos =? 0 then
      let '(ok, s) := filldir s [46] f_pos dir_ino DT_DIR in
      (ok, (if 0 <=? ok then u32 (f_pos + 1) else f_pos), s)
    else (0, f_pos, s) in
  let '(ok_so_far, f_pos, s) :=
    if (0 <=? ok_so_far) && (f_pos =? 1) then
      let '(ok, s) := filldir s [46; 46] f_pos parent_ino DT_DIR in
      (ok, (if 0 <=? ok then u32 (f_pos + 1) else f_pos), s)
    else (ok_so_far, f_pos, s) in
  let fuel :=
    match dir_oi with
    | None => 1%nat
    | Some oi => Z.to_nat (oi_size m oi / OSPFS_DIRENTRY_SIZE + 2)
    end in
  readdir_loop fuel m dir_oi pos0 s f_pos.

End Readdir.

(** The loop of [ospfs_unlink]: the entry looked at last and the offset at
    which the loop ends.  [None] when the fuel runs out. *)
Fixpoint unlink_scan (m : mem) (dir_oi : Z) (name : list Z) (namelen : Z)
    (fuel : nat) (off : Z) (od : option Z) : option (option Z * Z) :=
  if off <? oi_size m dir_oi then
    match fuel with
    | O => None
    | S k =>
        let od := ospfs_inode_data m dir_oi off in
        if (0 <? od_ino m od)
           && (strlen m (od_name od) =? namelen)
           && memcmp0 m (od_name od) (str_bytes name namelen)
        then Some (Some od, off)
        else unlink_scan m dir_oi name namelen k (off + OSPFS_DIRENTRY_SIZE)
               (Some od)
    end
  else Some (od, off).

(** [ospfs_unlink]: [ino] is [dentry->d_inode->i_ino], [dir_ino] the inode
    number of the directory and [name] the [d_name.len] characters of the
    entry. *)
Definition ospfs_unlink (m : mem) (ino dir_ino : Z) (name : list Z)
  : option outcome :=
  let len := Z.of_nat (length name) in
  let oi := ospfs_inode m ino in
  match ospfs_inode m dir_ino with
  | None => Some (Wild 0 m)
  | Some dir_oi =>
      match unlink_scan m dir_oi name len
              (Z.to_nat (oi_size m dir_oi / OSPFS_DIRENTRY_SIZE + 1)) 0 None with
      | None => None
      | Some (od, entry_off) =>
          if entry_off =? oi_size m dir_oi then Some (Returns (- ENOENT) m)
          else
            match od with
            | None => Some (Wild 0 m)
            | Some od =>
                let m := store32 m od 0 in
                match oi with
                | None => Some (Wild 0 m)
                | Some oi =>
                    let m := set_oi_nlink m oi (u32 (oi_nlink m oi - 1)) in
                    if (oi_nlink m oi =? 0)
                       && negb (oi_ftype m oi =? OSPFS_FTYPE_SYMLINK)
                    then
                      match change_size m oi 0 with
                      | None => None
                      | Some (r, m) => Some (Returns r m)
                      end
                    else Some (Returns 0 m)
                end
            end
      end
  end.

(** ** Changing attributes *)

(** [ATTR_MODE] and [ATTR_SIZE] (linux/fs.h). *)
Definition ATTR_MODE : Z := 1.
Definition ATTR_SIZE : Z := 8.

(** [ospfs_notify_change]: [ino] is [dentry->d_inode->i_ino]; [ia_valid],
    [ia_size] and [ia_mode] are the fields of [attr].  The two kernel calls
    that end the function are outside the module: [change_ok] and [setattr]
    are the values [inode_change_ok] and [inode_setattr] return. *)
Definition ospfs_notify_change (m : mem) (ino ia_valid ia_size ia_mode : Z)
    (change_ok setattr : Z) : option outcome :=
  match ospfs_inode m ino with
  | None =>
      if negb (Z.land ia_valid ATTR_SIZE =? 0) || negb (Z.land ia_valid ATTR_MODE =? 0)
      then Some (Wild 0 m)
      else Some (Returns (if change_ok <? 0 then change_ok else setattr) m)
  | Some oi =>
      let finish (m : mem) :=
        let m :=
          if negb (Z.land ia_valid ATTR_MODE =? 0)
          then set_oi_mode m oi (u32 ia_mode) else m in
        Some (Returns (if change_ok <? 0 then change_ok else setattr) m) in
      if negb (Z.land ia_valid ATTR_SIZE =? 0) then
        if oi_ftype m oi =? OSPFS_FTYPE_DIR then Some (Returns (- EPERM) m)
        else
          match change_size m oi (u32 ia_size) with
          | None => None
          | Some (retval, m) =>
              if retval <? 0 then Some (Returns retval m) else finish m
          end
      else finish m
  end.

(** ** What a directory holds *)

(** The entry number [k] of a directory: the entry at offset
    [k * OSPFS_DIRENTRY_SIZE]. *)
Definition direntry_at (m : mem) (dir_oi k : Z) : Z :=
  ospfs_inode_data m dir_oi (k * OSPFS_DIRENTRY_SIZE).

(** The test the directory loops make on an entry: it is in use, its name
    is [namelen] characters long and they are the first [namelen] bytes of
    the string [name]. *)
Definition direntry_named (m : mem) (od : Z) (name : list Z) (namelen : Z) : bool :=
  negb (od_ino m od =? 0)
  && (strlen m (od_name od) =? namelen)
  && memcmp0 m (od_name od) (str_bytes name namelen).

(** What [filldir] is told about one entry: name, position, inode number
    and type. *)
Definition dirent : Type := (list Z * Z * Z * Z)%type.

(** A [filldir] that has room for every entry and keeps them in order. *)
Definition take_all (s : list dirent) (name : list Z) (offset ino d_type : Z)
  : Z * list dirent :=
  (0, s ++ [(name, offset, ino, d_type)]).

(** The [d_type] of an inode, where it has one of the three file types. *)
Definition d_type_of (m : mem) (ino : Z) : option Z :=
  match ospfs_inode m ino with
  | None => None
  | Some oi =>
      if oi_ftype m oi =? OSPFS_FTYPE_REG then Some DT_REG
      else if oi_ftype m oi =? OSPFS_FTYPE_DIR then Some DT_DIR
      else if oi_ftype m oi =? OSPFS_FTYPE_SYMLINK then Some DT_LNK
      else None
  end.

(** What entry number [k] adds to a listing: nothing when it is blank. *)
Definition listed_entry (m : mem) (dir_oi : Z) (k : nat) : list dirent :=
  let od := direntry_at m dir_oi (Z.of_nat k) in
  if od_ino m od =? 0 then []
  else
    match d_type_of m (od_ino m od) with
    | Some d_type =>
        [(cstring m (od_name od), 2 + Z.of_nat k * OSPFS_DIRENTRY_SIZE,
          od_ino m od, d_type)]
    | None => []
    end.

(** The number of entries, blank ones included, of a directory. *)
Definition direntry_count (m : mem) (dir_oi : Z) : Z :=
  (oi_size m dir_oi + OSPFS_DIRENTRY_SIZE - 1) / OSPFS_DIRENTRY_SIZE.

(** The listing of a directory: [.], [..] and the entries in use, in the
    order of their offsets. *)
Definition listing (m : mem) (dir_ino parent_ino dir_oi : Z) : list dirent :=
  [([46], 0, dir_ino, DT_DIR); ([46; 46], 1, parent_ino, DT_DIR)]
  ++ flat_map (listed_entry m dir_oi)
       (seq 0 (Z.to_nat (direntry_count m dir_oi))).

(** ** Byte ranges *)

(** The byte ranges [a, a+n) and [b, b+k) do not meet. *)
Definition ranges_apart (a n b k : Z) : bool :=
  (a + n <=? b) || (b + k <=? a).

(** The range [a, a+n) meets none of the ranges of [R], each given by its
    start and its length. *)
Definition clear_of (R : list (Z * Z)) (a n : Z) : bool :=
  forallb (fun r => ranges_apart a n (fst r) (snd r)) R.

(** The image [m'] differs from [m] inside the ranges of [R] at most. *)
Definition changed_only (R : list (Z * Z)) (m m' : mem) : Prop :=
  forall x, (forall r, In r R -> x < fst r \/ fst r + snd r <= x) ->
            load8 m' x = load8 m x.

(** What a directory loop reads of entry number [j] lies clear of [R]: the
    entry's inode number and its name with the terminator, and the pointer
    words that lead to the block of the entry. *)
Definition entry_clear_of (m : mem) (dir_oi : Z) (R : list (Z * Z)) (j : Z) : bool :=
  let od := direntry_at m dir_oi j in
  clear_of R od (5 + strlen m (od_name od))
  && forallb (fun w => clear_of R w 4)
       (block_index_words m dir_oi (j * OSPFS_DIRENTRY_SIZE / OSPFS_BLKSIZE)).

(** The inode count and the first inode block in the superblock, and the
    size and type of the directory's inode, lie clear of [R]. *)
Definition dir_clear_of (m : mem) (dir_oi : Z) (R : list (Z * Z)) : bool :=
  clear_of R (ospfs_super + 8) 8 && clear_of R dir_oi 8.

(** All that a directory loop reads on its way to entry number [k] lies
    clear of [R], the entry itself apart. *)
Definition slot_clear_of (m : mem) (dir_oi : Z) (R : list (Z * Z)) (k : Z) : bool :=
  dir_clear_of m dir_oi R
  && forallb (fun w => clear_of R w 4)
       (block_index_words m dir_oi (k * OSPFS_DIRENTRY_SIZE / OSPFS_BLKSIZE))
  && forallb (fun j => entry_clear_of m dir_oi R (Z.of_nat j))
       (seq 0 (Z.to_nat k)).

(** Entry number [k] is the first blank entry of the directory. *)
Definition first_blank (m : mem) (dir_oi k : Z) : bool :=
  (0 <=? k) && (k * OSPFS_DIRENTRY_SIZE <? oi_size m dir_oi)
  && (od_ino m (direntry_at m dir_oi k) =? 0)
  && forallb (fun j => negb (od_ino m (direntry_at m dir_oi (Z.of_nat j)) =? 0))
       (seq 0 (Z.to_nat k)).

(** Entry number [k] carries the name and no other entry does; what the
    directory loops read of the other entries, and the pointer words that
    lead to entry [k], lie clear of [R]. *)
Definition only_named (m : mem) (dir_oi : Z) (R : list (Z * Z)) (name : list Z)
    (k : Z) : bool :=
  (0 <=? k) && (k <? direntry_count m dir_oi)
  && direntry_named m (direntry_at m dir_oi k) name (Z.of_nat (length name))
  && forallb (fun w => clear_of R w 4)
       (block_index_words m dir_oi (k * OSPFS_DIRENTRY_SIZE / OSPFS_BLKSIZE))
  && forallb
       (fun j =>
          (Z.of_nat j =? k)
          || negb (direntry_named m (direntry_at m dir_oi (Z.of_nat j)) name
                     (Z.of_nat (length name)))
             && entry_clear_of m dir_oi R (Z.of_nat j))
       (seq 0 (Z.to_nat (direntry_count m dir_oi))).

(** A name of characters: bytes other than the terminator. *)
Definition plain_name (name : list Z) : bool :=
  forallb (fun c => (0 <? c) && (c <? 256)) name.

End Ospfs.

Arguments Listed {St} r f_pos s.
Arguments ListWild {St} s.

(** ** A concrete header and concrete images *)

(** One coherent choice of the constants, which the specification leaves
    open but for the block size: 1024-byte blocks, ten direct pointers,
    64-byte inodes (so that 48 bytes follow the mode field), 128-byte
    directory entries.  [len] is the length of the image. *)
Definition lab3 (len : Z) : ospfs_h :=
  {| OSPFS_BLKSIZE := 1024;
     OSPFS_NDIRECT := 10;
     OSPFS_MAXNAMELEN := 123;
     OSPFS_MAXSYMLINKLEN := 47;
     OSPFS_INODESIZE := 64;
     OSPFS_DIRENTRY_SIZE := 128;
     OSPFS_FTYPE_REG := 0;
     OSPFS_FTYPE_DIR := 1;
     OSPFS_FTYPE_SYMLINK := 2;
     ospfs_length := len |}.

(** An image given by the 32-bit words that are not zero. *)
Definition image (ws : list (Z * Z)) : mem :=
  fold_left (fun m aw => store32 m (fst aw) (snd aw)) ws (fun _ => 0).

(** [count] consecutive block numbers [first, first+1, ...] stored as an
    array of words at [base]. *)
Definition fill_ptrs (m : mem) (base first count : Z) : mem :=
  fun x =>
    if (base <=? x) && (x <? base + 4 * count)
    then ((first + (x - base) / 4) / 2 ^ (8 * ((x - base) mod 4))) mod 256
    else m x.

(** The image an optional result holds, [m] when there is none. *)
Definition image_or (m : mem) (o : option mem) : mem :=
  match o with
  | Some m' => m'
  | None => m
  end.

Module Img1.
(** Six blocks: boot, superblock, bitmap, one inode block, and two data
    blocks.  Inode 2 is a regular file of 100 bytes whose only block is
    block 4; block 5 is the only free block. *)
Definition h : ospfs_h := lab3 (6 * 1024).
Definition inode2 : Z := 3 * 1024 + 2 * 64.
Definition img : mem :=
  image [ (1024 + 4, 6); (1024 + 8, 16); (1024 + 12, 3);   (* superblock *)
          (2 * 1024, 32);                                  (* bit 5 free *)
          (inode2, 100); (inode2 + 4, 0); (inode2 + 8, 1);
          (inode2 + 16, 4) ].
(** [img] after the growth step of a write of three bytes at offset 100. *)
Definition roomy : mem := image_or img (make_room (H := h) img inode2 3 100).
End Img1.

(** The image after a call of a directory operation. *)
Definition after (o : outcome) : mem :=
  match o with
  | Returns _ m => m
  | Wild _ m => m
  end.

(** How the call ended: the value returned, or the stray pointer. *)
Definition ending (o : outcome) : Z + Z :=
  match o with
  | Returns r _ => inl r
  | Wild a _ => inr a
  end.

(** User memory that maps the bytes [bs] at [base] and nothing else. *)
Definition ubuf (base : Z) (bs : list Z) : umem :=
  fun a =>
    if (base <=? a) && (a <? base + Z.of_nat (length bs))
    then Some (nth (Z.to_nat (a - base)) bs 0)
    else None.

(** What a call of [change_size] leaves: the value returned, the size of the
    file, and the bits of the free map for the blocks [blocks]. *)
Definition change_size_outcome {H : ospfs_h} (m : mem) (oi new_size : Z)
    (blocks : list Z) : option (Z * Z * list bool) :=
  match change_size m oi new_size with
  | Some (r, m') =>
      Some (r, oi_size m' oi,
            map (bitvector_test m' (ospfs_block OSPFS_FREEMAP_BLK)) blocks)
  | None => None
  end.

(** The bytes [bs] are written at the start of the file [oi], then the file
    is cut back to no bytes (what unlink does to a file without links):
    the two values returned and the image. *)
Definition write_then_truncate {H : ospfs_h} (m : mem) (oi : Z) (bs : list Z)
  : option (Z * Z * mem) :=
  match ospfs_write m oi 0 (ubuf 4096 bs) 4096 (Z.of_nat (length bs)) 0 with
  | Some (w, _, m1) =>
      match change_size m1 oi 0 with
      | Some (c, m2) => Some (w, c, m2)
      | None => None
      end
  | None => None
  end.

Definition image_after (m : mem) (o : option (Z * Z * mem)) : mem :=
  match o with
  | Some (_, _, m') => m'
  | None => m
  end.

(** [write(f, buf, off); read(f, off, len(buf))] on a file opened without
    [O_APPEND]: the value of the write, the value of the read, and the
    bytes the read left in a user buffer that held 255 in every place. *)
Definition write_then_read {H : ospfs_h} (m : mem) (oi : Z) (buf : list Z) (off : Z)
  : option (Z * Z * list (option Z)) :=
  let len := Z.of_nat (length buf) in
  match ospfs_write m oi 0 (ubuf 4096 buf) 4096 len off with
  | Some (w, _, m1) =>
      match ospfs_read m1 oi (ubuf 8192 (repeat 255 (length buf))) 8192 len off with
      | Some (r, _, um') =>
          Some (w, r, map um' (map (fun i => 8192 + Z.of_nat i) (seq 0 (length buf))))
      | None => None
      end
  | None => None
  end.

(** [write(f, buf)] on a file opened with [O_APPEND] when the file position
    is [pos], and then [read(f, end, len(buf))] at the place [end] where
    the file ended before the write: the value of the write, the position
    it leaves, the size of the file after it, the value of the read and
    the bytes the read left in a user buffer that held 255 in every
    place. *)
Definition append_then_read {H : ospfs_h} (m : mem) (oi : Z) (buf : list Z) (pos : Z)
  : option (Z * Z * Z * Z * list (option Z)) :=
  let len := Z.of_nat (length buf) in
  let old_end := oi_size m oi in
  match ospfs_write m oi O_APPEND (ubuf 4096 buf) 4096 len pos with
  | Some (w, pos', m1) =>
      match ospfs_read m1 oi (ubuf 8192 (repeat 255 (length buf))) 8192 len old_end with
      | Some (r, _, um') =>
          Some (w, pos', oi_size m1 oi, r,
                map um' (map (fun i => 8192 + Z.of_nat i) (seq 0 (length buf))))
      | None => None
      end
  | None => None
  end.

Module Img2.
(** Inode 2 is a file of exactly ND + NI + NI = 522 blocks with a complete
    pointer tree: data blocks 4..13 direct, indirect block 14 with data
    blocks 15..270, indirect2 block 271 whose first entry is the indirect
    block 272 with data blocks 273..528.  Inode 3 is an empty file.  Blocks
    529 and 530 are free, and every byte of them is zero. *)
Definition h : ospfs_h := lab3 (531 * 1024).
Definition inode2 : Z := 3 * 1024 + 2 * 64.
Definition inode3 : Z := 3 * 1024 + 3 * 64.
Definition img : mem :=
  let m :=
    image [ (1024 + 4, 531); (1024 + 8, 16); (1024 + 12, 3);
            (2 * 1024 + 4 * 16, 393216);          (* bits 529 and 530 free *)
            (inode2, 522 * 1024); (inode2 + 4, 0); (inode2 + 8, 1);
            (inode2 + 16 + 40, 14); (inode2 + 16 + 44, 271);
            (inode3, 0); (inode3 + 4, 0); (inode3 + 8, 1);
            (271 * 1024, 272) ] in
  let m := fill_ptrs m (inode2 + 16) 4 10 in
  let m := fill_ptrs m (14 * 1024) 15 256 in
  fill_ptrs m (272 * 1024) 273 256.

(** [img] after the four bytes 17 2 0 0 were written to the empty file,
    which takes block 529 for them, and the file was cut back to no bytes,
    which frees the block with the bytes still in it. *)
Definition stale : mem :=
  image_after img (write_then_truncate (H := h) img inode3 [17; 2; 0; 0]).

(** [stale] after the growth step of a write of one byte at the end of the
    522-block file. *)
Definition grown : mem :=
  image_or stale (make_room (H := h) stale inode2 1 (522 * 1024)).
End Img2.

(** The characters of a string literal. *)
Definition chars (s : string) : list Z :=
  map (fun c => Z.of_N (N_of_ascii c)) (list_ascii_of_string s).


Module Img3.
(** Five blocks: boot, superblock, bitmap, one inode block, and block 4, the
    only block of the root directory (inode 1).  Its eight entries name the
    regular files of inodes 2..9, so no entry is blank; no block is free.
    Inode 10 has no links: it was a symbolic link, removed by unlink, and
    still holds its target. *)
Definition h : ospfs_h := lab3 (5 * 1024).
Definition inode (i : Z) : Z := 3 * 1024 + i * 64.
Definition entry (i : Z) : Z := 4 * 1024 + i * 128.
Definition old_target : list Z := chars "root?/secret:/public".
Definition base : mem :=
  let m :=
    image ([ (1024 + 4, 5); (1024 + 8, 16); (1024 + 12, 3);
             (inode 0 + 8, 1);
             (inode 1, 1024); (inode 1 + 4, 1); (inode 1 + 8, 1);
             (inode 1 + 16, 4);
             (inode 10, 20); (inode 10 + 4, 2); (inode 10 + 8, 0) ]
           ++ map (fun i => (inode i + 8, 1)) [2; 3; 4; 5; 6; 7; 8; 9; 11; 12; 13; 14; 15]
           ++ map (fun i => (entry i, i + 2)) [0; 1; 2; 3; 4; 5; 6]
           ++ map (fun i => (entry i + 4, 97 + i)) [0; 1; 2; 3; 4; 5; 6]) in
  memcpy m (inode 10 + 16) (old_target ++ [0]).
(** The directory is full and so is the disk. *)
Definition full : mem :=
  store32 (store32 base (entry 7) 9) (entry 7 + 4) 104.
(** [base] after [symlink] of the name lnk to the target root?/a:/b. *)
Definition linked : mem :=
  after (ospfs_symlink (H := h) base 1 (chars "lnk") (chars "root?/a:/b")).
End Img3.

(** A process that runs a set-user-id program of the user 0: its real user
    id is that of the user who started it. *)
Definition setuid_root : task_struct := {| uid := 1000; euid := 0 |}.

(** [Img3.base] with the name of the third entry of the directory changed
    from c to cx. *)
Definition Img3_cx : mem := store8 Img3.base (od_name (Img3.entry 2) + 1) 120.

(** [Img1.img] with the direct pointer of the file set to zero: the file
    is 100 bytes long and none of them has a block. *)
Definition Img1_hole : mem := store32 Img1.img (Img1.inode2 + 16) 0.

(** The image holds the bytes [bs] from offset [p] on. *)
Definition holds (m : mem) (p : Z) (bs : list Z) : Prop :=
  forall i, (i < length bs)%nat -> load8 m (p + Z.of_nat i) = nth i bs 0.

(** * Properties *)

(** ** Machine integers and the image *)

Lemma u32_range (x : Z) : 0 <= u32 x < 2 ^ 32.
Proof. unfold u32. apply Z.mod_pos_bound. reflexivity. Qed.

Lemma u32_small (x : Z) : 0 <= x < 2 ^ 32 -> u32 x = x.
Proof. intros Hx. unfold u32. apply Z.mod_small. exact Hx. Qed.

Lemma s32_small (x : Z) : - 2 ^ 31 <= x < 2 ^ 31 -> s32 x = x.
Proof.
  intros Hx. unfold s32.
  change (2 ^ 32) with 4294967296. change (2 ^ 31) with 2147483648 in *.
  rewrite Z.mod_small by lia. lia.
Qed.

Lemma s32_le (x : Z) : 0 <= x -> s32 x <= x.
Proof.
  intros Hx. unfold s32.
  change (2 ^ 32) with 4294967296. change (2 ^ 31) with 2147483648.
  pose proof (Z.mod_le (x + 2147483648) 4294967296). lia.
Qed.

Lemma s32_nonneg (x : Z) : 0 <= x < 2 ^ 32 -> 0 <= s32 x -> s32 x = x.
Proof.
  unfold s32. change (2 ^ 32) with 4294967296. change (2 ^ 31) with 2147483648.
  intros Hx Hs.
  destruct (Z_lt_le_dec x 2147483648) as [Hlt | Hge].
  - rewrite Z.mod_small by lia. lia.
  - exfalso.
    replace (x + 2147483648) with (x - 2147483648 + 1 * 4294967296) in Hs by lia.
    rewrite Z.mod_add in Hs by lia.
    rewrite Z.mod_small in Hs by lia. lia.
Qed.

Lemma s64_small (x : Z) : - 2 ^ 63 <= x < 2 ^ 63 -> s64 x = x.
Proof.
  intros Hx. unfold s64.
  change (2 ^ 64) with 18446744073709551616 in *.
  change (2 ^ 63) with 9223372036854775808 in *.
  rewrite Z.mod_small by lia. lia.
Qed.

Lemma load8_range (m : mem) (a : Z) : 0 <= load8 m a < 256.
Proof. unfold load8. apply Z.mod_pos_bound. reflexivity. Qed.

Lemma load32_range (m : mem) (a : Z) : 0 <= load32 m a < 2 ^ 32.
Proof.
  unfold load32. change (2 ^ 32) with 4294967296.
  pose proof (load8_range m a). pose proof (load8_range m (a + 1)).
  pose proof (load8_range m (a + 2)). pose proof (load8_range m (a + 3)).
  lia.
Qed.

Lemma length_load_bytes (m : mem) (n : nat) :
  forall p, length (load_bytes m p n) = n.
Proof. induction n as [| n IH]; intros p; simpl; [reflexivity | now rewrite IH]. Qed.

(** ** User copies *)

Lemma copy_to_user_frame (bs : list Z) :
  forall um to uncopied um',
    copy_to_user um to bs = (uncopied, um') ->
    forall a, a < to \/ to + Z.of_nat (length bs) <= a -> um' a = um a.
Proof.
  induction bs as [| b rest IH]; intros um to uncopied um' Hc a Ha; simpl in Hc.
  - now inversion Hc.
  - destruct (um to) as [old |] eqn:Hto.
    + rewrite (IH _ _ _ _ Hc a).
      * destruct (Z.eqb_spec a to) as [-> | _]; [simpl length in Ha; lia | reflexivity].
      * simpl length in Ha. lia.
    + now inversion Hc.
Qed.

(** ** The copy loops *)

Section CopyLoops.

Context {H : ospfs_h}.

(** The offset inside the block, as the source computes it from two
    pointers. *)
Lemma blk_off_eq (m : mem) (oi offset : Z) :
  0 < OSPFS_BLKSIZE < 2 ^ 32 ->
  u32 (ospfs_inode_data m oi offset
       - ospfs_block (ospfs_inode_blockno m oi offset))
  = offset mod OSPFS_BLKSIZE.
Proof.
  intros Hb. unfold ospfs_inode_data.
  replace (ospfs_block (ospfs_inode_blockno m oi offset)
           + offset mod OSPFS_BLKSIZE
           - ospfs_block (ospfs_inode_blockno m oi offset))
    with (offset mod OSPFS_BLKSIZE) by lia.
  apply u32_small.
  pose proof (Z.mod_pos_bound offset OSPFS_BLKSIZE). lia.
Qed.

(** The size of one transfer: at least one byte, at most what is asked. *)
Lemma chunk_bounds (m : mem) (oi offset count amount : Z) :
  0 < OSPFS_BLKSIZE < 2 ^ 32 ->
  0 <= amount < count -> count < 2 ^ 32 ->
  let blk_off :=
    u32 (ospfs_inode_data m oi offset
         - ospfs_block (ospfs_inode_blockno m oi offset)) in
  let blk_bytes := u32 (OSPFS_BLKSIZE - blk_off) in
  let bytes := u32 (count - amount) in
  let n := if bytes <=? blk_bytes then bytes else blk_bytes in
  1 <= n <= count - amount /\ n <= OSPFS_BLKSIZE - offset mod OSPFS_BLKSIZE.
Proof.
  intros Hb Ha Hc. cbv zeta. rewrite blk_off_eq by exact Hb.
  pose proof (Z.mod_pos_bound offset OSPFS_BLKSIZE (proj1 Hb)) as Hm.
  rewrite (u32_small (OSPFS_BLKSIZE - offset mod OSPFS_BLKSIZE)) by lia.
  rewrite (u32_small (count - amount)) by lia.
  destruct (Z.leb_spec (count - amount) (OSPFS_BLKSIZE - offset mod OSPFS_BLKSIZE));
    lia.
Qed.

Lemma read_loop_bound (fuel : nat) :
  forall m oi um buffer count amount f_pos,
    0 < OSPFS_BLKSIZE < 2 ^ 32 ->
    0 <= amount <= count -> count < 2 ^ 32 ->
    - 2 ^ 63 <= f_pos -> f_pos + (count - amount) < 2 ^ 63 ->
    count - amount <= Z.of_nat fuel ->
    exists r pos' um',
      read_loop fuel m oi um buffer count amount f_pos = Some (r, pos', um')
      /\ r <= count
      /\ f_pos <= pos' <= f_pos + (count - amount)
      /\ forall a, a < buffer \/ buffer + (count - amount) <= a -> um' a = um a.
Proof.
  change (2 ^ 63) with 9223372036854775808.
  induction fuel as [| k IH];
    intros m oi um buffer count amount f_pos Hb Ha Hc Hp Hq Hf.
  - assert (amount = count) as -> by lia.
    exists (s32 count), f_pos, um. cbn [read_loop].
    rewrite Z.ltb_irrefl.
    split; [reflexivity | split; [apply s32_le; lia | split; [lia | reflexivity]]].
  - cbn [read_loop].
    destruct (Z.ltb_spec amount count) as [Hlt | Hge].
    + destruct (ospfs_inode_blockno m oi (u32 f_pos) =? 0) eqn:Hz.
      * exists (- EIO), f_pos, um. unfold EIO.
        split; [reflexivity | split; [lia | split; [lia | reflexivity]]].
      * pose proof (chunk_bounds m oi (u32 f_pos) count amount Hb
                      (conj (proj1 Ha) Hlt) Hc) as Hn.
        cbv zeta in Hn.
        set (n := if u32 (count - amount) <=? _ then _ else _) in *.
        destruct Hn as [[Hn1 Hn2] _].
        destruct (copy_to_user um buffer _) as [uncopied um1] eqn:Hcopy.
        pose proof (copy_to_user_frame _ _ _ _ _ Hcopy) as Hframe.
        rewrite length_load_bytes in Hframe. rewrite Z2Nat.id in Hframe by lia.
        destruct (negb (uncopied =? 0)).
        -- exists (- EFAULT), f_pos, um1. unfold EFAULT.
           split; [reflexivity | split; [lia | split; [lia |]]].
           intros a Hout. apply Hframe. lia.
        -- rewrite (u32_small (amount + n)) by lia.
           rewrite (s64_small (f_pos + n))
             by (change (2 ^ 63) with 9223372036854775808; lia).
           destruct (IH m oi um1 (buffer + n) count (amount + n)
                       (f_pos + n) Hb ltac:(lia) Hc ltac:(lia) ltac:(lia)
                       ltac:(lia))
             as (r & pos' & um' & Hrun & Hr & Hpos & Hfr).
           exists r, pos', um'.
           split; [exact Hrun | split; [exact Hr | split; [lia |]]].
           intros a Hout. rewrite Hfr by lia. apply Hframe. lia.
    + assert (amount = count) as -> by lia.
      exists (s32 count), f_pos, um.
      split; [reflexivity | split; [apply s32_le; lia | split; [lia | reflexivity]]].
Qed.

Lemma write_loop_pos (fuel : nat) :
  forall m oi um buffer count amount f_pos r pos' m',
    0 < OSPFS_BLKSIZE < 2 ^ 32 ->
    0 <= amount <= count -> count < 2 ^ 32 ->
    0 <= f_pos -> f_pos + (count - amount) < 2 ^ 63 ->
    write_loop fuel m oi um buffer count amount f_pos = Some (r, pos', m') ->
    0 <= r ->
    pos' = f_pos + (r - amount).
Proof.
  induction fuel as [| k IH];
    intros m oi um buffer count amount f_pos r pos' m' Hb Ha Hc Hp Hq Hrun Hr;
    cbn [write_loop] in Hrun;
    destruct (Z.ltb_spec amount count) as [Hlt | Hge].
  - discriminate Hrun.
  - inversion Hrun; subst. rewrite s32_nonneg; [lia | lia | exact Hr].
  - destruct (ospfs_inode_blockno m oi (u32 f_pos) =? 0).
    + inversion Hrun; subst. unfold EIO in Hr. lia.
    + pose proof (chunk_bounds m oi (u32 f_pos) count amount Hb
                    (conj (proj1 Ha) Hlt) Hc) as Hn.
      cbv zeta in Hn.
      set (n := if u32 (count - amount) <=? _ then _ else _) in *.
      destruct Hn as [[Hn1 Hn2] _].
      destruct (copy_from_user um buffer (Z.to_nat n)) as [uncopied bs].
      destruct (negb (uncopied =? 0)).
      * inversion Hrun; subst. unfold EFAULT in Hr. lia.
      * rewrite (u32_small (amount + n)) in Hrun by lia.
        rewrite (s64_small (f_pos + n)) in Hrun
          by (change (2 ^ 63) with 9223372036854775808 in *; lia).
        apply IH in Hrun; try assumption; lia.
  - inversion Hrun; subst. rewrite s32_nonneg; [lia | lia | exact Hr].
Qed.

End CopyLoops.

(** C10: a read that starts at or before the end of the file ([f_pos] is a
    [loff_t], [count] a [size_t]) returns, and
    transfers no more than the bytes that remain: the value returned is at
    most [size - f_pos], the file position does not pass the size, and user
    memory outside the first [size - f_pos] bytes of the buffer is left as
    it was. *)
Theorem ospfs_read_clamped {H : ospfs_h} (m : mem) (oi : Z) (um : umem)
    (buffer count f_pos : Z) :
  0 < OSPFS_BLKSIZE < 2 ^ 32 ->
  0 <= count < 2 ^ 32 ->
  - 2 ^ 63 <= f_pos <= oi_size m oi ->
  exists r pos' um',
    ospfs_read m oi um buffer count f_pos = Some (r, pos', um')
    /\ r <= oi_size m oi - f_pos
    /\ f_pos <= pos' <= oi_size m oi
    /\ forall a,
         a < buffer \/ buffer + (oi_size m oi - f_pos) <= a -> um' a = um a.
Proof.
  intros Hb Hc Hp. unfold ospfs_read.
  pose proof (load32_range m oi) as Hs. fold (oi_size m oi) in Hs.
  change (2 ^ 32) with 4294967296 in *.
  change (2 ^ 63) with 9223372036854775808 in *.
  set (count' := if oi_size m oi <? s64 (f_pos + count) then _ else _).
  assert (0 <= count' <= oi_size m oi - f_pos /\ count' < 4294967296) as [Hc1 Hc2].
  { subst count'.
    rewrite s64_small by (change (2 ^ 63) with 9223372036854775808; lia).
    pose proof (Z.mod_le (oi_size m oi - f_pos) 4294967296) as Hle.
    pose proof (Z.mod_pos_bound (oi_size m oi - f_pos) 4294967296) as Hpb.
    destruct (Z.ltb_spec (oi_size m oi) (f_pos + count)).
    - unfold u32. change (2 ^ 32) with 4294967296. lia.
    - lia. }
  destruct (read_loop_bound (Z.to_nat count') m oi um buffer count' 0 f_pos)
    as (r & pos' & um' & Hrun & Hr & Hpos & Hfr);
    try (change (2 ^ 63) with 9223372036854775808);
    try (change (2 ^ 32) with 4294967296); try lia.
  exists r, pos', um'. split; [exact Hrun | split; [lia | split; [lia |]]].
  intros a Ha. apply Hfr. lia.
Qed.

(** With [O_APPEND] set the position handed in plays no part: the call is
    the rest of [ospfs_write] started at the size of the file, and when it
    returns a count the file position ends at the old size plus that
    count. *)
Lemma ospfs_write_append {H : ospfs_h} (m : mem) (oi f_flags : Z) (um : umem)
    (buffer count f_pos : Z) :
  Z.land f_flags O_APPEND <> 0 ->
  0 < OSPFS_BLKSIZE < 2 ^ 32 ->
  0 <= count < 2 ^ 32 ->
  ospfs_write m oi f_flags um buffer count f_pos
  = ospfs_write_at m oi um buffer count (oi_size m oi)
  /\ (forall other_pos,
        ospfs_write m oi f_flags um buffer count other_pos
        = ospfs_write m oi f_flags um buffer count f_pos)
  /\ (forall r pos' m',
        ospfs_write m oi f_flags um buffer count f_pos = Some (r, pos', m') ->
        0 <= r -> pos' = oi_size m oi + r).
Proof.
  intros Hflag Hb Hc.
  assert (forall p, ospfs_write m oi f_flags um buffer count p
                    = ospfs_write_at m oi um buffer count (oi_size m oi)) as Heq.
  { intros p. unfold ospfs_write.
    destruct (Z.eqb_spec (Z.land f_flags O_APPEND) 0) as [Hz | _];
      [contradiction | reflexivity]. }
  split; [apply Heq | split].
  - intros other_pos. now rewrite !Heq.
  - intros r pos' m' Hrun Hr. rewrite Heq in Hrun.
    unfold ospfs_write_at in Hrun.
    pose proof (load32_range m oi) as Hs. fold (oi_size m oi) in Hs.
    destruct (make_room m oi count (oi_size m oi)) as [m1 |];
      [| discriminate Hrun].
    apply write_loop_pos in Hrun; try assumption;
      change (2 ^ 63) with 9223372036854775808;
      change (2 ^ 32) with 4294967296 in *; lia.
Qed.

(** ** Strings in the image *)

Lemma str_bytes_all (s : list Z) : str_bytes s (Z.of_nat (length s)) = s.
Proof.
  unfold str_bytes.
  rewrite Nat2Z.id, firstn_app, Nat.sub_diag, firstn_all.
  apply app_nil_r.
Qed.

Lemma memcmp0_holds (bs : list Z) :
  forall m p, memcmp0 m p bs = true -> holds m p bs.
Proof.
  induction bs as [| b rest IH]; intros m p Hcmp i Hi; simpl in *.
  - lia.
  - apply andb_prop in Hcmp. destruct Hcmp as [Hb Hrest].
    apply Z.eqb_eq in Hb. destruct i as [| j].
    + now rewrite Z.add_0_r.
    + replace (p + Z.of_nat (S j)) with (p + 1 + Z.of_nat j) by lia.
      apply (IH m (p + 1) Hrest j). lia.
Qed.

Lemma holds_cons (m : mem) (p b : Z) (bs : list Z) :
  holds m p (b :: bs) -> load8 m p = b /\ holds m (p + 1) bs.
Proof.
  intros Hh. split.
  - specialize (Hh 0%nat (Nat.lt_0_succ _)). now rewrite Z.add_0_r in Hh.
  - intros i Hi. specialize (Hh (S i) (proj1 (Nat.succ_lt_mono _ _) Hi)).
    replace (p + 1 + Z.of_nat i) with (p + Z.of_nat (S i)) by lia. exact Hh.
Qed.

Lemma holds_app (m : mem) (p : Z) (xs ys : list Z) :
  holds m p (xs ++ ys) ->
  holds m p xs /\ holds m (p + Z.of_nat (length xs)) ys.
Proof.
  intros Hh. split; intros i Hi.
  - rewrite (Hh i) by (rewrite length_app; lia). now apply app_nth1.
  - replace (p + Z.of_nat (length xs) + Z.of_nat i)
      with (p + Z.of_nat (length xs + i)) by lia.
    rewrite (Hh (length xs + i)%nat) by (rewrite length_app; lia).
    rewrite app_nth2 by lia. f_equal. lia.
Qed.

(** Reads outside the bytes written by [memcpy] and [store8]. *)
Lemma holds_frame (m m' : mem) (p : Z) (bs : list Z) :
  (forall a, p <= a < p + Z.of_nat (length bs) -> load8 m' a = load8 m a) ->
  holds m p bs -> holds m' p bs.
Proof. intros Hsame Hh i Hi. rewrite Hsame by lia. now apply Hh. Qed.

Lemma load8_store8 (m : mem) (a v x : Z) :
  load8 (store8 m a v) x = if x =? a then v mod 256 else load8 m x.
Proof.
  unfold load8, store8. destruct (x =? a); [| reflexivity].
  apply Z.mod_mod. discriminate.
Qed.

Lemma load8_memcpy (m : mem) (p : Z) (bs : list Z) (x : Z) :
  load8 (memcpy m p bs) x
  = if (p <=? x) && (x <? p + Z.of_nat (length bs))
    then nth (Z.to_nat (x - p)) bs 0 mod 256
    else load8 m x.
Proof.
  unfold load8, memcpy.
  destruct ((p <=? x) && (x <? p + Z.of_nat (length bs))); [| reflexivity].
  apply Z.mod_mod. discriminate.
Qed.

(** Copying over a prefix the bytes it already holds changes nothing. *)
Lemma holds_memcpy_prefix (m : mem) (p : Z) (xs ys : list Z) :
  holds m p (xs ++ ys) -> holds (memcpy m p xs) p (xs ++ ys).
Proof.
  intros Hh i Hi. rewrite load8_memcpy.
  destruct (Z.leb_spec p (p + Z.of_nat i)) as [_ | ?]; [| lia].
  destruct (Z.ltb_spec (p + Z.of_nat i) (p + Z.of_nat (length xs))) as [Hin | Hout];
    cbn [andb]; [| now apply Hh].
  replace (Z.to_nat (p + Z.of_nat i - p)) with i by lia.
  rewrite app_nth1 by lia.
  rewrite <- (app_nth1 xs ys 0) by lia.
  rewrite <- (Hh i Hi). unfold load8. apply Z.mod_mod. discriminate.
Qed.

Lemma strlen_scan_eq (s : list Z) :
  forall m p todo,
    holds m p (s ++ [0]) ->
    forallb (fun c => negb (c =? 0)) s = true ->
    (length s < todo)%nat ->
    strlen_scan m p todo = Z.of_nat (length s).
Proof.
  induction s as [| c s IH]; intros m p todo Hh Hnz Hlen;
    destruct todo as [| k]; try (simpl in Hlen; lia);
    simpl app in Hh; apply holds_cons in Hh; destruct Hh as [Hc Hrest];
    cbn [strlen_scan]; rewrite Hc.
  - reflexivity.
  - simpl in Hnz. apply andb_prop in Hnz. destruct Hnz as [Hc0 Hnz].
    apply negb_true_iff in Hc0. rewrite Hc0.
    rewrite (IH m (p + 1) k Hrest Hnz) by (simpl in Hlen; lia).
    simpl length. lia.
Qed.

Lemma load_bytes_holds (s : list Z) :
  forall m p, holds m p s -> load_bytes m p (length s) = s.
Proof.
  induction s as [| c s IH]; intros m p Hh; [reflexivity |].
  apply holds_cons in Hh. destruct Hh as [Hc Hrest].
  simpl. now rewrite Hc, (IH m (p + 1) Hrest).
Qed.

Section Strings.

Context {H : ospfs_h}.

Lemma strlen_eq (m : mem) (p : Z) (s : list Z) :
  holds m p (s ++ [0]) ->
  forallb (fun c => negb (c =? 0)) s = true ->
  p + Z.of_nat (length s) < ospfs_length ->
  strlen m p = Z.of_nat (length s).
Proof.
  intros Hh Hnz Hlen. unfold strlen. apply strlen_scan_eq; [assumption .. | lia].
Qed.

Lemma cstring_eq (m : mem) (p : Z) (s : list Z) :
  holds m p (s ++ [0]) ->
  forallb (fun c => negb (c =? 0)) s = true ->
  p + Z.of_nat (length s) < ospfs_length ->
  cstring m p = s.
Proof.
  intros Hh Hnz Hlen. unfold cstring.
  rewrite (strlen_eq m p s Hh Hnz Hlen), Nat2Z.id.
  apply load_bytes_holds. now apply holds_app in Hh.
Qed.

(** The colon scan stops at the first colon and puts a terminator there. *)
Lemma colon_scan_eq (m : mem) (sym : Z) (pre rest : list Z) (todo : nat) :
  forall i,
    holds m sym (pre ++ 58 :: rest) ->
    forallb (fun c => negb (c =? 58)) pre = true ->
    Z.of_nat (length pre) < strlen m sym ->
    (i <= length pre)%nat ->
    (length pre - i < todo)%nat ->
    colon_scan m sym todo (Z.of_nat i)
    = (store8 m (sym + Z.of_nat (length pre)) 0, Z.of_nat (length pre)).
Proof.
  induction todo as [| k IH]; intros i Hh Hnc Hlen Hi Htodo; [lia |].
  cbn [colon_scan].
  destruct (Z.ltb_spec (Z.of_nat i) (strlen m sym)) as [_ | ?]; [| lia].
  rewrite (Hh i) by (rewrite length_app; simpl; lia).
  destruct (Nat.eq_dec i (length pre)) as [-> | Hne].
  - rewrite app_nth2 by lia. rewrite Nat.sub_diag. reflexivity.
  - rewrite app_nth1 by lia.
    assert (i < length pre)%nat as Hlt by lia.
    assert ((nth i pre 0 =? 58) = false) as ->.
    { rewrite forallb_forall in Hnc.
      specialize (Hnc (nth i pre 0) (nth_In pre 0 Hlt)).
      now apply negb_true_iff in Hnc. }
    replace (Z.of_nat i + 1) with (Z.of_nat (S i)) by lia.
    apply IH; try assumption; lia.
Qed.

End Strings.

Lemma holds_store8_other (m : mem) (a v p : Z) (bs : list Z) :
  a < p \/ p + Z.of_nat (length bs) <= a ->
  holds m p bs -> holds (store8 m a v) p bs.
Proof.
  intros Ha. apply holds_frame. intros x Hx. rewrite load8_store8.
  destruct (Z.eqb_spec x a); [lia | reflexivity].
Qed.

Lemma holds_store8_end (m : mem) (p : Z) (xs : list Z) :
  holds m p xs -> holds (store8 m (p + Z.of_nat (length xs)) 0) p (xs ++ [0]).
Proof.
  intros Hh i Hi. rewrite length_app in Hi. simpl in Hi. rewrite load8_store8.
  destruct (Z.eqb_spec (p + Z.of_nat i) (p + Z.of_nat (length xs))) as [He | Hne].
  - assert (i = length xs) as -> by lia.
    rewrite app_nth2 by lia. now rewrite Nat.sub_diag.
  - rewrite app_nth1 by lia. apply Hh. lia.
Qed.

(** A stored string [root?A:B], with [A] free of colons, resolves to [A]
    when the value of [current->uid] is 0 and to [B] for every other
    value. *)
Lemma follow_conditional_uid {H : ospfs_h} (m : mem) (oi uid : Z) (A B : list Z) :
  forallb (fun c => negb (c =? 0) && negb (c =? 58)) A = true ->
  forallb (fun c => negb (c =? 0)) B = true ->
  memcmp0 m (oi_symlink oi) (root_prefix ++ A ++ 58 :: B ++ [0]) = true ->
  oi_symlink oi + Z.of_nat (length (root_prefix ++ A ++ 58 :: B ++ [0]))
    <= ospfs_length ->
  follow_symlink m oi uid = if uid =? 0 then A else B.
Proof.
  intros HA HB Hcmp Hlen.
  set (sym := oi_symlink oi) in *.
  apply memcmp0_holds in Hcmp.
  assert (forallb (fun c => negb (c =? 0)) A = true
          /\ forallb (fun c => negb (c =? 58)) A = true) as [HA0 HAc].
  { clear -HA. induction A as [| c A IH]; [now split |].
    simpl in *. apply andb_prop in HA. destruct HA as [Hc HA].
    apply andb_prop in Hc. destruct Hc as [Hc0 Hc58].
    destruct (IH HA) as [IH0 IHc]. rewrite Hc0, Hc58, IH0, IHc. now split. }
  unfold follow_symlink, ospfs_follow_link, strncpy.
  change (firstn (Z.to_nat 5) root_prefix
          ++ repeat 0 (Z.to_nat 5 - length root_prefix)) with root_prefix.
  fold sym. set (m1 := memcpy m sym root_prefix).
  assert (holds m1 sym (root_prefix ++ A ++ 58 :: B ++ [0])) as H1
      by (now apply holds_memcpy_prefix).
  rewrite !length_app in Hlen. simpl length in Hlen.
  assert (strlen m1 sym = Z.of_nat (length (root_prefix ++ A ++ 58 :: B))) as Hstr.
  { apply strlen_eq.
    - now rewrite <- !app_assoc, <- app_comm_cons.
    - rewrite !forallb_app. simpl. now rewrite HA0, HB.
    - rewrite !length_app. simpl length. rewrite length_app in Hlen.
      simpl length in Hlen. lia. }
  rewrite (colon_scan_eq m1 sym (root_prefix ++ A) (B ++ [0]) _ 0%nat).
  - assert (holds m1 sym (root_prefix ++ A)
            /\ holds m1 (sym + Z.of_nat (length (root_prefix ++ A)))
                 (58 :: B ++ [0])) as [Hpre Hpost].
    { apply holds_app. now rewrite <- app_assoc. }
    apply holds_app in Hpre. destruct Hpre as [_ HpA].
    apply holds_cons in Hpost. destruct Hpost as [_ HpB].
    change (Z.of_nat (length root_prefix)) with 5 in HpA.
    assert (Z.of_nat (length (root_prefix ++ A)) = 5 + Z.of_nat (length A)) as Hl
        by (rewrite length_app; simpl length; lia).
    rewrite Hl in *.
    destruct (uid =? 0).
    + apply cstring_eq; [| exact HA0 | lia].
      replace (sym + (5 + Z.of_nat (length A)))
        with (sym + 5 + Z.of_nat (length A)) by lia.
      now apply holds_store8_end.
    + apply cstring_eq.
      * apply holds_store8_other; [lia | exact HpB].
      * exact HB.
      * rewrite length_app in Hlen. simpl length in Hlen. lia.
  - now rewrite <- app_assoc.
  - rewrite forallb_app. now rewrite HAc.
  - rewrite Hstr, !length_app. simpl length. lia.
  - lia.
  - rewrite Hstr, !length_app. simpl length. lia.
Qed.

(** C7: a stored string [root?A:B], with [A] free of colons, resolves to [A]
    for a process whose real user id, [current->uid], is 0 and to [B] for
    every other process.  The effective user id of the process plays no
    part. *)
Theorem follow_conditional {H : ospfs_h} (m : mem) (oi : Z)
    (current : task_struct) (A B : list Z) :
  forallb (fun c => negb (c =? 0) && negb (c =? 58)) A = true ->
  forallb (fun c => negb (c =? 0)) B = true ->
  memcmp0 m (oi_symlink oi) (root_prefix ++ A ++ 58 :: B ++ [0]) = true ->
  oi_symlink oi + Z.of_nat (length (root_prefix ++ A ++ 58 :: B ++ [0]))
    <= ospfs_length ->
  follow_symlink_as m oi current = (if uid current =? 0 then A else B)
  /\ forall other : task_struct,
       uid other = uid current ->
       follow_symlink_as m oi other = follow_symlink_as m oi current.
Proof.
  intros HA HB Hcmp Hlen. split.
  - exact (follow_conditional_uid m oi (uid current) A B HA HB Hcmp Hlen).
  - intros other Hsame. unfold follow_symlink_as, ospfs_follow_link_as.
    now rewrite Hsame.
Qed.

(** ** Writing and reading back *)

Lemma nth_load_bytes (m : mem) (n : nat) :
  forall p j, (j < n)%nat -> nth j (load_bytes m p n) 0 = load8 m (p + Z.of_nat j).
Proof.
  induction n as [| n IH]; intros p j Hj; [lia |].
  destruct j as [| j]; simpl.
  - now rewrite Z.add_0_r.
  - rewrite IH by lia. f_equal. lia.
Qed.

Lemma copy_from_user_ok (n : nat) :
  forall um from,
    (forall j, (j < n)%nat -> um (from + Z.of_nat j) <> None) ->
    exists bs,
      copy_from_user um from n = (0, bs)
      /\ length bs = n
      /\ forall j, (j < n)%nat -> um (from + Z.of_nat j) = Some (nth j bs 0).
Proof.
  induction n as [| n IH]; intros um from Hmap.
  - exists []. repeat split. intros j Hj. lia.
  - cbn [copy_from_user].
    pose proof (Hmap 0%nat (Nat.lt_0_succ _)) as H0. rewrite Z.add_0_r in H0.
    destruct (um from) as [b |] eqn:Hb; [| contradiction].
    destruct (IH um (from + 1)) as (bs & Hrun & Hlen & Hbs).
    { intros j Hj. replace (from + 1 + Z.of_nat j) with (from + Z.of_nat (S j)) by lia.
      apply Hmap. lia. }
    rewrite Hrun. exists (b :: bs). split; [reflexivity | split; [simpl; lia |]].
    intros j Hj. destruct j as [| j].
    + now rewrite Z.add_0_r.
    + replace (from + Z.of_nat (S j)) with (from + 1 + Z.of_nat j) by lia.
      apply Hbs. lia.
Qed.

Lemma copy_to_user_ok (bs : list Z) :
  forall um to,
    (forall j, (j < length bs)%nat -> um (to + Z.of_nat j) <> None) ->
    exists um',
      copy_to_user um to bs = (0, um')
      /\ (forall j, (j < length bs)%nat -> um' (to + Z.of_nat j) = Some (nth j bs 0))
      /\ (forall a, a < to \/ to + Z.of_nat (length bs) <= a -> um' a = um a).
Proof.
  induction bs as [| b rest IH]; intros um to Hmap.
  - exists um. repeat split. intros j Hj. simpl in Hj. lia.
  - cbn [copy_to_user].
    pose proof (Hmap 0%nat (Nat.lt_0_succ _)) as H0. rewrite Z.add_0_r in H0.
    destruct (um to) as [old |] eqn:Hold; [| contradiction].
    destruct (IH (fun x => if x =? to then Some b else um x) (to + 1))
      as (um' & Hrun & Hget & Hout).
    { intros j Hj. destruct (Z.eqb_spec (to + 1 + Z.of_nat j) to); [discriminate |].
      replace (to + 1 + Z.of_nat j) with (to + Z.of_nat (S j)) by lia.
      apply Hmap. simpl. lia. }
    exists um'. split; [exact Hrun | split].
    + intros j Hj. destruct j as [| j].
      * rewrite Z.add_0_r. rewrite Hout by lia. now rewrite Z.eqb_refl.
      * replace (to + Z.of_nat (S j)) with (to + 1 + Z.of_nat j) by lia.
        apply Hget. simpl in Hj. lia.
    + intros a Ha. simpl length in Ha. rewrite Hout by lia.
      destruct (Z.eqb_spec a to); [lia | reflexivity].
Qed.

Lemma same_block (B p j : Z) :
  0 < B -> 0 <= j < B - p mod B ->
  (p + j) / B = p / B /\ (p + j) mod B = p mod B + j.
Proof.
  intros HB Hj.
  pose proof (Z.mod_pos_bound p B HB) as Hm.
  pose proof (Z.div_mod p B ltac:(lia)) as Hp.
  assert (p + j = (p / B) * B + (p mod B + j)) as He by lia.
  split.
  - symmetry. apply (Z.div_unique_pos (p + j) B (p / B) (p mod B + j)); lia.
  - symmetry. apply (Z.mod_unique_pos (p + j) B (p / B) (p mod B + j)); lia.
Qed.

Section RoundTrip.

Context {H : ospfs_h}.

Lemma blockno_nonzero_lt (m : mem) (oi p : Z) :
  ospfs_inode_blockno m oi p <> 0 -> p < oi_size m oi.
Proof.
  unfold ospfs_inode_blockno. cbv zeta.
  destruct (Z.leb_spec (oi_size m oi) p); cbn [orb]; [congruence | lia].
Qed.

Lemma blockno_same_block (m : mem) (oi p q : Z) :
  p / OSPFS_BLKSIZE = q / OSPFS_BLKSIZE ->
  p < oi_size m oi -> q < oi_size m oi ->
  ospfs_inode_blockno m oi p = ospfs_inode_blockno m oi q.
Proof.
  intros Hd Hp Hq. unfold ospfs_inode_blockno. cbv zeta.
  destruct (Z.leb_spec (oi_size m oi) p); [lia |].
  destruct (Z.leb_spec (oi_size m oi) q); [lia |].
  now rewrite Hd.
Qed.

Variables (m0 : mem) (oi lo hi : Z).

Hypothesis Hblk : 0 < OSPFS_BLKSIZE < 2 ^ 32.
Hypothesis Hlo : 0 <= lo.
Hypothesis Hhi : hi <= 2 ^ 32.

Hypothesis Htree : tree_apart m0 oi lo hi.

Lemma tree_mapped :
  forall p, lo <= p < hi -> ospfs_inode_blockno m0 oi p <> 0.
Proof. intros p Hp. apply (proj1 Htree p Hp). Qed.

Lemma data_addr_in_block (a : Z) :
  data_addr m0 oi lo hi a ->
  exists q, lo <= q < hi
            /\ ospfs_block (ospfs_inode_blockno m0 oi q) <= a
               < ospfs_block (ospfs_inode_blockno m0 oi q) + OSPFS_BLKSIZE.
Proof.
  intros (q & Hq & ->). exists q. split; [exact Hq |].
  unfold ospfs_inode_data.
  pose proof (Z.mod_pos_bound q OSPFS_BLKSIZE (proj1 Hblk)). lia.
Qed.

(** A pointer word that lies outside every data block of the range reads
    the same in every image that differs from [m0] only in those blocks. *)
Lemma same_word (m : mem) (p w : Z) :
  same_outside m0 oi lo hi m -> lo <= p < hi ->
  In w ([oi; oi + 4] ++ block_index_words m0 oi (p / OSPFS_BLKSIZE)) ->
  load32 m w = load32 m0 w.
Proof.
  intros Hsame Hp Hw.
  assert (forall a, w <= a < w + 4 -> load8 m a = load8 m0 a) as Hbytes.
  { intros a Ha. apply Hsame. intros Hd.
    destruct (data_addr_in_block a Hd) as (q & Hq & Hin).
    destruct (proj2 Htree p q Hp Hq) as [Hwords _].
    specialize (Hwords w Hw). cbv zeta in Hwords. lia. }
  unfold load32. now rewrite !Hbytes by lia.
Qed.

Lemma tree_stable :
  forall m, same_outside m0 oi lo hi m ->
  forall p, lo <= p < hi ->
  ospfs_inode_blockno m oi p = ospfs_inode_blockno m0 oi p.
Proof.
  intros m Hsame p Hp.
  pose proof (same_word m p) as Hw. specialize (fun w => Hw w Hsame Hp).
  unfold ospfs_inode_blockno, block_index_words in *. cbv zeta in *.
  unfold oi_size, oi_ftype, oi_indirect2, oi_indirect, oi_direct in *.
  rewrite (Hw oi) by (simpl; auto 10).
  rewrite (Hw (oi + 4)) by (simpl; auto 10).
  destruct ((load32 m0 oi <=? p) || (load32 m0 (oi + 4) =? OSPFS_FTYPE_SYMLINK));
    [reflexivity |].
  destruct (OSPFS_NDIRECT + OSPFS_NINDIRECT <=? p / OSPFS_BLKSIZE).
  - rewrite (Hw (oi_indirect2_at oi)) by (simpl; auto 10).
    rewrite (Hw (ospfs_block (load32 m0 (oi_indirect2_at oi)) + _))
      by (simpl; auto 10).
    apply Hw. simpl. auto 10.
  - destruct (OSPFS_NDIRECT <=? p / OSPFS_BLKSIZE).
    + rewrite (Hw (oi_indirect_at oi)) by (simpl; auto 10).
      apply Hw. simpl. auto 10.
    + apply Hw. simpl. auto 10.
Qed.

Lemma tree_injective :
  forall p q, lo <= p < hi -> lo <= q < hi ->
  ospfs_inode_data m0 oi p = ospfs_inode_data m0 oi q -> p = q.
Proof.
  intros p q Hp Hq Heq. unfold ospfs_inode_data in Heq.
  pose proof (Z.mod_pos_bound p OSPFS_BLKSIZE (proj1 Hblk)) as Hmp.
  pose proof (Z.mod_pos_bound q OSPFS_BLKSIZE (proj1 Hblk)) as Hmq.
  destruct (Z.eq_dec (p / OSPFS_BLKSIZE) (q / OSPFS_BLKSIZE)) as [Hd | Hd].
  - rewrite (blockno_same_block m0 oi p q Hd) in Heq
      by (apply blockno_nonzero_lt, tree_mapped; assumption).
    assert (OSPFS_BLKSIZE <> 0) as Hnz by lia.
    pose proof (Z.div_mod p OSPFS_BLKSIZE Hnz) as Ep.
    pose proof (Z.div_mod q OSPFS_BLKSIZE Hnz) as Eq.
    rewrite Hd in Ep. lia.
  - destruct (proj2 Htree p q Hp Hq) as [_ Hblocks].
    specialize (Hblocks Hd). cbv zeta in Hblocks. lia.
Qed.

Lemma data_step (p j : Z) :
  lo <= p -> p + j < hi -> 0 <= j < OSPFS_BLKSIZE - p mod OSPFS_BLKSIZE ->
  ospfs_inode_data m0 oi (p + j) = ospfs_inode_data m0 oi p + j.
Proof.
  intros Hp Hpj Hj. unfold ospfs_inode_data.
  destruct (same_block OSPFS_BLKSIZE p j (proj1 Hblk) Hj) as [Hd Hm].
  rewrite Hm.
  rewrite (blockno_same_block m0 oi (p + j) p Hd).
  - lia.
  - apply blockno_nonzero_lt, tree_mapped. lia.
  - apply blockno_nonzero_lt, tree_mapped. lia.
Qed.

Lemma stable_data (m : mem) (p : Z) :
  same_outside m0 oi lo hi m -> lo <= p < hi ->
  ospfs_inode_data m oi p = ospfs_inode_data m0 oi p.
Proof.
  intros Hm Hp. unfold ospfs_inode_data. now rewrite (tree_stable m Hm p Hp).
Qed.

Lemma write_loop_spec (um : umem) (count : Z) (fuel : nat) :
  forall mk buffer amount f_pos,
    same_outside m0 oi lo hi mk ->
    lo <= f_pos -> f_pos + (count - amount) <= hi ->
    0 <= amount <= count -> count < 2 ^ 32 ->
    count - amount <= Z.of_nat fuel ->
    (forall j, 0 <= j < count - amount -> um (buffer + j) <> None) ->
    exists m',
      write_loop fuel mk oi um buffer count amount f_pos
      = Some (s32 count, f_pos + (count - amount), m')
      /\ same_outside m0 oi lo hi m'
      /\ (forall a,
            (forall j, 0 <= j < count - amount ->
                       a <> ospfs_inode_data m0 oi (f_pos + j)) ->
            load8 m' a = load8 mk a)
      /\ (forall j, 0 <= j < count - amount ->
            exists b, um (buffer + j) = Some b
                      /\ load8 m' (ospfs_inode_data m0 oi (f_pos + j)) = b mod 256).
Proof.
  change (2 ^ 32) with 4294967296 in *.
  induction fuel as [| k IH];
    intros mk buffer amount f_pos Hsame Hf1 Hf2 Ha Hc Hfuel Hum.
  - assert (amount = count) as -> by lia.
    exists mk. cbn [write_loop]. rewrite Z.ltb_irrefl.
    split; [f_equal; f_equal; f_equal; lia | split; [exact Hsame | split]].
    + reflexivity.
    + intros j Hj. lia.
  - cbn [write_loop].
    destruct (Z.ltb_spec amount count) as [Hlt | Hge].
    2:{ assert (amount = count) as -> by lia.
        exists mk.
        split; [f_equal; f_equal; f_equal; lia | split; [exact Hsame | split]].
        - reflexivity.
        - intros j Hj. lia. }
    assert (lo <= f_pos < hi) as Hin by lia.
    rewrite (u32_small f_pos) by (change (2 ^ 32) with 4294967296; lia).
    rewrite (tree_stable mk Hsame f_pos Hin).
    destruct (Z.eqb_spec (ospfs_inode_blockno m0 oi f_pos) 0) as [Hz | _];
      [exfalso; exact (tree_mapped f_pos Hin Hz) |].
    pose proof (chunk_bounds mk oi f_pos count amount Hblk
                  (conj (proj1 Ha) Hlt) Hc) as Hn.
    cbv zeta in Hn.
    pose proof (blk_off_eq mk oi f_pos Hblk) as Hoff.
    rewrite (tree_stable mk Hsame f_pos Hin) in Hn, Hoff.
    rewrite Hoff in *.
    set (n := if u32 (count - amount) <=? _ then _ else _) in *.
    destruct Hn as [[Hn1 Hn2] Hn3].
    destruct (copy_from_user_ok (Z.to_nat n) um buffer) as (bs & Hcopy & Hlen & Hbs).
    { intros j Hj. apply Hum. lia. }
    rewrite Hcopy. cbn [negb Z.eqb].
    rewrite (u32_small (amount + n)) by (change (2 ^ 32) with 4294967296; lia).
    rewrite (s64_small (f_pos + n))
      by (change (2 ^ 63) with 9223372036854775808; lia).
    fold (ospfs_inode_data m0 oi f_pos) in *.
    set (dst := ospfs_inode_data m0 oi f_pos) in *.
    assert (dst = ospfs_inode_data m0 oi f_pos) as Hdst by reflexivity.
    set (m1 := memcpy mk dst bs) in *.
    assert (forall a, load8 m1 a
                      = if (dst <=? a) && (a <? dst + n)
                        then nth (Z.to_nat (a - dst)) bs 0 mod 256
                        else load8 mk a) as Hm1.
    { intros a. unfold m1. rewrite load8_memcpy, Hlen, Z2Nat.id by lia. reflexivity. }
    assert (forall j, 0 <= j < n ->
                      ospfs_inode_data m0 oi (f_pos + j) = dst + j) as Hstep.
    { intros j Hj. rewrite Hdst. apply data_step; lia. }
    assert (same_outside m0 oi lo hi m1) as Hsame1.
    { intros a Ha0. rewrite Hm1.
      destruct (Z.leb_spec dst a); destruct (Z.ltb_spec a (dst + n));
        cbn [andb]; try (now apply Hsame).
      exfalso. apply Ha0. exists (f_pos + (a - dst)).
      split; [lia | rewrite Hstep by lia; lia]. }
    destruct (IH m1 (buffer + n) (amount + n) (f_pos + n) Hsame1)
      as (m' & Hrun & Hsame' & Hframe & Hbytes); try lia.
    { intros j Hj. replace (buffer + n + j) with (buffer + (n + j)) by lia.
      apply Hum. lia. }
    exists m'. split.
    { rewrite Hrun. f_equal. f_equal. f_equal. lia. }
    split; [exact Hsame' | split].
    + intros a Ha0. rewrite Hframe.
      * rewrite Hm1.
        destruct (Z.leb_spec dst a); destruct (Z.ltb_spec a (dst + n));
          cbn [andb]; try reflexivity.
        exfalso. apply (Ha0 (a - dst)); [lia |]. rewrite Hstep by lia. lia.
      * intros j Hj. replace (f_pos + n + j) with (f_pos + (n + j)) by lia.
        apply Ha0. lia.
    + intros j Hj.
      destruct (Z_lt_le_dec j n) as [Hjn | Hjn].
      * exists (nth (Z.to_nat j) bs 0). split.
        -- rewrite <- (Hbs (Z.to_nat j)) by lia. f_equal. lia.
        -- rewrite Hframe.
           ++ rewrite Hm1, Hstep by lia.
              destruct (Z.leb_spec dst (dst + j)); [| lia].
              destruct (Z.ltb_spec (dst + j) (dst + n)); [| lia].
              cbn [andb]. do 2 f_equal. lia.
           ++ intros i Hi Heq.
              replace (f_pos + n + i) with (f_pos + (n + i)) in Heq by lia.
              apply tree_injective in Heq; lia.
      * destruct (Hbytes (j - n)) as (b & Hb1 & Hb2); [lia |].
        exists b. split.
        -- rewrite <- Hb1. f_equal. lia.
        -- rewrite <- Hb2. do 2 f_equal. lia.
Qed.

Lemma read_loop_spec (m : mem) (count : Z) (fuel : nat) :
  same_outside m0 oi lo hi m ->
  forall um buffer amount f_pos,
    lo <= f_pos -> f_pos + (count - amount) <= hi ->
    0 <= amount <= count -> count < 2 ^ 32 ->
    count - amount <= Z.of_nat fuel ->
    (forall j, 0 <= j < count - amount -> um (buffer + j) <> None) ->
    exists um',
      read_loop fuel m oi um buffer count amount f_pos
      = Some (s32 count, f_pos + (count - amount), um')
      /\ (forall j, 0 <= j < count - amount ->
            um' (buffer + j)
            = Some (load8 m (ospfs_inode_data m0 oi (f_pos + j))))
      /\ (forall a, a < buffer \/ buffer + (count - amount) <= a -> um' a = um a).
Proof.
  change (2 ^ 32) with 4294967296 in *.
  intros Hsame.
  induction fuel as [| k IH];
    intros um buffer amount f_pos Hf1 Hf2 Ha Hc Hfuel Hum.
  - assert (amount = count) as -> by lia.
    exists um. cbn [read_loop]. rewrite Z.ltb_irrefl.
    split; [f_equal; f_equal; f_equal; lia | split].
    + intros j Hj. lia.
    + reflexivity.
  - cbn [read_loop].
    destruct (Z.ltb_spec amount count) as [Hlt | Hge].
    2:{ assert (amount = count) as -> by lia.
        exists um. split; [f_equal; f_equal; f_equal; lia | split].
        - intros j Hj. lia.
        - reflexivity. }
    assert (lo <= f_pos < hi) as Hin by lia.
    rewrite (u32_small f_pos) by (change (2 ^ 32) with 4294967296; lia).
    rewrite (tree_stable m Hsame f_pos Hin).
    destruct (Z.eqb_spec (ospfs_inode_blockno m0 oi f_pos) 0) as [Hz | _];
      [exfalso; exact (tree_mapped f_pos Hin Hz) |].
    pose proof (chunk_bounds m oi f_pos count amount Hblk
                  (conj (proj1 Ha) Hlt) Hc) as Hn.
    cbv zeta in Hn.
    pose proof (blk_off_eq m oi f_pos Hblk) as Hoff.
    rewrite (tree_stable m Hsame f_pos Hin) in Hn, Hoff.
    rewrite Hoff in *.
    set (n := if u32 (count - amount) <=? _ then _ else _) in *.
    destruct Hn as [[Hn1 Hn2] Hn3].
    fold (ospfs_inode_data m0 oi f_pos) in *.
    set (dst := ospfs_inode_data m0 oi f_pos) in *.
    assert (forall j, 0 <= j < n ->
                      ospfs_inode_data m0 oi (f_pos + j) = dst + j) as Hstep.
    { intros j Hj. apply data_step; lia. }
    destruct (copy_to_user_ok (load_bytes m dst (Z.to_nat n)) um buffer)
      as (um1 & Hcopy & Hget & Hout).
    { intros j Hj. rewrite length_load_bytes in Hj. apply Hum. lia. }
    rewrite length_load_bytes in Hget, Hout.
    rewrite Hcopy. cbn [negb Z.eqb].
    rewrite (u32_small (amount + n)) by (change (2 ^ 32) with 4294967296; lia).
    rewrite (s64_small (f_pos + n))
      by (change (2 ^ 63) with 9223372036854775808; lia).
    destruct (IH um1 (buffer + n) (amount + n) (f_pos + n))
      as (um' & Hrun & Hbytes & Hframe); try lia.
    { intros j Hj. rewrite Hout by lia.
      replace (buffer + n + j) with (buffer + (n + j)) by lia. apply Hum. lia. }
    exists um'. split.
    { rewrite Hrun. f_equal. f_equal. f_equal. lia. }
    split.
    + intros j Hj.
      destruct (Z_lt_le_dec j n) as [Hjn | Hjn].
      * rewrite Hframe by lia.
        replace (buffer + j) with (buffer + Z.of_nat (Z.to_nat j)) by lia.
        rewrite Hget by lia. rewrite nth_load_bytes by lia.
        rewrite Hstep by lia. do 3 f_equal. lia.
      * replace (buffer + j) with (buffer + n + (j - n)) by lia.
        rewrite Hbytes by lia. do 3 f_equal. lia.
    + intros a Ha0. rewrite Hframe by lia. apply Hout. lia.
Qed.

(** The rest of [ospfs_write] behind the [O_APPEND] test, started at [lo],
    and the read that follows.  The bytes of the buffer lie in the image
    at the places of the file offsets [lo, lo + count), nothing else
    differs from the image [m0] the growth step made, and the read
    delivers them. *)
Lemma write_at_read_sound (m : mem) (um um2 : umem)
    (buffer rbuf count : Z) (buf : list Z) :
  hi = lo + count -> 0 < count < 2 ^ 31 ->
  make_room m oi count lo = Some m0 ->
  (forall j, 0 <= j < count ->
     um (buffer + j) = Some (nth (Z.to_nat j) buf 0)
     /\ 0 <= nth (Z.to_nat j) buf 0 < 256) ->
  (forall j, 0 <= j < count -> um2 (rbuf + j) <> None) ->
  exists m2 um2',
    ospfs_write_at m oi um buffer count lo = Some (count, lo + count, m2)
    /\ same_outside m0 oi lo hi m2
    /\ (forall j, 0 <= j < count ->
          load8 m2 (ospfs_inode_data m0 oi (lo + j)) = nth (Z.to_nat j) buf 0)
    /\ ospfs_read m2 oi um2 rbuf count lo = Some (count, lo + count, um2')
    /\ forall j, 0 <= j < count ->
         um2' (rbuf + j) = Some (nth (Z.to_nat j) buf 0).
Proof.
  intros Hhi' Hc Hroom Hum Hum2.
  change (2 ^ 31) with 2147483648 in *.
  assert (same_outside m0 oi lo hi m0) as Hsame0 by (intros a _; reflexivity).
  destruct (write_loop_spec um count (Z.to_nat count) m0 buffer 0 lo Hsame0)
    as (m2 & Hrun & Hsame2 & _ & Hbytes);
    try (change (2 ^ 32) with 4294967296); try lia.
  { intros j Hj. destruct (Hum j) as [Hj1 _]; [lia |]. congruence. }
  rewrite s32_small in Hrun by (change (2 ^ 31) with 2147483648; lia).
  rewrite Z.sub_0_r in Hrun.
  destruct (read_loop_spec m2 count (Z.to_nat count) Hsame2 um2 rbuf 0 lo)
    as (um2' & Hread & Hgot & _);
    try (change (2 ^ 32) with 4294967296); try lia.
  { intros j Hj. apply Hum2. lia. }
  rewrite s32_small in Hread by (change (2 ^ 31) with 2147483648; lia).
  rewrite Z.sub_0_r in Hread.
  assert (forall j, 0 <= j < count ->
            load8 m2 (ospfs_inode_data m0 oi (lo + j)) = nth (Z.to_nat j) buf 0)
    as Hlanded.
  { intros j Hj. destruct (Hbytes j) as (b & Hb1 & Hb2); [lia |].
    destruct (Hum j Hj) as [Hu1 Hu2]. rewrite Hu1 in Hb1. inversion Hb1; subst b.
    rewrite Hb2. apply Z.mod_small. exact Hu2. }
  exists m2, um2'. split; [| split; [exact Hsame2 | split; [exact Hlanded | split]]].
  - unfold ospfs_write_at. rewrite Hroom. exact Hrun.
  - unfold ospfs_read.
    assert ((oi_size m2 oi <? s64 (lo + count)) = false) as ->; [| exact Hread].
    rewrite s64_small by (change (2 ^ 63) with 9223372036854775808; lia).
    apply Z.ltb_ge.
    assert (lo <= lo + count - 1 < hi) as Hin by lia.
    pose proof (tree_mapped _ Hin) as Hmap.
    rewrite <- (tree_stable m2 Hsame2 _ Hin) in Hmap.
    apply blockno_nonzero_lt in Hmap. lia.
  - intros j Hj. rewrite Z.sub_0_r in Hgot. rewrite (Hgot j Hj).
    now rewrite (Hlanded j Hj).
Qed.

(** X23: what the round trip of a write and a read rests on.  When the growth
    step of the write leads from [m] to an image [m0] in which the bytes
    [lo, lo + count) of the file lie in blocks of their own, a write of
    [count] bytes at [lo] without [O_APPEND] returns [count], and the read
    that follows returns [count] and delivers the bytes written. *)
Theorem write_read_sound (m : mem) (f_flags : Z) (um um2 : umem)
    (buffer rbuf count : Z) (buf : list Z) :
  Z.land f_flags O_APPEND = 0 ->
  hi = lo + count -> 0 < count < 2 ^ 31 ->
  make_room m oi count lo = Some m0 ->
  (forall j, 0 <= j < count ->
     um (buffer + j) = Some (nth (Z.to_nat j) buf 0)
     /\ 0 <= nth (Z.to_nat j) buf 0 < 256) ->
  (forall j, 0 <= j < count -> um2 (rbuf + j) <> None) ->
  exists m2 um2',
    ospfs_write m oi f_flags um buffer count lo = Some (count, lo + count, m2)
    /\ ospfs_read m2 oi um2 rbuf count lo = Some (count, lo + count, um2')
    /\ forall j, 0 <= j < count ->
         um2' (rbuf + j) = Some (nth (Z.to_nat j) buf 0).
Proof.
  intros Hflag Hhi' Hc Hroom Hum Hum2.
  destruct (write_at_read_sound m um um2 buffer rbuf count buf
              Hhi' Hc Hroom Hum Hum2)
    as (m2 & um2' & Hwrite & _ & _ & Hread & Hgot).
  exists m2, um2'. split; [| split; [exact Hread | exact Hgot]].
  unfold ospfs_write. rewrite Hflag. cbn [Z.eqb negb]. exact Hwrite.
Qed.

(** What an append rests on.  When the growth step of a write of [count]
    bytes at the end of the file leads to an image [m0] in which the new
    bytes lie in blocks of their own, a write with [O_APPEND] set returns
    [count] whatever position is passed in, leaves the position at the old
    size plus [count], puts the bytes of the buffer at the file offsets that
    follow the old size and changes nothing else of [m0]; the read at the
    old size delivers them. *)
Theorem ospfs_write_append_sound (m : mem) (f_flags : Z) (um um2 : umem)
    (buffer rbuf count f_pos : Z) (buf : list Z) :
  Z.land f_flags O_APPEND <> 0 ->
  lo = oi_size m oi ->
  hi = lo + count -> 0 < count < 2 ^ 31 ->
  make_room m oi count (oi_size m oi) = Some m0 ->
  (forall j, 0 <= j < count ->
     um (buffer + j) = Some (nth (Z.to_nat j) buf 0)
     /\ 0 <= nth (Z.to_nat j) buf 0 < 256) ->
  (forall j, 0 <= j < count -> um2 (rbuf + j) <> None) ->
  exists m2 um2',
    ospfs_write m oi f_flags um buffer count f_pos
    = Some (count, oi_size m oi + count, m2)
    /\ same_outside m0 oi (oi_size m oi) (oi_size m oi + count) m2
    /\ (forall j, 0 <= j < count ->
          load8 m2 (ospfs_inode_data m0 oi (oi_size m oi + j))
          = nth (Z.to_nat j) buf 0)
    /\ ospfs_read m2 oi um2 rbuf count (oi_size m oi)
       = Some (count, oi_size m oi + count, um2')
    /\ forall j, 0 <= j < count ->
         um2' (rbuf + j) = Some (nth (Z.to_nat j) buf 0).
Proof.
  intros Hflag Hend Hhi' Hc Hroom Hum Hum2.
  rewrite <- Hend in Hroom.
  destruct (write_at_read_sound m um um2 buffer rbuf count buf
              Hhi' Hc Hroom Hum Hum2)
    as (m2 & um2' & Hwrite & Hsame & Hlanded & Hread & Hgot).
  rewrite <- Hend. rewrite <- Hhi'.
  exists m2, um2'.
  split; [| split; [exact Hsame | split; [exact Hlanded | split]]].
  - unfold ospfs_write.
    destruct (Z.eqb_spec (Z.land f_flags O_APPEND) 0) as [Hz | _];
      [contradiction |].
    cbn [negb]. rewrite <- Hend. rewrite Hhi'. exact Hwrite.
  - rewrite Hhi'. exact Hread.
  - exact Hgot.
Qed.

End RoundTrip.

(** The hypotheses of [write_read_sound] hold for a write of three bytes at
    the end of the 100-byte file of [Img1]. *)
Lemma image_or_some (m : mem) (o : option mem) :
  match o with Some _ => true | None => false end = true ->
  o = Some (image_or m o).
Proof. destruct o as [m' |]; [reflexivity | discriminate]. Qed.

Lemma Img1_make_room :
  make_room (H := Img1.h) Img1.img Img1.inode2 3 100 = Some Img1.roomy.
Proof.
  unfold Img1.roomy. apply image_or_some. vm_compute. reflexivity.
Qed.

Lemma Img1_tree_apart :
  tree_apart (H := Img1.h) Img1.roomy Img1.inode2 100 103.
Proof.
  assert (forall p, 100 <= p < 103 -> p = 100 \/ p = 101 \/ p = 102) as Hcases
      by (intros; lia).
  assert (forall p, 100 <= p < 103 ->
            ospfs_inode_blockno (H := Img1.h) Img1.roomy Img1.inode2 p = 4) as Hblock
      by (intros p Hp; destruct (Hcases p Hp) as [-> | [-> | ->]];
          vm_compute; reflexivity).
  assert (forall p, 100 <= p < 103 ->
            block_index_words (H := Img1.h) Img1.roomy Img1.inode2
              (p / @OSPFS_BLKSIZE Img1.h) = [3216]) as Hwords
      by (intros p Hp; destruct (Hcases p Hp) as [-> | [-> | ->]];
          vm_compute; reflexivity).
  split.
  - intros p Hp. rewrite (Hblock p Hp). discriminate.
  - intros p q Hp Hq. cbv zeta.
    rewrite (Hblock p Hp), (Hblock q Hq), (Hwords p Hp).
    change (ospfs_block (H := Img1.h) 4) with 4096.
    change (@OSPFS_BLKSIZE Img1.h) with 1024.
    change Img1.inode2 with 3200.
    split.
    + intros w Hw. simpl in Hw. lia.
    + intros Hne. exfalso. apply Hne.
      destruct (Hcases p Hp) as [-> | [-> | ->]];
        destruct (Hcases q Hq) as [-> | [-> | ->]]; reflexivity.
Qed.

Example Img1_write_read_sound :
  exists m2 um2',
    ospfs_write (H := Img1.h) Img1.img Img1.inode2 0 (ubuf 4096 [1; 2; 3]) 4096 3 100
    = Some (3, 100 + 3, m2)
    /\ ospfs_read (H := Img1.h) m2 Img1.inode2 (ubuf 8192 [255; 255; 255]) 8192 3 100
       = Some (3, 100 + 3, um2')
    /\ forall j, 0 <= j < 3 -> um2' (8192 + j) = Some (nth (Z.to_nat j) [1; 2; 3] 0).
Proof.
  apply (write_read_sound (H := Img1.h) Img1.roomy Img1.inode2 100 103);
    try exact Img1_tree_apart; try exact Img1_make_room;
    try reflexivity; try (simpl; lia).
  - intros j Hj.
    assert (j = 0 \/ j = 1 \/ j = 2) as [-> | [-> | ->]] by lia;
      (split; [reflexivity | simpl; lia]).
  - intros j Hj.
    assert (j = 0 \/ j = 1 \/ j = 2) as [-> | [-> | ->]] by lia; discriminate.
Defined.

(** An append of three bytes to the 100-byte file of [Img1], the position
    passed being 7. *)
Example Img1_append_sound :
  exists m2 um2',
    ospfs_write (H := Img1.h) Img1.img Img1.inode2 O_APPEND
      (ubuf 4096 [1; 2; 3]) 4096 3 7
    = Some (3, oi_size Img1.img Img1.inode2 + 3, m2)
    /\ (forall j, 0 <= j < 3 ->
          load8 m2 (ospfs_inode_data (H := Img1.h) Img1.roomy Img1.inode2
                      (oi_size Img1.img Img1.inode2 + j))
          = nth (Z.to_nat j) [1; 2; 3] 0)
    /\ ospfs_read (H := Img1.h) m2 Img1.inode2 (ubuf 8192 [255; 255; 255]) 8192 3
         (oi_size Img1.img Img1.inode2)
       = Some (3, oi_size Img1.img Img1.inode2 + 3, um2')
    /\ forall j, 0 <= j < 3 -> um2' (8192 + j) = Some (nth (Z.to_nat j) [1; 2; 3] 0).
Proof.
  assert (oi_size Img1.img Img1.inode2 = 100) as Hsize by (vm_compute; reflexivity).
  destruct (ospfs_write_append_sound (H := Img1.h) Img1.roomy Img1.inode2 100 103
              ltac:(simpl; lia) ltac:(lia) ltac:(lia) Img1_tree_apart
              Img1.img O_APPEND (ubuf 4096 [1; 2; 3]) (ubuf 8192 [255; 255; 255])
              4096 8192 3 7 [1; 2; 3])
    as (m2 & um2' & Hwrite & _ & Hlanded & Hread & Hgot).
  - vm_compute. discriminate.
  - now rewrite Hsize.
  - reflexivity.
  - lia.
  - rewrite Hsize. exact Img1_make_room.
  - intros j Hj.
    assert (j = 0 \/ j = 1 \/ j = 2) as [-> | [-> | ->]] by lia;
      (split; [reflexivity | simpl; lia]).
  - intros j Hj.
    assert (j = 0 \/ j = 1 \/ j = 2) as [-> | [-> | ->]] by lia; discriminate.
  - exists m2, um2'. split; [exact Hwrite |].
    split; [exact Hlanded |]. split; [exact Hread | exact Hgot].
Qed.

(** ** The slot of a file block *)

Section Slots.

Context {H : ospfs_h}.

Hypothesis ndirect_pos : 0 < OSPFS_NDIRECT.
Hypothesis nindirect_pos : 0 < OSPFS_NINDIRECT.
Hypothesis maxfileblks_int : OSPFS_MAXFILEBLKS < 2 ^ 31.

(** In the direct range, in the indirect range and for the first NI blocks
    of the doubly-indirect range [direct_index] is the slot of the block. *)
Lemma direct_index_direct (b : Z) :
  0 <= b < OSPFS_NDIRECT -> direct_index b = b.
Proof.
  intros Hb. unfold direct_index.
  destruct (Z.leb_spec 0 b); [| lia].
  destruct (Z.ltb_spec b OSPFS_NDIRECT); [| lia].
  cbn [andb]. apply s32_small. unfold OSPFS_MAXFILEBLKS in *. nia.
Qed.

Lemma direct_index_indirect (b : Z) :
  OSPFS_NDIRECT <= b < OSPFS_NDIRECT + OSPFS_NINDIRECT ->
  direct_index b = b - OSPFS_NDIRECT.
Proof.
  intros Hb. unfold direct_index.
  destruct (Z.ltb_spec b OSPFS_NDIRECT); [lia |].
  rewrite andb_false_r.
  destruct (Z.leb_spec OSPFS_NDIRECT b); [| lia].
  destruct (Z.ltb_spec b (OSPFS_NINDIRECT + OSPFS_NDIRECT)); [| lia].
  cbn [andb]. apply s32_small. unfold OSPFS_MAXFILEBLKS in *. nia.
Qed.

Lemma direct_index_indirect2_first (b : Z) :
  OSPFS_NDIRECT + OSPFS_NINDIRECT <= b
    < OSPFS_NDIRECT + OSPFS_NINDIRECT + OSPFS_NINDIRECT ->
  direct_index b = (b - OSPFS_NDIRECT - OSPFS_NINDIRECT) mod OSPFS_NINDIRECT.
Proof.
  intros Hb. unfold direct_index.
  destruct (Z.ltb_spec b OSPFS_NDIRECT); [lia |].
  rewrite andb_false_r.
  destruct (Z.ltb_spec b (OSPFS_NINDIRECT + OSPFS_NDIRECT)); [lia |].
  rewrite andb_false_r.
  destruct (Z.leb_spec (OSPFS_NINDIRECT + OSPFS_NDIRECT) b); [| lia].
  destruct (Z.ltb_spec b OSPFS_MAXFILEBLKS) as [_ | Hge];
    [| unfold OSPFS_MAXFILEBLKS in Hge; nia].
  cbn [andb].
  replace (b - (OSPFS_NINDIRECT + OSPFS_NDIRECT))
    with (b - OSPFS_NDIRECT - OSPFS_NINDIRECT) by lia.
  rewrite (Z.mod_small _ OSPFS_NINDIRECT) by lia.
  rewrite Z.mod_small by lia.
  apply s32_small. unfold OSPFS_MAXFILEBLKS in *. nia.
Qed.

End Slots.

(** ** The error pointer of [create_blank_direntry] *)

(** Whenever the directory has no blank entry and [add_block] reports a full
    disk, the pointer handed back is [ERR_PTR(ENOSPC)] with a positive
    [ENOSPC], and [IS_ERR] does not take it for an error. *)
Lemma create_blank_direntry_enospc {H : ospfs_h} (m : mem) (dir_oi off : Z) :
  blank_scan m dir_oi (Z.to_nat (oi_size m dir_oi / OSPFS_DIRENTRY_SIZE + 1)) 0
  = inr off ->
  fst (add_block m dir_oi) = - ENOSPC ->
  fst (create_blank_direntry m dir_oi) = ERR_PTR ENOSPC
  /\ IS_ERR (fst (create_blank_direntry m dir_oi)) = false.
Proof.
  intros Hscan Hadd. unfold create_blank_direntry. rewrite Hscan.
  destruct (add_block m dir_oi) as [success m']. simpl in Hadd. subst success.
  split; reflexivity.
Qed.

(** ** The images are what their descriptions say *)

Example Img1_file :
  ospfs_inode (H := Img1.h) Img1.img 2 = Some Img1.inode2
  /\ oi_size Img1.img Img1.inode2 = 100
  /\ ospfs_inode_blockno (H := Img1.h) Img1.img Img1.inode2 0 = 4
  /\ map (bitvector_test Img1.img 2048) [0; 1; 2; 3; 4; 5; 6; 7]
     = [false; false; false; false; false; true; false; false].
Proof. vm_compute. repeat split. Qed.

Example Img2_file :
  ospfs_size2nblocks (H := Img2.h) (oi_size Img2.img Img2.inode2) = 522
  /\ map (fun b => ospfs_inode_blockno (H := Img2.h) Img2.img Img2.inode2 (b * 1024))
       [0; 9; 10; 265; 266; 521] = [4; 13; 15; 270; 273; 528]
  /\ oi_size Img2.img Img2.inode3 = 0
  /\ map (bitvector_test Img2.img 2048) [528; 529; 530; 531]
     = [false; true; true; false]
  /\ load_bytes Img2.img (529 * 1024) 8 = repeat 0 8
  /\ load_bytes Img2.stale (529 * 1024) 8 = [17; 2; 0; 0; 0; 0; 0; 0]
  /\ map (bitvector_test Img2.stale 2048) [528; 529; 530; 531]
     = [false; true; true; false]
  /\ oi_size Img2.stale Img2.inode3 = 0.
Proof. vm_compute. repeat split. Qed.

Example Img3_directory :
  ospfs_inode (H := Img3.h) Img3.base 1 = Some (Img3.inode 1)
  /\ oi_size Img3.base (Img3.inode 1) = 1024
  /\ find_direntry (H := Img3.h) Img3.base (Img3.inode 1) (chars "g") 1
     = Some (Img3.entry 6)
  /\ find_direntry (H := Img3.h) Img3.base (Img3.inode 1) (chars "h") 1 = None
  /\ find_direntry (H := Img3.h) Img3.full (Img3.inode 1) (chars "h") 1
     = Some (Img3.entry 7)
  /\ fst (create_blank_direntry (H := Img3.h) Img3.base (Img3.inode 1))
     = InImage (Img3.entry 7)
  /\ fst (allocate_block (H := Img3.h) Img3.full) = 0
  /\ cstring (H := Img3.h) Img3.base (oi_symlink (Img3.inode 10)) = Img3.old_target.
Proof. vm_compute. repeat split. Qed.

(** On the small images the operations behave as the specification says:
    a write is read back, a failed growth from a whole number of blocks is
    undone, and a link made with a conditional target resolves by user. *)
Example Img1_write_then_read :
  write_then_read (H := Img1.h) Img1.img Img1.inode2 [1; 2; 3] 100
  = Some (3, 3, [Some 1; Some 2; Some 3]).
Proof. vm_compute. reflexivity. Qed.

Example Img1_whole_block_rollback :
  change_size_outcome (H := Img1.h) (store32 Img1.img Img1.inode2 1024)
    Img1.inode2 3072 [4; 5]
  = Some (- ENOSPC, 1024, [false; true]).
Proof. vm_compute. reflexivity. Qed.

Example Img3_conditional_link :
  ending (ospfs_symlink (H := Img3.h) Img3.base 1 (chars "lnk") (chars "root?/a:/b"))
  = inl 0
  /\ follow_symlink (H := Img3.h) Img3.linked (Img3.inode 10) 0 = chars "/a"
  /\ follow_symlink (H := Img3.h) Img3.linked (Img3.inode 10) 1000 = chars "/b".
Proof. vm_compute. repeat split. Qed.

(** * The claims on concrete images *)

(** C1 (the code departs from it): on [Img1] the file has 100 bytes in block
    4 and block 5 is the only free block.  Growing it to three blocks takes
    block 5, then finds the disk full; the roll-back removes blocks while
    the size is above 100, which takes away block 4 as well: the call
    returns -ENOSPC with a size of 0 and with block 4 marked free. *)
Theorem change_size_rollback_overshoots :
  oi_size Img1.img Img1.inode2 = 100
  /\ map (bitvector_test Img1.img 2048) [4; 5] = [false; true]
  /\ change_size_outcome (H := Img1.h) Img1.img Img1.inode2 3072 [4; 5]
     = Some (- ENOSPC, 0, [true; true]).
Proof. vm_compute. repeat split. Qed.

(** C2 (the code departs from it): on [Img3.full] the directory has no blank
    entry and no block is free.  [create_blank_direntry] hands back
    [ERR_PTR(28)], the error with its sign turned, which [IS_ERR] does not
    take for an error; [ospfs_create], [ospfs_link] and [ospfs_symlink] go
    on and store through the pointer 28 instead of returning -ENOSPC. *)
Theorem out_of_space_not_propagated :
  fst (create_blank_direntry (H := Img3.h) Img3.full (Img3.inode 1)) = ERR_PTR 28
  /\ IS_ERR (ERR_PTR 28) = false
  /\ IS_ERR (ERR_PTR (- ENOSPC)) = true
  /\ ending (ospfs_create (H := Img3.h) Img3.full 1 (chars "z") 420) = inr 28
  /\ ending (ospfs_link (H := Img3.h) Img3.full 2 1 (chars "z")) = inr 28
  /\ ending (ospfs_symlink (H := Img3.h) Img3.full 1 (chars "z") (chars "/tmp/foo"))
     = inr 28.
Proof. vm_compute. repeat split. Qed.

(** C3 (the code departs from it): a link made with the target /tmp/foo,
    which does not begin with root?, holds /tmp/foo; following it as user 0
    gives foo, and as user 1000 the bytes that lie behind the terminator,
    left there by an earlier link. *)
Theorem follow_link_plain_target :
  let made := ospfs_symlink (H := Img3.h) Img3.base 1 (chars "lnk") (chars "/tmp/foo") in
  ending made = inl 0
  /\ cstring (H := Img3.h) (after made) (oi_symlink (Img3.inode 10)) = chars "/tmp/foo"
  /\ follow_symlink (H := Img3.h) (after made) (Img3.inode 10) 0 = chars "foo"
  /\ follow_symlink (H := Img3.h) (after made) (Img3.inode 10) 1000
     = chars "ret:/public".
Proof. vm_compute. repeat split. Qed.

(** C4 (the code departs from it): with ND = 10 and NI = 256, block 522 is
    the block 256 of the doubly-indirect range; its slot is 256 mod 256 = 0,
    and [ospfs_inode_blockno] reads slot 0, but [direct_index] reduces
    modulo NI + ND and answers 256. *)
Theorem direct_index_indirect2_modulus :
  indir2_index (H := lab3 0) 522 = 0
  /\ (522 - 10 - 256) mod 256 = 0
  /\ direct_index (H := lab3 0) 522 = 256.
Proof. vm_compute. repeat split. Qed.

(** C5 (the code departs from it): on [Img2.stale] block 529 is free and
    begins with the word 529, left by the file that had it.  [add_block] on
    the 522-block file finds the indirect2 block in place and no indirect
    block for slot 1: it takes block 529 as that indirect block and links it
    without clearing it, so the linked block still begins with 529. *)
Theorem add_block_links_unzeroed_indirect :
  let done := add_block (H := Img2.h) Img2.stale Img2.inode2 in
  bitvector_test Img2.stale 2048 529 = true
  /\ load32 Img2.stale (529 * 1024) = 529
  /\ fst done = 0
  /\ load32 (snd done) (271 * 1024 + 4) = 529
  /\ bitvector_test (snd done) 2048 529 = false
  /\ load32 (snd done) (529 * 1024) = 529.
Proof. vm_compute. repeat split. Qed.

(** C6 (the code departs from it): on [Img3.base] the first inode without
    links is inode 10, which still holds the target of a removed link.
    [ospfs_create] clears the record before it fills it in; [ospfs_symlink]
    does not, and behind the new target x the old bytes are still there. *)
Theorem symlink_keeps_stale_inode_bytes :
  let created := ospfs_create (H := Img3.h) Img3.base 1 (chars "new") 420 in
  let linked := ospfs_symlink (H := Img3.h) Img3.base 1 (chars "new") (chars "x") in
  free_inode_scan (H := Img3.h) Img3.base 16 0 = 10
  /\ ending created = inl 0
  /\ load_bytes (after created) (Img3.inode 10) 64
     = [0; 0; 0; 0; 0; 0; 0; 0; 1; 0; 0; 0; 164; 1; 0; 0] ++ repeat 0 48
  /\ ending linked = inl 0
  /\ load_bytes (after linked) (Img3.inode 10 + 16) 21
     = chars "x" ++ [0] ++ chars "ot?/secret:/public" ++ [0].
Proof. vm_compute. repeat split. Qed.

(** C8 (the code departs from it): on [Img2.stale] the byte 13 is written at
    the end of the 522-block file.  The growth step links block 529 as an
    indirect block without clearing it, so the block found for the new
    byte is the one its old first word names, block 529 itself: the byte
    lands on the pointer word that leads to it.  The write returns 1, the
    read that follows returns 1 as well, and the byte it delivers is 0. *)
Theorem write_read_roundtrip_broken :
  oi_size Img2.stale Img2.inode2 = 522 * 1024
  /\ option_map fst (write_then_truncate (H := Img2.h) Img2.img Img2.inode3 [17; 2; 0; 0])
     = Some (4, 0)
  /\ ospfs_inode_blockno (H := Img2.h) Img2.grown Img2.inode2 (522 * 1024) = 529
  /\ block_index_words (H := Img2.h) Img2.grown Img2.inode2 522
     = [Img2.inode2 + 60; 271 * 1024 + 4; 529 * 1024]
  /\ write_then_read (H := Img2.h) Img2.stale Img2.inode2 [13] (522 * 1024)
     = Some (1, 1, [Some 0]).
Proof. vm_compute. repeat split. Qed.

(** C9 (the code departs from it): on [Img2.stale] the byte 13 is written to
    the 522-block file opened with [O_APPEND].  The position passed in, 0 or
    7, plays no part: the write returns 1, leaves the position at the old
    size plus 1 and the file one byte longer.  But the byte is not at the
    end of the file: the read at the old size returns 1 and delivers 0.  On
    [Img1.img] the same calls append the bytes 1 2 3 to the 100-byte
    file. *)
Theorem append_write_lost :
  oi_size Img2.stale Img2.inode2 = 522 * 1024
  /\ Z.land O_APPEND O_APPEND <> 0
  /\ append_then_read (H := Img2.h) Img2.stale Img2.inode2 [13] 0
     = Some (1, 522 * 1024 + 1, 522 * 1024 + 1, 1, [Some 0])
  /\ append_then_read (H := Img2.h) Img2.stale Img2.inode2 [13] 7
     = Some (1, 522 * 1024 + 1, 522 * 1024 + 1, 1, [Some 0])
  /\ append_then_read (H := Img1.h) Img1.img Img1.inode2 [1; 2; 3] 7
     = Some (3, 103, 103, 3, [Some 1; Some 2; Some 3]).
Proof. vm_compute. repeat split. discriminate. Qed.

(** ** The proved claims at concrete arguments *)

Lemma follow_conditional_witness :
  forallb (fun c => negb (c =? 0) && negb (c =? 58)) (chars "/a") = true
  /\ forallb (fun c => negb (c =? 0)) (chars "/b") = true
  /\ memcmp0 Img3.linked (oi_symlink (Img3.inode 10))
       (root_prefix ++ chars "/a" ++ 58 :: chars "/b" ++ [0]) = true
  /\ oi_symlink (Img3.inode 10)
       + Z.of_nat (length (root_prefix ++ chars "/a" ++ 58 :: chars "/b" ++ [0]))
     <= @ospfs_length Img3.h
  /\ follow_symlink_as (H := Img3.h) Img3.linked (Img3.inode 10) setuid_root
     = (if uid setuid_root =? 0 then chars "/a" else chars "/b")
  /\ forall other : task_struct,
       uid other = uid setuid_root ->
       follow_symlink_as (H := Img3.h) Img3.linked (Img3.inode 10) other
       = follow_symlink_as (H := Img3.h) Img3.linked (Img3.inode 10) setuid_root.
Proof.
  assert (forallb (fun c => negb (c =? 0) && negb (c =? 58)) (chars "/a") = true)
    as H1 by (vm_compute; reflexivity).
  assert (forallb (fun c => negb (c =? 0)) (chars "/b") = true)
    as H2 by (vm_compute; reflexivity).
  assert (memcmp0 Img3.linked (oi_symlink (Img3.inode 10))
            (root_prefix ++ chars "/a" ++ 58 :: chars "/b" ++ [0]) = true)
    as H3 by (vm_compute; reflexivity).
  assert (oi_symlink (Img3.inode 10)
            + Z.of_nat (length (root_prefix ++ chars "/a" ++ 58 :: chars "/b" ++ [0]))
          <= @ospfs_length Img3.h)
    as H4 by (vm_compute; intros Hgt; discriminate Hgt).
  repeat (split; [assumption |]).
  exact (follow_conditional (H := Img3.h) Img3.linked (Img3.inode 10) setuid_root
           (chars "/a") (chars "/b") H1 H2 H3 H4).
Defined.

(** C7 as the specification words it, by the effective user id, fails: the
    link made with the target root?/a:/b resolves to /b for a process whose
    effective user id is 0 and whose real user id is not, and to /a for a
    process of the user 0 that has taken the effective user id 1000. *)
Lemma follow_by_effective_uid_fails :
  memcmp0 Img3.linked (oi_symlink (Img3.inode 10))
    (root_prefix ++ chars "/a" ++ 58 :: chars "/b" ++ [0]) = true
  /\ euid setuid_root = 0
  /\ follow_symlink_as (H := Img3.h) Img3.linked (Img3.inode 10) setuid_root
     = chars "/b"
  /\ follow_symlink_as (H := Img3.h) Img3.linked (Img3.inode 10) setuid_root
     <> (if euid setuid_root =? 0 then chars "/a" else chars "/b")
  /\ follow_symlink_as (H := Img3.h) Img3.linked (Img3.inode 10)
       {| uid := 0; euid := 1000 |}
     <> (if euid {| uid := 0; euid := 1000 |} =? 0
         then chars "/a" else chars "/b").
Proof. vm_compute. repeat split; discriminate. Qed.

Lemma ospfs_read_clamped_witness :
  0 < @OSPFS_BLKSIZE Img1.h < 2 ^ 32
  /\ 0 <= 200 < 2 ^ 32
  /\ - 2 ^ 63 <= 40 <= oi_size Img1.img Img1.inode2
  /\ exists r pos' um',
       ospfs_read (H := Img1.h) Img1.img Img1.inode2
         (ubuf 8192 (repeat 255 200)) 8192 200 40 = Some (r, pos', um')
       /\ r <= oi_size Img1.img Img1.inode2 - 40
       /\ 40 <= pos' <= oi_size Img1.img Img1.inode2
       /\ forall a,
            a < 8192 \/ 8192 + (oi_size Img1.img Img1.inode2 - 40) <= a ->
            um' a = ubuf 8192 (repeat 255 200) a.
Proof.
  assert (0 < @OSPFS_BLKSIZE Img1.h < 2 ^ 32) as H1 by (simpl; lia).
  assert (0 <= 200 < 2 ^ 32) as H2 by lia.
  assert (- 2 ^ 63 <= 40 <= oi_size Img1.img Img1.inode2) as H3
      by (replace (oi_size Img1.img Img1.inode2) with 100
            by (vm_compute; reflexivity); lia).
  repeat (split; [assumption |]).
  exact (ospfs_read_clamped (H := Img1.h) Img1.img Img1.inode2
           (ubuf 8192 (repeat 255 200)) 8192 200 40 H1 H2 H3).
Defined.

(** * Further properties of the engine *)

(** ** Words and bits of the image *)

Lemma load8_store32 (m : mem) (a v x : Z) :
  load8 (store32 m a v) x =
  if (a <=? x) && (x <? a + 4) then (v / 2 ^ (8 * (x - a))) mod 256 else load8 m x.
Proof.
  unfold load8, store32.
  destruct ((a <=? x) && (x <? a + 4)); [| reflexivity].
  apply Z.mod_mod. lia.
Qed.

Lemma load32_store32 (m : mem) (a v : Z) :
  load32 (store32 m a v) a = u32 v.
Proof.
  unfold load32. rewrite !load8_store32.
  replace ((a <=? a) && (a <? a + 4)) with true by lia.
  replace ((a <=? a + 1) && (a + 1 <? a + 4)) with true by lia.
  replace ((a <=? a + 2) && (a + 2 <? a + 4)) with true by lia.
  replace ((a <=? a + 3) && (a + 3 <? a + 4)) with true by lia.
  replace (a - a) with 0 by lia.
  replace (a + 1 - a) with 1 by lia.
  replace (a + 2 - a) with 2 by lia.
  replace (a + 3 - a) with 3 by lia.
  unfold u32.
  change (2 ^ (8 * 0)) with 1. change (2 ^ (8 * 1)) with 256.
  change (2 ^ (8 * 2)) with 65536. change (2 ^ (8 * 3)) with 16777216.
  change (2 ^ 32) with 4294967296.
  rewrite Z.div_1_r.
  pose proof (Z.div_mod v 256 ltac:(lia)).
  pose proof (Z.div_mod (v / 256) 256 ltac:(lia)).
  pose proof (Z.div_mod (v / 256 / 256) 256 ltac:(lia)).
  pose proof (Z.div_mod (v / 256 / 256 / 256) 256 ltac:(lia)).
  rewrite !Z.div_div in * by lia.
  change (256 * 256) with 65536 in *. change (65536 * 256) with 16777216 in *.
  change (256 * 65536) with 16777216 in *.
  change (16777216 * 256) with 4294967296 in *.
  pose proof (Z.mod_pos_bound v 256 ltac:(lia)).
  pose proof (Z.mod_pos_bound (v / 256) 256 ltac:(lia)).
  pose proof (Z.mod_pos_bound (v / 65536) 256 ltac:(lia)).
  pose proof (Z.mod_pos_bound (v / 16777216) 256 ltac:(lia)).
  apply Z.mod_unique with (q := v / 4294967296); lia.
Qed.

Lemma load32_store32_other (m : mem) (a v w : Z) :
  w + 4 <= a \/ a + 4 <= w -> load32 (store32 m a v) w = load32 m w.
Proof.
  intros Hd. unfold load32. rewrite !load8_store32.
  replace ((a <=? w) && (w <? a + 4)) with false by lia.
  replace ((a <=? w + 1) && (w + 1 <? a + 4)) with false by lia.
  replace ((a <=? w + 2) && (w + 2 <? a + 4)) with false by lia.
  replace ((a <=? w + 3) && (w + 3 <? a + 4)) with false by lia.
  reflexivity.
Qed.

Lemma load8_store32_other (m : mem) (a v x : Z) :
  x < a \/ a + 4 <= x -> load8 (store32 m a v) x = load8 m x.
Proof.
  intros Hd. rewrite load8_store32.
  replace ((a <=? x) && (x <? a + 4)) with false by lia. reflexivity.
Qed.

(** Testing a bit of a word with a one-bit mask. *)
Lemma land_bit (x k : Z) :
  0 <= k < 32 ->
  negb (Z.land x (u32 (Z.shiftl 1 k)) =? 0) = Z.testbit x k.
Proof.
  intros Hk. rewrite Z.shiftl_1_l.
  assert (u32 (2 ^ k) = 2 ^ k) as ->.
  { apply u32_small. split; [apply Z.pow_nonneg; lia |].
    apply Z.pow_lt_mono_r; lia. }
  destruct (Z.testbit x k) eqn:Hb.
  - apply negb_true_iff, Z.eqb_neq. intros H0.
    assert (Z.testbit (Z.land x (2 ^ k)) k = true) as Ht.
    { rewrite Z.land_spec, Hb, Z.pow2_bits_true by lia. reflexivity. }
    rewrite H0, Z.bits_0 in Ht. discriminate.
  - apply negb_false_iff, Z.eqb_eq. apply Z.bits_inj'. intros n Hn.
    rewrite Z.land_spec, Z.bits_0, Z.pow2_bits_eqb by lia.
    destruct (Z.eqb_spec k n) as [-> | ]; [rewrite Hb |]; auto using andb_false_r.
Qed.

Lemma quot_rem_nonneg (i : Z) :
  0 <= i -> Z.quot i 32 = i / 32 /\ Z.rem i 32 = i mod 32.
Proof.
  intros Hi. split; [apply Z.quot_div_nonneg | apply Z.rem_mod_nonneg]; lia.
Qed.

Section Bitmap.

Context {H : ospfs_h}.

(** A bit of the vector is a bit of one of its words. *)
Lemma bitvector_test_bit (m : mem) (vector i : Z) :
  0 <= i ->
  bitvector_test m vector i
  = Z.testbit (load32 m (vector + 4 * (i / 32))) (i mod 32).
Proof.
  intros Hi. unfold bitvector_test. cbv zeta.
  destruct (quot_rem_nonneg i Hi) as [-> ->].
  apply land_bit. apply Z.mod_pos_bound. lia.
Qed.

Lemma same_word_bits (i j : Z) :
  i / 32 = j / 32 -> (i mod 32 =? j mod 32) = (i =? j).
Proof.
  intros Hq.
  pose proof (Z.div_mod i 32 ltac:(lia)). pose proof (Z.div_mod j 32 ltac:(lia)).
  destruct (Z.eqb_spec (i mod 32) (j mod 32)); destruct (Z.eqb_spec i j);
    try reflexivity; lia.
Qed.

Lemma other_word_apart (vector i j : Z) :
  i / 32 <> j / 32 ->
  vector + 4 * (j / 32) + 4 <= vector + 4 * (i / 32)
  \/ vector + 4 * (i / 32) + 4 <= vector + 4 * (j / 32).
Proof. lia. Qed.

Lemma bitvector_test_set (m : mem) (vector i j : Z) :
  0 <= i -> 0 <= j ->
  bitvector_test (bitvector_set m vector i) vector j
  = (j =? i) || bitvector_test m vector j.
Proof.
  intros Hi Hj. rewrite !bitvector_test_bit by assumption.
  unfold bitvector_set. cbv zeta.
  destruct (quot_rem_nonneg i Hi) as [-> ->].
  pose proof (Z.mod_pos_bound i 32 ltac:(lia)) as Hbi.
  pose proof (Z.mod_pos_bound j 32 ltac:(lia)) as Hbj.
  destruct (Z.eq_dec (i / 32) (j / 32)) as [Hq | Hq].
  - rewrite <- Hq, load32_store32. unfold u32 at 1.
    rewrite Z.mod_pow2_bits_low by lia.
    rewrite Z.lor_spec, Z.shiftl_1_l.
    rewrite (u32_small (2 ^ (i mod 32)))
      by (split; [apply Z.pow_nonneg; lia | apply Z.pow_lt_mono_r; lia]).
    rewrite Z.pow2_bits_eqb by lia.
    rewrite (same_word_bits i j Hq), (Z.eqb_sym i j). apply orb_comm.
  - rewrite load32_store32_other by (apply other_word_apart; congruence).
    destruct (Z.eqb_spec j i); [subst; congruence | reflexivity].
Qed.

Lemma bitvector_test_clear (m : mem) (vector i j : Z) :
  0 <= i -> 0 <= j ->
  bitvector_test (bitvector_clear m vector i) vector j
  = negb (j =? i) && bitvector_test m vector j.
Proof.
  intros Hi Hj. rewrite !bitvector_test_bit by assumption.
  unfold bitvector_clear. cbv zeta.
  destruct (quot_rem_nonneg i Hi) as [-> ->].
  pose proof (Z.mod_pos_bound i 32 ltac:(lia)) as Hbi.
  pose proof (Z.mod_pos_bound j 32 ltac:(lia)) as Hbj.
  destruct (Z.eq_dec (i / 32) (j / 32)) as [Hq | Hq].
  - rewrite <- Hq, load32_store32. unfold u32.
    rewrite Z.mod_pow2_bits_low by lia.
    rewrite Z.land_spec, Z.mod_pow2_bits_low by lia.
    rewrite Z.lnot_spec, Z.shiftl_1_l by lia.
    rewrite Z.pow2_bits_eqb by lia.
    rewrite (same_word_bits i j Hq), (Z.eqb_sym i j). apply andb_comm.
  - rewrite load32_store32_other by (apply other_word_apart; congruence).
    destruct (Z.eqb_spec j i); [subst; congruence | reflexivity].
Qed.

(** Setting or clearing a bit touches the four bytes of its word only. *)
Lemma bitvector_set_frame (m : mem) (vector i a : Z) :
  a < vector + 4 * Z.quot i 32 \/ vector + 4 * Z.quot i 32 + 4 <= a ->
  load8 (bitvector_set m vector i) a = load8 m a.
Proof. intros Ha. unfold bitvector_set. now apply load8_store32_other. Qed.

Lemma bitvector_clear_frame (m : mem) (vector i a : Z) :
  a < vector + 4 * Z.quot i 32 \/ vector + 4 * Z.quot i 32 + 4 <= a ->
  load8 (bitvector_clear m vector i) a = load8 m a.
Proof. intros Ha. unfold bitvector_clear. now apply load8_store32_other. Qed.

Lemma allocate_scan_spec (m : mem) (vector : Z) (todo : nat) :
  forall bit, 0 <= bit ->
    let r := allocate_scan m vector todo bit in
    (forall j, bit <= j < snd r -> bitvector_test m vector j = false)
    /\ if fst r
       then bit <= snd r < bit + Z.of_nat todo
            /\ bitvector_test m vector (snd r) = true
       else snd r = bit + Z.of_nat todo.
Proof.
  induction todo as [| k IH]; intros bit Hbit; cbv zeta; cbn [allocate_scan].
  - cbn [fst snd]. split; [intros j Hj; lia | lia].
  - destruct (bitvector_test m vector bit) eqn:Hb; cbn [fst snd].
    + split; [intros j Hj; lia | split; [lia | exact Hb]].
    + assert (0 <= bit + 1) as Hbit1 by lia.
      specialize (IH (bit + 1) Hbit1). cbv zeta in IH.
      destruct IH as [Hlow Hres].
      split.
      * intros j Hj. destruct (Z.eq_dec j bit) as [-> | Hne]; [exact Hb |].
        apply Hlow. lia.
      * destruct (fst (allocate_scan m vector k (bit + 1)));
          [destruct Hres as [Hr1 Hr2]; split; [lia | exact Hr2] | lia].
Qed.

End Bitmap.

(** ** The free map *)

Section FreeMap.

Context {H : ospfs_h}.

Lemma freemap_bits_range (m : mem) : - 2 ^ 31 <= freemap_bits m < 2 ^ 31.
Proof.
  unfold freemap_bits, s32. change (2 ^ 31) with 2147483648.
  change (2 ^ 32) with 4294967296.
  match goal with |- _ <= ?x mod _ - _ < _ =>
    pose proof (Z.mod_pos_bound x 4294967296 ltac:(lia)) end.
  lia.
Qed.

(** The result of [allocate_block] in terms of its scan. *)
Lemma allocate_block_scan (m : mem) :
  allocate_block m
  = let r := allocate_scan m (ospfs_block OSPFS_FREEMAP_BLK)
               (Z.to_nat (freemap_bits m)) 0 in
    if fst r
    then (snd r, bitvector_clear m (ospfs_block OSPFS_FREEMAP_BLK) (snd r))
    else (0, m).
Proof.
  unfold allocate_block, freemap_bits. cbv zeta.
  destruct (allocate_scan m _ _ 0) as [found bit]. reflexivity.
Qed.

Lemma allocate_block_full (m : mem) :
  disk_full m = true -> allocate_block m = (0, m).
Proof.
  intros Hfull. rewrite allocate_block_scan. cbv zeta.
  unfold disk_full in Hfull. apply negb_true_iff in Hfull. now rewrite Hfull.
Qed.

End FreeMap.

(** X1: the three bit operations of the free map agree: after
    [bitvector_set] the bit tests set, after [bitvector_clear] it tests
    clear, every other bit of the vector tests as before, and no byte
    outside the word of the bit changes. *)
Theorem bitvector_set_clear_test (m : mem) (vector i j : Z) :
  0 <= i -> 0 <= j ->
  bitvector_test (bitvector_set m vector i) vector j
  = (j =? i) || bitvector_test m vector j
  /\ bitvector_test (bitvector_clear m vector i) vector j
     = negb (j =? i) && bitvector_test m vector j
  /\ forall a, a < vector + 4 * (i / 32) \/ vector + 4 * (i / 32) + 4 <= a ->
       load8 (bitvector_set m vector i) a = load8 m a
       /\ load8 (bitvector_clear m vector i) a = load8 m a.
Proof.
  intros Hi Hj.
  split; [apply bitvector_test_set; assumption |].
  split; [apply bitvector_test_clear; assumption |].
  intros a Ha. rewrite <- (proj1 (quot_rem_nonneg i Hi)) in Ha.
  split; [apply bitvector_set_frame | apply bitvector_clear_frame]; exact Ha.
Qed.

(** X2: [allocate_block] is first fit.  Either no bit of the free map
    is set, and it returns 0 and leaves the image as it is; or it returns
    the lowest set bit, which is below the number of bits of the map, and
    afterwards that bit tests clear, every other bit tests as before and
    no byte outside the word of the bit has changed. *)
Theorem allocate_block_first_fit {H : ospfs_h} (m : mem) :
  let vector := ospfs_block OSPFS_FREEMAP_BLK in
  let b := fst (allocate_block m) in
  let m' := snd (allocate_block m) in
  (disk_full m = true
   /\ (forall j, 0 <= j < freemap_bits m -> bitvector_test m vector j = false)
   /\ b = 0 /\ m' = m)
  \/ (disk_full m = false
      /\ 0 <= b < freemap_bits m
      /\ bitvector_test m vector b = true
      /\ (forall j, 0 <= j < b -> bitvector_test m vector j = false)
      /\ (forall j, 0 <= j ->
            bitvector_test m' vector j = negb (j =? b) && bitvector_test m vector j)
      /\ forall a, a < vector + 4 * (b / 32) \/ vector + 4 * (b / 32) + 4 <= a ->
           load8 m' a = load8 m a).
Proof.
  cbv zeta. rewrite allocate_block_scan. unfold disk_full. cbv zeta.
  pose proof (allocate_scan_spec m (ospfs_block OSPFS_FREEMAP_BLK)
                (Z.to_nat (freemap_bits m)) 0 (Z.le_refl 0)) as Hscan.
  cbv zeta in Hscan. destruct Hscan as [Hlow Hres].
  destruct (allocate_scan m _ _ 0) as [found bit]. cbn [fst snd] in *.
  destruct found; cbn [fst snd negb].
  - right. destruct Hres as [Hbit Htest].
    split; [reflexivity |].
    split; [lia |].
    split; [exact Htest |].
    split; [exact Hlow |].
    split.
    + intros j Hj. apply bitvector_test_clear; lia.
    + intros a Ha. apply bitvector_clear_frame.
      rewrite (proj1 (quot_rem_nonneg bit (proj1 Hbit))). exact Ha.
  - left. split; [reflexivity |].
    split; [| split; reflexivity].
    intros j Hj. apply Hlow. lia.
Qed.

Section FreeMap2.

Context {H : ospfs_h}.

Lemma ospfs_block_small (b : Z) :
  0 <= b * OSPFS_BLKSIZE < 2 ^ 32 -> ospfs_block b = b * OSPFS_BLKSIZE.
Proof. intros Hb. unfold ospfs_block. now apply u32_small. Qed.

(** The word of the free map that holds the bit of a block lies behind the
    superblock. *)
Lemma freemap_word_behind_super (b : Z) :
  16 <= OSPFS_BLKSIZE < 2 ^ 31 -> 0 <= b ->
  ospfs_super + 16 <= ospfs_block OSPFS_FREEMAP_BLK + 4 * (b / 32).
Proof.
  intros HB Hb. change (2 ^ 31) with 2147483648 in HB.
  rewrite ospfs_block_small
    by (unfold OSPFS_FREEMAP_BLK; change (2 ^ 32) with 4294967296; lia).
  unfold ospfs_super, OSPFS_FREEMAP_BLK.
  pose proof (Z.div_pos b 32 Hb ltac:(lia)). lia.
Qed.

Lemma free_block_word (m : mem) (b : Z) :
  0 <= b < 2 ^ 31 ->
  free_block m b
  = store32 m (ospfs_block OSPFS_FREEMAP_BLK + 4 * (b / 32))
      (Z.lor (load32 m (ospfs_block OSPFS_FREEMAP_BLK + 4 * (b / 32)))
             (u32 (Z.shiftl 1 (b mod 32)))).
Proof.
  intros Hb. unfold free_block, bitvector_set. cbv zeta.
  rewrite s32_small by lia.
  destruct (quot_rem_nonneg b (proj1 Hb)) as [-> ->]. reflexivity.
Qed.

Lemma freemap_bits_free_block (m : mem) (b : Z) :
  16 <= OSPFS_BLKSIZE < 2 ^ 31 -> 0 <= b < 2 ^ 31 ->
  freemap_bits (free_block m b) = freemap_bits m.
Proof.
  intros HB Hb. unfold freemap_bits, os_firstinob.
  rewrite free_block_word by exact Hb.
  rewrite load32_store32_other; [reflexivity |].
  pose proof (freemap_word_behind_super b HB (proj1 Hb)). lia.
Qed.

End FreeMap2.

(** X3: freeing a block and allocating again.  When every block below
    [b] is in use, [allocate_block] after [free_block m b] returns [b],
    and the free map then shows [b] in use and every other block as in
    [m]. *)
Theorem free_block_allocate_block {H : ospfs_h} (m : mem) (b : Z) :
  16 <= OSPFS_BLKSIZE < 2 ^ 31 ->
  0 < b < freemap_bits m ->
  (forall j, 0 <= j < b ->
     bitvector_test m (ospfs_block OSPFS_FREEMAP_BLK) j = false) ->
  fst (allocate_block (free_block m b)) = b
  /\ forall j, 0 <= j ->
       bitvector_test (snd (allocate_block (free_block m b)))
         (ospfs_block OSPFS_FREEMAP_BLK) j
       = negb (j =? b) && bitvector_test m (ospfs_block OSPFS_FREEMAP_BLK) j.
Proof.
  intros HB Hb Hlow.
  pose proof (freemap_bits_range m) as Hrange.
  assert (0 <= b < 2 ^ 31) as Hb31 by lia.
  assert (forall j, 0 <= j ->
            bitvector_test (free_block m b) (ospfs_block OSPFS_FREEMAP_BLK) j
            = (j =? b) || bitvector_test m (ospfs_block OSPFS_FREEMAP_BLK) j)
    as Hfreed.
  { intros j Hj. unfold free_block. rewrite s32_small by lia.
    apply bitvector_test_set; lia. }
  rewrite allocate_block_scan. cbv zeta.
  rewrite freemap_bits_free_block by assumption.
  pose proof (allocate_scan_spec (free_block m b) (ospfs_block OSPFS_FREEMAP_BLK)
                (Z.to_nat (freemap_bits m)) 0 (Z.le_refl 0)) as Hscan.
  cbv zeta in Hscan. destruct Hscan as [Hbelow Hres].
  destruct (allocate_scan (free_block m b) _ _ 0) as [found bit].
  cbn [fst snd] in *.
  assert (found = true /\ bit = b) as [-> ->].
  { destruct found.
    - split; [reflexivity |]. destruct Hres as [Hbit Htest].
      destruct (Z.lt_trichotomy bit b) as [Hlt | [Heq | Hgt]]; [| exact Heq |].
      + rewrite Hfreed, Hlow in Htest by lia.
        destruct (Z.eqb_spec bit b); [lia | discriminate].
      + assert (0 <= b < bit) as Hin by lia.
        specialize (Hbelow b Hin).
        rewrite Hfreed, Z.eqb_refl in Hbelow by lia. discriminate.
    - cbv beta iota in Hres.
      assert (0 <= b < bit) as Hin by lia.
      specialize (Hbelow b Hin).
      rewrite Hfreed, Z.eqb_refl in Hbelow by lia. discriminate. }
  cbn [fst snd]. split; [reflexivity |].
  intros j Hj. rewrite bitvector_test_clear, Hfreed by lia.
  destruct (j =? b); reflexivity.
Qed.

(** X4: [ospfs_size2nblocks] rounds up: the blocks counted are the
    fewest that hold [size] bytes. *)
Theorem ospfs_size2nblocks_ceiling {H : ospfs_h} (size : Z) :
  0 < OSPFS_BLKSIZE ->
  0 <= size -> size + OSPFS_BLKSIZE - 1 < 2 ^ 32 ->
  OSPFS_BLKSIZE * (ospfs_size2nblocks size - 1) < size
  <= OSPFS_BLKSIZE * ospfs_size2nblocks size.
Proof.
  intros HB Hs Hmax. unfold ospfs_size2nblocks.
  rewrite u32_small by lia.
  assert (OSPFS_BLKSIZE <> 0) as Hnz by lia.
  pose proof (Z.div_mod (size + OSPFS_BLKSIZE - 1) OSPFS_BLKSIZE Hnz).
  pose proof (Z.mod_pos_bound (size + OSPFS_BLKSIZE - 1) OSPFS_BLKSIZE HB).
  lia.
Qed.

(** ** Block indices *)

Section Indices.

Context {H : ospfs_h}.

Hypothesis ndirect_pos : 0 < OSPFS_NDIRECT.
Hypothesis nindirect_pos : 0 < OSPFS_NINDIRECT.
Hypothesis maxfileblks_int : OSPFS_MAXFILEBLKS < 2 ^ 31.

Lemma indirect2_slot_range (b : Z) :
  OSPFS_NDIRECT + OSPFS_NINDIRECT <= b < OSPFS_MAXFILEBLKS ->
  0 <= (b - (OSPFS_NINDIRECT + OSPFS_NDIRECT)) / OSPFS_NINDIRECT < OSPFS_NINDIRECT.
Proof.
  intros Hb. unfold OSPFS_MAXFILEBLKS in Hb. split.
  - apply Z.div_pos; lia.
  - apply Z.div_lt_upper_bound; lia.
Qed.

Lemma indir_index_indirect2 (b : Z) :
  OSPFS_NDIRECT + OSPFS_NINDIRECT <= b < OSPFS_MAXFILEBLKS ->
  indir_index b = (b - (OSPFS_NINDIRECT + OSPFS_NDIRECT)) / OSPFS_NINDIRECT.
Proof.
  intros Hb. pose proof (indirect2_slot_range b Hb) as Hs.
  unfold indir_index.
  destruct (Z.leb_spec OSPFS_NDIRECT b); [| lia].
  destruct (Z.ltb_spec b (OSPFS_NINDIRECT + OSPFS_NDIRECT)); [lia |].
  destruct (Z.leb_spec (OSPFS_NINDIRECT + OSPFS_NDIRECT) b); [| lia].
  destruct (Z.ltb_spec b OSPFS_MAXFILEBLKS); [| lia].
  cbn [andb]. apply s32_small.
  unfold OSPFS_MAXFILEBLKS in *. change (2 ^ 31) with 2147483648 in *. nia.
Qed.

Lemma direct_index_nonneg (b : Z) :
  0 <= b < OSPFS_MAXFILEBLKS -> 0 <= direct_index b.
Proof.
  intros Hb. unfold direct_index.
  change (2 ^ 31) with 2147483648 in *.
  destruct (Z.leb_spec 0 b); [| lia].
  destruct (Z.ltb_spec b OSPFS_NDIRECT); cbn [andb].
  - rewrite s32_small; change (2 ^ 31) with 2147483648; unfold OSPFS_MAXFILEBLKS in *; nia.
  - destruct (Z.leb_spec OSPFS_NDIRECT b); [| lia].
    destruct (Z.ltb_spec b (OSPFS_NINDIRECT + OSPFS_NDIRECT)); cbn [andb].
    + rewrite s32_small; change (2 ^ 31) with 2147483648; unfold OSPFS_MAXFILEBLKS in *; nia.
    + destruct (Z.leb_spec (OSPFS_NINDIRECT + OSPFS_NDIRECT) b); [| lia].
      destruct (Z.ltb_spec b OSPFS_MAXFILEBLKS); [| lia]. cbn [andb].
      assert (0 < OSPFS_NINDIRECT + OSPFS_NDIRECT) as Hpos by lia.
      pose proof (Z.mod_pos_bound (b - (OSPFS_NINDIRECT + OSPFS_NDIRECT))
                    (OSPFS_NINDIRECT + OSPFS_NDIRECT) Hpos) as Hm.
      rewrite s32_small; change (2 ^ 31) with 2147483648;
        unfold OSPFS_MAXFILEBLKS in *; nia.
Qed.

End Indices.

(** X5: how a file block index is unpacked.  [indir2_index] and
    [indir_index] tell the four ranges of a block index apart: direct
    blocks, blocks under the indirect block, blocks under the
    doubly-indirect block (where [indir_index] is the slot of
    [ospfs_inode_blockno], below NI), and indices past the largest file. *)
Theorem block_index_ranges {H : ospfs_h} (b : Z) :
  0 < OSPFS_NDIRECT -> 0 < OSPFS_NINDIRECT -> OSPFS_MAXFILEBLKS < 2 ^ 31 ->
  0 <= b ->
  (b < OSPFS_NDIRECT
   /\ indir2_index b = -1 /\ indir_index b = -1 /\ direct_index b = b)
  \/ (OSPFS_NDIRECT <= b < OSPFS_NDIRECT + OSPFS_NINDIRECT
      /\ indir2_index b = -1 /\ indir_index b = 0
      /\ direct_index b = b - OSPFS_NDIRECT)
  \/ (OSPFS_NDIRECT + OSPFS_NINDIRECT <= b < OSPFS_MAXFILEBLKS
      /\ indir2_index b = 0
      /\ indir_index b = (b - OSPFS_NDIRECT - OSPFS_NINDIRECT) / OSPFS_NINDIRECT
      /\ 0 <= indir_index b < OSPFS_NINDIRECT
      /\ 0 <= direct_index b)
  \/ (OSPFS_MAXFILEBLKS <= b
      /\ indir2_index b = -1 /\ indir_index b = -1 /\ direct_index b = -1).
Proof.
  intros Hnd Hni Hmax Hb.
  assert (OSPFS_NDIRECT + OSPFS_NINDIRECT < OSPFS_MAXFILEBLKS) as Hlt
      by (unfold OSPFS_MAXFILEBLKS; nia).
  destruct (Z_lt_le_dec b OSPFS_NDIRECT) as [H1 | H1];
    [| destruct (Z_lt_le_dec b (OSPFS_NDIRECT + OSPFS_NINDIRECT)) as [H2 | H2];
       [| destruct (Z_lt_le_dec b OSPFS_MAXFILEBLKS) as [H3 | H3]]].
  - left. split; [exact H1 |].
    unfold indir2_index, indir_index.
    rewrite direct_index_direct by (assumption || lia).
    repeat match goal with
           | |- context [?x <=? ?y] => destruct (Z.leb_spec x y); try lia
           | |- context [?x <? ?y] => destruct (Z.ltb_spec x y); try lia
           end; cbn [andb]; auto.
  - right; left. split; [lia |].
    unfold indir2_index, indir_index.
    rewrite direct_index_indirect by (assumption || lia).
    repeat match goal with
           | |- context [?x <=? ?y] => destruct (Z.leb_spec x y); try lia
           | |- context [?x <? ?y] => destruct (Z.ltb_spec x y); try lia
           end; cbn [andb]; auto.
  - right; right; left. split; [lia |].
    assert (OSPFS_NDIRECT + OSPFS_NINDIRECT <= b < OSPFS_MAXFILEBLKS) as Hin by lia.
    pose proof (indirect2_slot_range Hni b Hin) as Hs.
    rewrite indir_index_indirect2 by (assumption || lia).
    replace (b - (OSPFS_NINDIRECT + OSPFS_NDIRECT))
      with (b - OSPFS_NDIRECT - OSPFS_NINDIRECT) in * by lia.
    split; [| split; [reflexivity | split; [exact Hs |]]].
    + unfold indir2_index.
      destruct (Z.leb_spec (OSPFS_NDIRECT + OSPFS_NINDIRECT) b); [| lia].
      destruct (Z.ltb_spec b OSPFS_MAXFILEBLKS); [reflexivity | lia].
    + apply direct_index_nonneg; try assumption. lia.
  - right; right; right. split; [exact H3 |].
    unfold indir2_index, indir_index, direct_index.
    repeat match goal with
           | |- context [?x <=? ?y] => destruct (Z.leb_spec x y); try lia
           | |- context [?x <? ?y] => destruct (Z.ltb_spec x y); try lia
           end; cbn [andb]; auto.
Qed.

(** ** Changing the size of a file *)

Section Resize.

Context {H : ospfs_h}.

Lemma ospfs_size2nblocks_nonneg (size : Z) :
  0 < OSPFS_BLKSIZE -> 0 <= ospfs_size2nblocks size.
Proof.
  intros HB. unfold ospfs_size2nblocks.
  apply Z.div_pos; [apply u32_range | exact HB].
Qed.

(** With no free block [add_block] fails before it has changed a byte. *)
Lemma add_block_full (m : mem) (oi : Z) :
  0 < OSPFS_BLKSIZE -> 0 < OSPFS_NDIRECT -> 0 < OSPFS_NINDIRECT ->
  OSPFS_MAXFILEBLKS < 2 ^ 31 ->
  disk_full m = true ->
  add_block m oi
  = (if ospfs_size2nblocks (oi_size m oi) <? OSPFS_MAXFILEBLKS
     then - ENOSPC else - EIO, m).
Proof.
  intros HB Hnd Hni Hmax Hfull.
  pose proof (ospfs_size2nblocks_nonneg (oi_size m oi) HB) as Hn.
  unfold add_block. cbv zeta.
  rewrite (allocate_block_full m Hfull). cbv beta iota. cbn [Z.eqb negb].
  set (n := ospfs_size2nblocks (oi_size m oi)) in *.
  assert (OSPFS_NDIRECT + OSPFS_NINDIRECT < OSPFS_MAXFILEBLKS) as Hlt
      by (unfold OSPFS_MAXFILEBLKS; nia).
  destruct (Z.ltb_spec n 0); [lia |].
  destruct (Z.ltb_spec n OSPFS_MAXFILEBLKS) as [Hin | Hout].
  - assert (0 <= direct_index n) as Hd
        by (apply direct_index_nonneg; try assumption; lia).
    destruct (Z.ltb_spec (direct_index n) 0); [lia |].
    destruct (Z.ltb_spec n OSPFS_NDIRECT); [reflexivity |].
    destruct (Z.ltb_spec n (OSPFS_NDIRECT + OSPFS_NINDIRECT)).
    + destruct (negb (oi_indirect m oi =? 0)); reflexivity.
    + assert (OSPFS_NDIRECT + OSPFS_NINDIRECT <= n < OSPFS_MAXFILEBLKS) as Hr by lia.
      pose proof (indirect2_slot_range Hni n Hr) as Hs.
      rewrite <- indir_index_indirect2 in Hs by assumption.
      destruct (Z.ltb_spec (indir_index n) 0); [lia |]. cbn [orb].
      destruct (negb (oi_indirect2 m oi =? 0)); [| reflexivity].
      destruct (negb (load32 m _ =? 0)); reflexivity.
  - destruct (Z.ltb_spec n OSPFS_NDIRECT); [lia |].
    destruct (Z.ltb_spec n (OSPFS_NDIRECT + OSPFS_NINDIRECT)); [lia |].
    reflexivity.
Qed.

(** A new size that needs as many blocks as the file has is just stored. *)
Lemma change_size_same (m : mem) (oi new_size : Z) :
  0 < OSPFS_BLKSIZE ->
  ospfs_size2nblocks new_size = ospfs_size2nblocks (oi_size m oi) ->
  change_size m oi new_size = Some (0, set_oi_size m oi new_size).
Proof.
  intros HB Hsame.
  pose proof (ospfs_size2nblocks_nonneg new_size HB) as Hn.
  pose proof (load32_range m oi) as Hsz. fold (oi_size m oi) in Hsz.
  unfold change_size. cbv zeta.
  destruct (Z.to_nat (ospfs_size2nblocks new_size + 1)) as [| k] eqn:Hfuel; [lia |].
  cbn [change_size_grow]. rewrite Hsame, Z.ltb_irrefl.
  pose proof (Z.div_pos (oi_size m oi) OSPFS_BLKSIZE (proj1 Hsz) HB) as Hq.
  destruct (Z.to_nat (oi_size m oi / OSPFS_BLKSIZE + 2)) as [| k'] eqn:Hfuel';
    [lia |].
  cbn [change_size_shrink]. rewrite Hsame, Z.ltb_irrefl. reflexivity.
Qed.

End Resize.

(** X6: a full disk.  When the free map has no free block, [add_block]
    returns [-ENOSPC] (or [-EIO] for a file that already has the largest
    number of blocks) and the image it hands back is the image it got. *)
Theorem add_block_disk_full {H : ospfs_h} (m : mem) (oi : Z) :
  0 < OSPFS_BLKSIZE -> 0 < OSPFS_NDIRECT -> 0 < OSPFS_NINDIRECT ->
  OSPFS_MAXFILEBLKS < 2 ^ 31 ->
  disk_full m = true ->
  snd (add_block m oi) = m
  /\ fst (add_block m oi)
     = if ospfs_size2nblocks (oi_size m oi) <? OSPFS_MAXFILEBLKS
       then - ENOSPC else - EIO.
Proof.
  intros HB Hnd Hni Hmax Hfull.
  rewrite add_block_full by assumption. split; reflexivity.
Qed.

(** X7: growing a file on a full disk.  When the free map has no free
    block and the new size needs more blocks than the file has,
    [change_size] returns [-ENOSPC] ([-EIO] past the largest file) and
    leaves the image, the size of the file included, as it was. *)
Theorem change_size_disk_full {H : ospfs_h} (m : mem) (oi new_size : Z) :
  0 < OSPFS_BLKSIZE -> 0 < OSPFS_NDIRECT -> 0 < OSPFS_NINDIRECT ->
  OSPFS_MAXFILEBLKS < 2 ^ 31 ->
  disk_full m = true ->
  ospfs_size2nblocks (oi_size m oi) < ospfs_size2nblocks new_size ->
  change_size m oi new_size
  = Some (if ospfs_size2nblocks (oi_size m oi) <? OSPFS_MAXFILEBLKS
          then - ENOSPC else - EIO, m).
Proof.
  intros HB Hnd Hni Hmax Hfull Hgrow.
  pose proof (ospfs_size2nblocks_nonneg (oi_size m oi) HB) as Hn.
  pose proof (load32_range m oi) as Hsz. fold (oi_size m oi) in Hsz.
  unfold change_size. cbv zeta.
  destruct (Z.to_nat (ospfs_size2nblocks new_size + 1)) as [| k] eqn:Hfuel; [lia |].
  cbn [change_size_grow].
  destruct (Z.ltb_spec (ospfs_size2nblocks (oi_size m oi))
              (ospfs_size2nblocks new_size)); [| lia].
  rewrite add_block_full by assumption.
  destruct (ospfs_size2nblocks (oi_size m oi) <? OSPFS_MAXFILEBLKS).
  - rewrite Z.eqb_refl.
    pose proof (Z.div_pos (oi_size m oi) OSPFS_BLKSIZE (proj1 Hsz) HB) as Hq.
    destruct (Z.to_nat (oi_size m oi / OSPFS_BLKSIZE + 2)) as [| k'] eqn:Hfuel';
      [lia |].
    cbn [change_size_undo]. rewrite Z.ltb_irrefl. reflexivity.
  - reflexivity.
Qed.

(** X8: a size change inside the last block.  When the new size needs
    as many blocks as the file has, [change_size] returns 0 and stores the
    new size; no other byte of the image changes. *)
Theorem change_size_same_blocks {H : ospfs_h} (m : mem) (oi new_size : Z) :
  0 < OSPFS_BLKSIZE ->
  ospfs_size2nblocks new_size = ospfs_size2nblocks (oi_size m oi) ->
  exists m',
    change_size m oi new_size = Some (0, m')
    /\ oi_size m' oi = u32 new_size
    /\ forall a, a < oi \/ oi + 4 <= a -> load8 m' a = load8 m a.
Proof.
  intros HB Hsame.
  exists (set_oi_size m oi new_size). split; [| split].
  - apply change_size_same; assumption.
  - unfold oi_size, set_oi_size. apply load32_store32.
  - intros a Ha. unfold set_oi_size. apply load8_store32_other. exact Ha.
Qed.

(** ** Adding and removing one block *)

Lemma load8_memset (m : mem) (p c n x : Z) :
  load8 (memset m p c n) x
  = if (p <=? x) && (x <? p + n) then c mod 256 else load8 m x.
Proof.
  unfold load8, memset.
  destruct ((p <=? x) && (x <? p + n)); [| reflexivity].
  apply Z.mod_mod. lia.
Qed.

(** A word reads the same in two images that agree on its four bytes. *)
Lemma load32_frame (m m' : mem) (w : Z) :
  (forall x, w <= x < w + 4 -> load8 m' x = load8 m x) ->
  load32 m' w = load32 m w.
Proof. intros Hb. unfold load32. now rewrite !Hb by lia. Qed.

(** Storing the word that is there changes no byte. *)
Lemma store32_load32 (m : mem) (a x : Z) :
  load8 (store32 m a (load32 m a)) x = load8 m x.
Proof.
  rewrite load8_store32.
  destruct (Z.leb_spec a x); destruct (Z.ltb_spec x (a + 4)); cbn [andb];
    try reflexivity.
  unfold load32.
  pose proof (load8_range m a). pose proof (load8_range m (a + 1)).
  pose proof (load8_range m (a + 2)). pose proof (load8_range m (a + 3)).
  assert (x = a \/ x = a + 1 \/ x = a + 2 \/ x = a + 3) as [-> | [-> | [-> | ->]]]
      by lia.
  - replace (a - a) with 0 by lia. change (2 ^ (8 * 0)) with 1.
    rewrite Z.div_1_r.
    symmetry. apply Z.mod_unique with
      (q := load8 m (a + 1) + 256 * load8 m (a + 2) + 65536 * load8 m (a + 3)); lia.
  - replace (a + 1 - a) with 1 by lia. change (2 ^ (8 * 1)) with 256.
    symmetry. apply Z.mod_unique with
      (q := load8 m (a + 2) + 256 * load8 m (a + 3)); [lia |].
    symmetry. apply Z.div_unique with (r := load8 m a); lia.
  - replace (a + 2 - a) with 2 by lia. change (2 ^ (8 * 2)) with 65536.
    symmetry. apply Z.mod_unique with (q := load8 m (a + 3)); [lia |].
    symmetry. apply Z.div_unique with (r := load8 m a + 256 * load8 m (a + 1)); lia.
  - replace (a + 3 - a) with 3 by lia. change (2 ^ (8 * 3)) with 16777216.
    symmetry. apply Z.mod_unique with (q := 0); [lia |].
    symmetry. apply Z.div_unique with
      (r := load8 m a + 256 * load8 m (a + 1) + 65536 * load8 m (a + 2)); lia.
Qed.

(** Clearing a set bit of a word and setting it again gives the word back. *)
Lemma clear_then_set (x k : Z) :
  0 <= x < 2 ^ 32 -> 0 <= k < 32 -> Z.testbit x k = true ->
  u32 (Z.lor (u32 (Z.land x (u32 (Z.lnot (Z.shiftl 1 k))))) (u32 (Z.shiftl 1 k)))
  = x.
Proof.
  intros Hx Hk Hbit.
  rewrite <- (u32_small x Hx) at 2. unfold u32.
  apply Z.bits_inj'. intros n Hn.
  destruct (Z_lt_le_dec n 32) as [Hlow | Hhigh].
  - rewrite !Z.mod_pow2_bits_low by lia.
    rewrite Z.lor_spec, !Z.mod_pow2_bits_low by lia.
    rewrite Z.land_spec, !Z.mod_pow2_bits_low by lia.
    rewrite Z.lnot_spec, Z.shiftl_1_l by lia.
    rewrite Z.pow2_bits_eqb by lia.
    destruct (Z.eqb_spec k n) as [-> | Hne].
    + rewrite Hbit. reflexivity.
    + cbn [negb]. rewrite andb_true_r, orb_false_r. reflexivity.
  - rewrite !Z.mod_pow2_bits_high by lia. reflexivity.
Qed.

Section Blocks.

Context {H : ospfs_h}.

(** A successful [allocate_block]. *)
Lemma allocate_block_found (m : mem) :
  fst (allocate_block m) <> 0 ->
  snd (allocate_block m)
  = bitvector_clear m (ospfs_block OSPFS_FREEMAP_BLK) (fst (allocate_block m))
  /\ 0 < fst (allocate_block m) < freemap_bits m
  /\ bitvector_test m (ospfs_block OSPFS_FREEMAP_BLK) (fst (allocate_block m))
     = true.
Proof.
  rewrite allocate_block_scan. cbv zeta.
  pose proof (allocate_scan_spec m (ospfs_block OSPFS_FREEMAP_BLK)
                (Z.to_nat (freemap_bits m)) 0 (Z.le_refl 0)) as Hscan.
  cbv zeta in Hscan. destruct Hscan as [_ Hres].
  destruct (allocate_scan m _ _ 0) as [found bit]. cbn [fst snd] in *.
  destruct found; cbn [fst snd]; [| congruence].
  intros Hnz. destruct Hres as [Hbit Htest].
  split; [reflexivity | split; [lia | exact Htest]].
Qed.

(** The size after a block has gone in or out is a whole number of
    blocks. *)
Lemma size2nblocks_cases (sz : Z) :
  0 < OSPFS_BLKSIZE -> 0 <= sz -> sz + OSPFS_BLKSIZE - 1 < 2 ^ 32 ->
  (sz mod OSPFS_BLKSIZE = 0
   /\ sz = ospfs_size2nblocks sz * OSPFS_BLKSIZE)
  \/ (sz mod OSPFS_BLKSIZE <> 0
      /\ sz - sz mod OSPFS_BLKSIZE + OSPFS_BLKSIZE
         = ospfs_size2nblocks sz * OSPFS_BLKSIZE).
Proof.
  intros HB Hs Hmax. unfold ospfs_size2nblocks. rewrite u32_small by lia.
  assert (OSPFS_BLKSIZE <> 0) as Hnz by lia.
  pose proof (Z.div_mod sz OSPFS_BLKSIZE Hnz) as Hd.
  pose proof (Z.mod_pos_bound sz OSPFS_BLKSIZE HB) as Hm.
  destruct (Z.eq_dec (sz mod OSPFS_BLKSIZE) 0) as [Hz | Hz].
  - left. split; [exact Hz |].
    assert ((sz + OSPFS_BLKSIZE - 1) / OSPFS_BLKSIZE = sz / OSPFS_BLKSIZE) as ->.
    { symmetry. apply Z.div_unique with (r := OSPFS_BLKSIZE - 1); lia. }
    lia.
  - right. split; [exact Hz |].
    assert ((sz + OSPFS_BLKSIZE - 1) / OSPFS_BLKSIZE = sz / OSPFS_BLKSIZE + 1) as ->.
    { symmetry. apply Z.div_unique with (r := sz mod OSPFS_BLKSIZE - 1); lia. }
    lia.
Qed.

Lemma size2nblocks_whole (n : Z) :
  0 < OSPFS_BLKSIZE -> 0 <= n -> n * OSPFS_BLKSIZE + OSPFS_BLKSIZE - 1 < 2 ^ 32 ->
  ospfs_size2nblocks (n * OSPFS_BLKSIZE) = n.
Proof.
  intros HB Hn Hmax. unfold ospfs_size2nblocks.
  rewrite u32_small by nia.
  symmetry. apply Z.div_unique with (r := OSPFS_BLKSIZE - 1); lia.
Qed.

Lemma add_block_size_value (m : mem) (oi : Z) :
  0 < OSPFS_BLKSIZE -> oi_size m oi + 2 * OSPFS_BLKSIZE <= 2 ^ 32 ->
  add_block_size m oi
  = set_oi_size m oi ((ospfs_size2nblocks (oi_size m oi) + 1) * OSPFS_BLKSIZE).
Proof.
  intros HB Hmax.
  pose proof (load32_range m oi) as Hsz. fold (oi_size m oi) in Hsz.
  unfold add_block_size. cbv zeta.
  assert (oi_size m oi + OSPFS_BLKSIZE - 1 < 2 ^ 32) as Hwrap by lia.
  destruct (size2nblocks_cases (oi_size m oi) HB (proj1 Hsz) Hwrap)
    as [[Hz He] | [Hz He]].
  - rewrite Hz. cbn [Z.eqb negb]. rewrite u32_small by lia. f_equal. lia.
  - destruct (Z.eqb_spec (oi_size m oi mod OSPFS_BLKSIZE) 0); [contradiction |].
    cbn [negb].
    pose proof (Z.mod_pos_bound (oi_size m oi) OSPFS_BLKSIZE HB).
    rewrite u32_small by lia. f_equal. lia.
Qed.

Lemma remove_block_size_value (m : mem) (oi : Z) :
  0 < OSPFS_BLKSIZE -> oi_size m oi + OSPFS_BLKSIZE - 1 < 2 ^ 32 ->
  0 < ospfs_size2nblocks (oi_size m oi) ->
  remove_block_size m oi
  = set_oi_size m oi ((ospfs_size2nblocks (oi_size m oi) - 1) * OSPFS_BLKSIZE).
Proof.
  intros HB Hmax Hn.
  pose proof (load32_range m oi) as Hsz. fold (oi_size m oi) in Hsz.
  unfold remove_block_size. cbv zeta.
  assert (oi_size m oi + OSPFS_BLKSIZE - 1 < 2 ^ 32) as Hwrap by lia.
  destruct (size2nblocks_cases (oi_size m oi) HB (proj1 Hsz) Hwrap)
    as [[Hz He] | [Hz He]].
  - rewrite Hz. cbn [Z.eqb negb]. rewrite u32_small by nia. f_equal. lia.
  - destruct (Z.eqb_spec (oi_size m oi mod OSPFS_BLKSIZE) 0); [contradiction |].
    cbn [negb].
    pose proof (Z.mod_pos_bound (oi_size m oi) OSPFS_BLKSIZE HB).
    pose proof (Z.mod_le (oi_size m oi) OSPFS_BLKSIZE (proj1 Hsz) HB).
    rewrite u32_small by lia. f_equal. lia.
Qed.

(** [add_block] on a file that has room among its direct pointers. *)
Lemma add_block_direct_shape (m : mem) (oi : Z) :
  0 < OSPFS_BLKSIZE ->
  ospfs_size2nblocks (oi_size m oi) < OSPFS_NDIRECT ->
  fst (allocate_block m) <> 0 ->
  add_block m oi
  = (0, add_block_size
          (store32
             (memset (bitvector_clear m (ospfs_block OSPFS_FREEMAP_BLK)
                        (fst (allocate_block m)))
                (ospfs_block (fst (allocate_block m))) 0 OSPFS_BLKSIZE)
             (oi_direct_at oi (ospfs_size2nblocks (oi_size m oi)))
             (fst (allocate_block m))) oi).
Proof.
  intros HB Hn Hnz.
  pose proof (ospfs_size2nblocks_nonneg (oi_size m oi) HB) as Hn0.
  destruct (allocate_block_found m Hnz) as [Hsnd _].
  unfold add_block. cbv zeta.
  destruct (Z.ltb_spec (ospfs_size2nblocks (oi_size m oi)) 0); [lia |].
  destruct (Z.ltb_spec (ospfs_size2nblocks (oi_size m oi)) OSPFS_NDIRECT); [| lia].
  rewrite (surjective_pairing (allocate_block m)).
  destruct (Z.eqb_spec (fst (allocate_block m)) 0); [contradiction |].
  rewrite Hsnd. reflexivity.
Qed.

(** [remove_block] on a file whose last block hangs on a direct pointer. *)
Lemma remove_block_direct_shape (m : mem) (oi : Z) :
  0 < OSPFS_BLKSIZE ->
  0 < ospfs_size2nblocks (oi_size m oi) <= OSPFS_NDIRECT ->
  remove_block m oi
  = (0, remove_block_size
          (store32
             (free_block m (oi_direct m oi (ospfs_size2nblocks (oi_size m oi) - 1)))
             (oi_direct_at oi (ospfs_size2nblocks (oi_size m oi) - 1)) 0) oi).
Proof.
  intros HB Hn.
  unfold remove_block. cbv zeta.
  destruct (Z.leb_spec (ospfs_size2nblocks (oi_size m oi)) 0); [lia |].
  assert (ospfs_size2nblocks (oi_size m oi) < 2 ^ 32) as Hlt.
  { unfold ospfs_size2nblocks.
    pose proof (u32_range (oi_size m oi + OSPFS_BLKSIZE - 1)) as Hu.
    apply Z.div_lt_upper_bound; [exact HB |].
    change (2 ^ 32) with 4294967296 in *. nia. }
  rewrite (u32_small (ospfs_size2nblocks (oi_size m oi) - 1)) by lia.
  assert (0 <= OSPFS_NINDIRECT) as Hni
      by (unfold OSPFS_NINDIRECT; apply Z.div_pos; lia).
  assert (indir_index (ospfs_size2nblocks (oi_size m oi) - 1) = -1) as ->.
  { unfold indir_index.
    destruct (Z.leb_spec OSPFS_NDIRECT (ospfs_size2nblocks (oi_size m oi) - 1));
      [lia |].
    destruct (Z.leb_spec (OSPFS_NINDIRECT + OSPFS_NDIRECT)
                (ospfs_size2nblocks (oi_size m oi) - 1)); [lia |].
    reflexivity. }
  reflexivity.
Qed.

End Blocks.

Ltac split_ranges :=
  repeat match goal with
         | |- context [(?a <=? ?x) && (?x <? ?b)] =>
             destruct (Z.leb_spec a x); destruct (Z.ltb_spec x b);
             cbn [andb]; try lia
         end.


(** The byte of a word that a byte of the image holds. *)
Lemma load32_byte (m : mem) (a x : Z) :
  a <= x < a + 4 -> (load32 m a / 2 ^ (8 * (x - a))) mod 256 = load8 m x.
Proof.
  intros Hx. rewrite <- (store32_load32 m a x), load8_store32.
  destruct (Z.leb_spec a x); [| lia]. destruct (Z.ltb_spec x (a + 4)); [| lia].
  reflexivity.
Qed.

(** Only the low 32 bits of a value reach the image. *)
Lemma byte_u32 (v k : Z) :
  0 <= k < 4 -> (u32 v / 2 ^ (8 * k)) mod 256 = (v / 2 ^ (8 * k)) mod 256.
Proof.
  intros Hk. unfold u32. change 256 with (2 ^ 8).
  apply Z.bits_inj'. intros n Hn.
  destruct (Z_lt_le_dec n 8) as [Hlow | Hhigh].
  - rewrite !Z.mod_pow2_bits_low by lia.
    rewrite !Z.div_pow2_bits by lia.
    rewrite Z.mod_pow2_bits_low by lia. reflexivity.
  - rewrite !Z.mod_pow2_bits_high by lia. reflexivity.
Qed.

Lemma store32_u32 (m : mem) (a v x : Z) :
  load8 (store32 m a (u32 v)) x = load8 (store32 m a v) x.
Proof.
  rewrite !load8_store32.
  destruct (Z.leb_spec a x); destruct (Z.ltb_spec x (a + 4)); cbn [andb];
    try reflexivity.
  apply byte_u32. lia.
Qed.

Section DirectBlocks.

Context {H : ospfs_h}.

(** The image [add_block] leaves when the new block goes on a direct
    pointer and the inode record overlaps neither the block nor its word in
    the free map. *)
Lemma add_block_direct_value (m : mem) (oi : Z) :
  let n := ospfs_size2nblocks (oi_size m oi) in
  let a0 := fst (allocate_block m) in
  let blk := ospfs_block a0 in
  let w := ospfs_block OSPFS_FREEMAP_BLK + 4 * (a0 / 32) in
  0 < OSPFS_BLKSIZE ->
  n < OSPFS_NDIRECT ->
  oi_size m oi + 2 * OSPFS_BLKSIZE <= 2 ^ 32 ->
  a0 <> 0 ->
  w + 4 <= oi \/ oi + 16 + 4 * OSPFS_NDIRECT <= w ->
  blk + OSPFS_BLKSIZE <= oi \/ oi + 16 + 4 * OSPFS_NDIRECT <= blk ->
  add_block m oi
  = (0, store32
          (store32
             (memset (bitvector_clear m (ospfs_block OSPFS_FREEMAP_BLK) a0)
                blk 0 OSPFS_BLKSIZE)
             (oi + 16 + 4 * n) a0)
          oi ((n + 1) * OSPFS_BLKSIZE))
  /\ 0 < a0 < 2 ^ 31 /\ 0 <= n
  /\ 0 <= (n + 1) * OSPFS_BLKSIZE < 2 ^ 32.
Proof.
  intros n a0 blk w HB Hn Hmax Hnz Hw Hb.
  destruct (allocate_block_found m Hnz) as (_ & Ha0 & _).
  fold a0 in Ha0.
  pose proof (freemap_bits_range m) as Hbits.
  pose proof (ospfs_size2nblocks_nonneg (oi_size m oi) HB) as Hn0. fold n in Hn0.
  pose proof (load32_range m oi) as Hsz. fold (oi_size m oi) in Hsz.
  change (2 ^ 31) with 2147483648 in *. change (2 ^ 32) with 4294967296 in *.
  rewrite add_block_direct_shape by assumption.
  fold a0 n blk. unfold oi_direct_at in *.
  set (m1 := bitvector_clear m (ospfs_block OSPFS_FREEMAP_BLK) a0).
  set (m3 := store32 (memset m1 blk 0 OSPFS_BLKSIZE) (oi + 16 + 4 * n) a0).
  assert (oi_size m3 oi = oi_size m oi) as Hsize3.
  { apply load32_frame. intros x Hx. unfold m3.
    rewrite load8_store32_other by lia. rewrite load8_memset. split_ranges;
      apply bitvector_clear_frame;
      rewrite (proj1 (quot_rem_nonneg a0 ltac:(lia))); fold w; lia. }
  rewrite add_block_size_value by (rewrite ?Hsize3; assumption).
  rewrite Hsize3. fold n. unfold set_oi_size.
  split; [reflexivity | split; [lia | split; [exact Hn0 |]]].
  assert (oi_size m oi + OSPFS_BLKSIZE - 1 < 2 ^ 32) as Hwrap
      by (change (2 ^ 32) with 4294967296; lia).
  destruct (size2nblocks_cases (oi_size m oi) HB (proj1 Hsz) Hwrap)
    as [[Hz He] | [Hz He]]; fold n in He.
  - nia.
  - pose proof (Z.mod_pos_bound (oi_size m oi) OSPFS_BLKSIZE HB). nia.
Qed.

(** The image [remove_block] leaves when the last block hangs on a direct
    pointer and the inode record does not overlap the word of that block in
    the free map. *)
Lemma remove_block_direct_value (m : mem) (oi : Z) :
  let n := ospfs_size2nblocks (oi_size m oi) in
  let d := oi_direct m oi (n - 1) in
  let w := ospfs_block OSPFS_FREEMAP_BLK + 4 * (d / 32) in
  0 < OSPFS_BLKSIZE ->
  0 < n <= OSPFS_NDIRECT ->
  oi_size m oi + OSPFS_BLKSIZE <= 2 ^ 32 ->
  d < 2 ^ 31 ->
  w + 4 <= oi \/ oi + 16 + 4 * OSPFS_NDIRECT <= w ->
  remove_block m oi
  = (0, store32
          (store32
             (bitvector_set m (ospfs_block OSPFS_FREEMAP_BLK) d)
             (oi + 16 + 4 * (n - 1)) 0)
          oi ((n - 1) * OSPFS_BLKSIZE))
  /\ 0 <= d
  /\ 0 <= (n - 1) * OSPFS_BLKSIZE < 2 ^ 32.
Proof.
  intros n d w HB Hn Hmax Hd Hw.
  pose proof (load32_range m oi) as Hsz. fold (oi_size m oi) in Hsz.
  pose proof (load32_range m (oi_direct_at oi (n - 1))) as Hd0.
  fold (oi_direct m oi (n - 1)) in Hd0. fold d in Hd0.
  change (2 ^ 31) with 2147483648 in *. change (2 ^ 32) with 4294967296 in *.
  rewrite remove_block_direct_shape by assumption.
  fold n d. unfold oi_direct_at in *. unfold free_block.
  assert (s32 d = d) as -> by (apply s32_small; change (2 ^ 31) with 2147483648; lia).
  set (m1 := bitvector_set m (ospfs_block OSPFS_FREEMAP_BLK) d).
  set (m2 := store32 m1 (oi + 16 + 4 * (n - 1)) 0).
  assert (oi_size m2 oi = oi_size m oi) as Hsize2.
  { apply load32_frame. intros x Hx. unfold m2.
    rewrite load8_store32_other by lia. apply bitvector_set_frame.
    rewrite (proj1 (quot_rem_nonneg d (proj1 Hd0))). fold w. lia. }
  rewrite remove_block_size_value
    by (rewrite ?Hsize2; try assumption; change (2 ^ 32) with 4294967296; lia).
  rewrite Hsize2. fold n. unfold set_oi_size.
  split; [reflexivity | split; [lia |]].
  assert (oi_size m oi + OSPFS_BLKSIZE - 1 < 2 ^ 32) as Hwrap
      by (change (2 ^ 32) with 4294967296; lia).
  destruct (size2nblocks_cases (oi_size m oi) HB (proj1 Hsz) Hwrap)
    as [[Hz He] | [Hz He]]; fold n in He.
  - nia.
  - pose proof (Z.mod_pos_bound (oi_size m oi) OSPFS_BLKSIZE HB). nia.
Qed.

End DirectBlocks.



(** X11: a block added and removed again.  For a file whose size is a
    whole number of blocks, with a free direct pointer, [add_block]
    followed by [remove_block] returns 0 twice and gives back the image it
    started from: the size and the free map are as before, and the only
    bytes that may differ are those of the block that was handed out and
    of the direct pointer that held it, which is zero. *)
Theorem add_block_remove_block {H : ospfs_h} (m : mem) (oi : Z) :
  let n := ospfs_size2nblocks (oi_size m oi) in
  let a0 := fst (allocate_block m) in
  let blk := ospfs_block a0 in
  let w := ospfs_block OSPFS_FREEMAP_BLK + 4 * (a0 / 32) in
  0 < OSPFS_BLKSIZE ->
  n < OSPFS_NDIRECT ->
  oi_size m oi + 2 * OSPFS_BLKSIZE <= 2 ^ 32 ->
  oi_size m oi mod OSPFS_BLKSIZE = 0 ->
  a0 <> 0 ->
  w + 4 <= oi \/ oi + 16 + 4 * OSPFS_NDIRECT <= w ->
  blk + OSPFS_BLKSIZE <= oi \/ oi + 16 + 4 * OSPFS_NDIRECT <= blk ->
  w + 4 <= blk \/ blk + OSPFS_BLKSIZE <= w ->
  exists m1 m2,
    add_block m oi = (0, m1)
    /\ remove_block m1 oi = (0, m2)
    /\ oi_size m2 oi = oi_size m oi
    /\ oi_direct m2 oi n = 0
    /\ forall x,
         x < blk \/ blk + OSPFS_BLKSIZE <= x ->
         x < oi_direct_at oi n \/ oi_direct_at oi n + 4 <= x ->
         load8 m2 x = load8 m x.
Proof.
  intros n a0 blk w HB Hn Hmax Hwhole Hnz Hw Hb Hwb.
  destruct (add_block_direct_value m oi HB Hn Hmax Hnz Hw Hb)
    as (Hrun & Ha0 & Hn0 & Hv).
  destruct (allocate_block_found m Hnz) as (_ & _ & Hfree).
  fold n a0 blk in Hrun, Ha0, Hn0, Hv, Hfree.
  pose proof (load32_range m oi) as Hsz. fold (oi_size m oi) in Hsz.
  change (2 ^ 31) with 2147483648 in *. change (2 ^ 32) with 4294967296 in *.
  assert (oi_size m oi = n * OSPFS_BLKSIZE) as Hsize.
  { assert (oi_size m oi + OSPFS_BLKSIZE - 1 < 2 ^ 32) as Hwrap
        by (change (2 ^ 32) with 4294967296; lia).
    destruct (size2nblocks_cases (oi_size m oi) HB (proj1 Hsz) Hwrap)
      as [[_ He] | [Hz _]]; [exact He | contradiction]. }
  set (m0 := bitvector_clear m (ospfs_block OSPFS_FREEMAP_BLK) a0) in *.
  set (m1 := store32 _ oi ((n + 1) * OSPFS_BLKSIZE)) in Hrun.
  assert (forall x, load8 m1 x
                    = if (oi <=? x) && (x <? oi + 4)
                      then ((n + 1) * OSPFS_BLKSIZE / 2 ^ (8 * (x - oi))) mod 256
                      else if (oi + 16 + 4 * n <=? x) && (x <? oi + 16 + 4 * n + 4)
                      then (a0 / 2 ^ (8 * (x - (oi + 16 + 4 * n)))) mod 256
                      else if (blk <=? x) && (x <? blk + OSPFS_BLKSIZE)
                      then 0 else load8 m0 x) as Hm1.
  { intros x. unfold m1. rewrite !load8_store32, load8_memset. reflexivity. }
  assert (oi_size m1 oi = (n + 1) * OSPFS_BLKSIZE) as Hsize1.
  { unfold oi_size, m1. rewrite load32_store32. apply u32_small. exact Hv. }
  assert (ospfs_size2nblocks (oi_size m1 oi) = n + 1) as Hn1.
  { rewrite Hsize1. apply size2nblocks_whole;
      [exact HB | lia | change (2 ^ 32) with 4294967296; lia]. }
  assert (oi_direct m1 oi n = a0) as Hd1.
  { unfold oi_direct, oi_direct_at, m1.
    rewrite load32_store32_other by lia.
    rewrite load32_store32. apply u32_small.
    change (2 ^ 32) with 4294967296. lia. }
  destruct (remove_block_direct_value m1 oi) as (Hrun2 & _ & Hv2);
    rewrite ?Hn1, ?Hsize1; replace (n + 1 - 1) with n in * by lia;
    rewrite ?Hd1; try assumption;
    try (change (2 ^ 31) with 2147483648);
    try (change (2 ^ 32) with 4294967296); try lia.
  rewrite Hn1 in Hrun2, Hv2. replace (n + 1 - 1) with n in Hrun2, Hv2 by lia.
  rewrite Hd1 in Hrun2. fold w in Hrun2.
  exists m1. eexists. split; [exact Hrun |]. split; [exact Hrun2 |].
  assert (load32 m1 w = u32 (Z.land (load32 m w) (u32 (Z.lnot (Z.shiftl 1 (a0 mod 32))))))
    as Hword.
  { transitivity (load32 m0 w).
    - apply load32_frame. intros x Hx. rewrite Hm1. split_ranges; reflexivity.
    - unfold m0, bitvector_clear. cbv zeta.
      destruct (quot_rem_nonneg a0 ltac:(lia)) as [-> ->]. fold w.
      apply load32_store32. }
  assert (Z.testbit (load32 m w) (a0 mod 32) = true) as Hbit.
  { rewrite bitvector_test_bit in Hfree by lia. exact Hfree. }
  pose proof (Z.mod_pos_bound a0 32 ltac:(lia)) as Hk.
  split; [| split].
  - unfold oi_size. rewrite load32_store32. rewrite u32_small by lia.
    fold (oi_size m oi). lia.
  - unfold oi_direct, oi_direct_at.
    rewrite load32_store32_other by lia.
    rewrite load32_store32. reflexivity.
  - intros x Hx1 Hx2. unfold oi_direct_at in Hx2.
    assert (forall y, y < w \/ w + 4 <= y -> oi + 4 <= y \/ y < oi ->
                      y < blk \/ blk + OSPFS_BLKSIZE <= y ->
                      y < oi + 16 + 4 * n \/ oi + 16 + 4 * n + 4 <= y ->
                      load8 m1 y = load8 m y) as Hrest.
    { intros y Hy1 Hy2 Hy3 Hy4. rewrite Hm1.
      split_ranges; unfold m0; apply bitvector_clear_frame;
        rewrite (proj1 (quot_rem_nonneg a0 ltac:(lia))); fold w; lia. }
    destruct (Z_lt_le_dec x oi) as [Hlo | Hlo];
      [| destruct (Z_lt_le_dec x (oi + 4)) as [Hhi | Hhi]].
    2:{ rewrite load8_store32.
        destruct (Z.leb_spec oi x); [| lia]. destruct (Z.ltb_spec x (oi + 4)); [| lia].
        cbn [andb]. rewrite <- Hsize. unfold oi_size. apply load32_byte. lia. }
    all: rewrite !load8_store32_other by lia.
    all: unfold bitvector_set; cbv zeta.
    all: destruct (quot_rem_nonneg a0 ltac:(lia)) as [-> ->]; fold w.
    all: rewrite Hword.
    all: destruct (Z_lt_le_dec x w) as [Hxw | Hxw];
        [| destruct (Z_lt_le_dec x (w + 4)) as [Hxw' | Hxw']].
    all: try (rewrite load8_store32_other by lia; apply Hrest; lia).
    all: rewrite <- store32_u32.
    all: rewrite clear_then_set; [| apply load32_range | exact Hk | exact Hbit].
    all: rewrite load8_store32.
    all: destruct (Z.leb_spec w x); [| lia];
      destruct (Z.ltb_spec x (w + 4)); [| lia].
    all: cbn [andb]; apply load32_byte; lia.
Qed.

(** ** What reads and writes transfer *)

Section FileBytes.

Context {H : ospfs_h}.

Lemma blockno_zero_past_size (m : mem) (oi p : Z) :
  oi_size m oi <= p -> ospfs_inode_blockno m oi p = 0.
Proof.
  intros Hp. unfold ospfs_inode_blockno. cbv zeta.
  destruct (Z.leb_spec (oi_size m oi) p); [reflexivity | lia].
Qed.

(** Inside one block the bytes of a file lie side by side. *)
Lemma data_next (m : mem) (oi p j : Z) :
  0 < OSPFS_BLKSIZE ->
  p + j < oi_size m oi -> 0 <= j < OSPFS_BLKSIZE - p mod OSPFS_BLKSIZE ->
  ospfs_inode_data m oi (p + j) = ospfs_inode_data m oi p + j.
Proof.
  intros HB Hpj Hj. unfold ospfs_inode_data.
  destruct (same_block OSPFS_BLKSIZE p j HB Hj) as [Hd Hm].
  rewrite Hm, (blockno_same_block m oi (p + j) p Hd) by lia. lia.
Qed.

(** The copy loop of [ospfs_read] over a stretch of the file that has its
    blocks, into a buffer that is mapped. *)
Lemma read_loop_bytes (m : mem) (oi count : Z) (fuel : nat) :
  0 < OSPFS_BLKSIZE < 2 ^ 32 ->
  forall um buffer amount f_pos,
    0 <= f_pos -> f_pos + (count - amount) <= oi_size m oi ->
    0 <= amount <= count -> count < 2 ^ 32 ->
    count - amount <= Z.of_nat fuel ->
    (forall p, f_pos <= p < f_pos + (count - amount) ->
               ospfs_inode_blockno m oi p <> 0) ->
    (forall j, 0 <= j < count - amount -> um (buffer + j) <> None) ->
    exists um',
      read_loop fuel m oi um buffer count amount f_pos
      = Some (s32 count, f_pos + (count - amount), um')
      /\ (forall j, 0 <= j < count - amount ->
            um' (buffer + j) = Some (load8 m (ospfs_inode_data m oi (f_pos + j))))
      /\ (forall a, a < buffer \/ buffer + (count - amount) <= a -> um' a = um a).
Proof.
  intros Hblk.
  pose proof (load32_range m oi) as Hsz. fold (oi_size m oi) in Hsz.
  change (2 ^ 32) with 4294967296 in *.
  induction fuel as [| k IH];
    intros um buffer amount f_pos Hf1 Hf2 Ha Hc Hfuel Hmap Hum.
  - assert (amount = count) as -> by lia.
    exists um. cbn [read_loop]. rewrite Z.ltb_irrefl.
    split; [f_equal; f_equal; f_equal; lia | split].
    + intros j Hj. lia.
    + reflexivity.
  - cbn [read_loop].
    destruct (Z.ltb_spec amount count) as [Hlt | Hge].
    2:{ assert (amount = count) as -> by lia.
        exists um. split; [f_equal; f_equal; f_equal; lia | split].
        - intros j Hj. lia.
        - reflexivity. }
    rewrite (u32_small f_pos) by (change (2 ^ 32) with 4294967296; lia).
    destruct (Z.eqb_spec (ospfs_inode_blockno m oi f_pos) 0) as [Hz | _];
      [exfalso; apply (Hmap f_pos); [lia | exact Hz] |].
    pose proof (chunk_bounds m oi f_pos count amount Hblk
                  (conj (proj1 Ha) Hlt) Hc) as Hn.
    cbv zeta in Hn.
    pose proof (blk_off_eq m oi f_pos Hblk) as Hoff.
    rewrite Hoff in *.
    set (n := if u32 (count - amount) <=? _ then _ else _) in *.
    destruct Hn as [[Hn1 Hn2] Hn3].
    fold (ospfs_inode_data m oi f_pos) in *.
    set (dst := ospfs_inode_data m oi f_pos) in *.
    assert (forall j, 0 <= j < n ->
                      ospfs_inode_data m oi (f_pos + j) = dst + j) as Hstep.
    { intros j Hj. apply data_next; lia. }
    destruct (copy_to_user_ok (load_bytes m dst (Z.to_nat n)) um buffer)
      as (um1 & Hcopy & Hget & Hout).
    { intros j Hj. rewrite length_load_bytes in Hj. apply Hum. lia. }
    rewrite length_load_bytes in Hget, Hout.
    rewrite Hcopy. cbn [negb Z.eqb].
    rewrite (u32_small (amount + n)) by (change (2 ^ 32) with 4294967296; lia).
    rewrite (s64_small (f_pos + n))
      by (change (2 ^ 63) with 9223372036854775808; lia).
    destruct (IH um1 (buffer + n) (amount + n) (f_pos + n))
      as (um' & Hrun & Hbytes & Hframe); try lia.
    { intros p Hp. apply Hmap. lia. }
    { intros j Hj. rewrite Hout by lia.
      replace (buffer + n + j) with (buffer + (n + j)) by lia. apply Hum. lia. }
    exists um'. split.
    { rewrite Hrun. f_equal. f_equal. f_equal. lia. }
    split.
    + intros j Hj.
      destruct (Z_lt_le_dec j n) as [Hjn | Hjn].
      * rewrite Hframe by lia.
        replace (buffer + j) with (buffer + Z.of_nat (Z.to_nat j)) by lia.
        rewrite Hget by lia. rewrite nth_load_bytes by lia.
        rewrite Hstep by lia. do 3 f_equal. lia.
      * replace (buffer + j) with (buffer + n + (j - n)) by lia.
        rewrite Hbytes by lia. do 3 f_equal. lia.
    + intros a Ha0. rewrite Hframe by lia. apply Hout. lia.
Qed.

End FileBytes.

(** X12: what a read delivers.  A read at a position inside the file,
    over bytes that all have a block, into a buffer that is mapped,
    returns the smaller of [count] and the number of bytes up to the end
    of the file, moves the position on by as much, stores at the buffer the
    bytes of the file in order, and leaves the rest of user memory
    alone. *)
Theorem ospfs_read_file_bytes {H : ospfs_h} (m : mem) (oi : Z) (um : umem)
    (buffer count f_pos : Z) :
  let n := Z.min count (oi_size m oi - f_pos) in
  0 < OSPFS_BLKSIZE < 2 ^ 32 ->
  0 <= f_pos <= oi_size m oi ->
  0 <= count < 2 ^ 32 -> n < 2 ^ 31 ->
  (forall p, f_pos <= p < f_pos + n -> ospfs_inode_blockno m oi p <> 0) ->
  (forall j, 0 <= j < n -> um (buffer + j) <> None) ->
  exists um',
    ospfs_read m oi um buffer count f_pos = Some (n, f_pos + n, um')
    /\ (forall j, 0 <= j < n ->
          um' (buffer + j) = Some (load8 m (ospfs_inode_data m oi (f_pos + j))))
    /\ (forall a, a < buffer \/ buffer + n <= a -> um' a = um a).
Proof.
  intros n Hblk Hpos Hcount Hn Hmap Hum.
  pose proof (load32_range m oi) as Hsz. fold (oi_size m oi) in Hsz.
  change (2 ^ 31) with 2147483648 in *. change (2 ^ 32) with 4294967296 in *.
  unfold ospfs_read.
  rewrite s64_small by (change (2 ^ 63) with 9223372036854775808; lia).
  assert ((if oi_size m oi <? f_pos + count
           then u32 (oi_size m oi - f_pos) else count) = n) as ->.
  { unfold n. destruct (Z.ltb_spec (oi_size m oi) (f_pos + count)).
    - rewrite u32_small by (change (2 ^ 32) with 4294967296; lia). lia.
    - lia. }
  assert (0 <= n) as Hn0 by (unfold n; lia).
  destruct (read_loop_bytes m oi n (Z.to_nat n) Hblk um buffer 0 f_pos)
    as (um' & Hrun & Hbytes & Hframe);
    rewrite ?Z.sub_0_r; try (change (2 ^ 32) with 4294967296); try lia;
    try assumption.
  rewrite Z.sub_0_r in *.
  rewrite s32_small in Hrun by (change (2 ^ 31) with 2147483648; lia).
  exists um'. split; [exact Hrun | split; assumption].
Qed.

(** X13: a position without a block.  Where [ospfs_inode_blockno] gives
    0 for the position (a zero pointer on the way to the block), a read of
    at least one byte inside the file returns [-EIO] and a write that needs
    no growth returns [-EIO]; neither moves the position, and user memory
    and the image stay as they are. *)
Theorem no_block_is_eio {H : ospfs_h} (m : mem) (oi f_flags : Z) (um : umem)
    (buffer count f_pos : Z) :
  0 <= f_pos -> 0 < count -> f_pos + count <= oi_size m oi ->
  Z.land f_flags O_APPEND = 0 ->
  ospfs_inode_blockno m oi f_pos = 0 ->
  ospfs_read m oi um buffer count f_pos = Some (- EIO, f_pos, um)
  /\ ospfs_write m oi f_flags um buffer count f_pos = Some (- EIO, f_pos, m).
Proof.
  intros Hpos Hcount Hin Hflag Hzero.
  pose proof (load32_range m oi) as Hsz. fold (oi_size m oi) in Hsz.
  change (2 ^ 32) with 4294967296 in *.
  assert (u32 f_pos = f_pos) as Hu
      by (apply u32_small; change (2 ^ 32) with 4294967296; lia).
  split.
  - unfold ospfs_read.
    rewrite s64_small by (change (2 ^ 63) with 9223372036854775808; lia).
    destruct (Z.ltb_spec (oi_size m oi) (f_pos + count)); [lia |].
    destruct (Z.to_nat count) as [| k] eqn:Hfuel; [lia |].
    cbn [read_loop].
    destruct (Z.ltb_spec 0 count); [| lia].
    rewrite Hu, Hzero. reflexivity.
  - unfold ospfs_write, ospfs_write_at, make_room. rewrite Hflag.
    cbn [Z.eqb negb]. cbv zeta.
    rewrite (u32_small (oi_size m oi - f_pos))
      by (change (2 ^ 32) with 4294967296; lia).
    destruct (Z.ltb_spec (oi_size m oi - f_pos) count); [lia |].
    destruct (Z.to_nat count) as [| k] eqn:Hfuel; [lia |].
    cbn [write_loop].
    destruct (Z.ltb_spec 0 count); [| lia].
    rewrite Hu, Hzero. reflexivity.
Qed.

(** X14: reading at the end of the file returns 0 and touches
    nothing. *)
Theorem ospfs_read_at_eof {H : ospfs_h} (m : mem) (oi : Z) (um : umem)
    (buffer count : Z) :
  0 <= count < 2 ^ 32 ->
  ospfs_read m oi um buffer count (oi_size m oi) = Some (0, oi_size m oi, um).
Proof.
  intros Hcount.
  pose proof (load32_range m oi) as Hsz. fold (oi_size m oi) in Hsz.
  change (2 ^ 32) with 4294967296 in *.
  unfold ospfs_read.
  rewrite s64_small by (change (2 ^ 63) with 9223372036854775808; lia).
  destruct (Z.ltb_spec (oi_size m oi) (oi_size m oi + count)).
  - rewrite Z.sub_diag. change (u32 0) with 0. reflexivity.
  - assert (count = 0) as -> by lia. reflexivity.
Qed.

(** X15: a write that starts past the end of the file.  Without
    [O_APPEND], when the position lies beyond the size, the distance
    between them wraps around in [uint32_t] and is taken for free space:
    the file is not made larger, the position has no block, and the call
    returns [-EIO] with the image as it was. *)
Theorem ospfs_write_past_eof {H : ospfs_h} (m : mem) (oi f_flags : Z) (um : umem)
    (buffer count f_pos : Z) :
  Z.land f_flags O_APPEND = 0 ->
  oi_size m oi < f_pos < 2 ^ 32 ->
  0 < count <= 2 ^ 32 - (f_pos - oi_size m oi) ->
  ospfs_write m oi f_flags um buffer count f_pos = Some (- EIO, f_pos, m).
Proof.
  intros Hflag Hpos Hcount.
  pose proof (load32_range m oi) as Hsz. fold (oi_size m oi) in Hsz.
  change (2 ^ 32) with 4294967296 in *.
  unfold ospfs_write, ospfs_write_at, make_room. rewrite Hflag.
  cbn [Z.eqb negb]. cbv zeta.
  assert (u32 (oi_size m oi - f_pos) = 4294967296 - (f_pos - oi_size m oi)) as ->.
  { unfold u32. change (2 ^ 32) with 4294967296.
    symmetry. apply Z.mod_unique with (q := -1); lia. }
  destruct (Z.ltb_spec (4294967296 - (f_pos - oi_size m oi)) count); [lia |].
  destruct (Z.to_nat count) as [| k] eqn:Hfuel; [lia |].
  cbn [write_loop].
  destruct (Z.ltb_spec 0 count); [| lia].
  rewrite (u32_small f_pos) by (change (2 ^ 32) with 4294967296; lia).
  rewrite blockno_zero_past_size by lia. reflexivity.
Qed.

(** ** Directory entries *)

Section Directories.

Context {H : ospfs_h}.

Lemma od_ino_live (m : mem) (od : Z) :
  (0 <? od_ino m od) = negb (od_ino m od =? 0).
Proof.
  pose proof (load32_range m od) as Hr. fold (od_ino m od) in Hr.
  destruct (Z.ltb_spec 0 (od_ino m od)); destruct (Z.eqb_spec (od_ino m od) 0);
    try reflexivity; lia.
Qed.

(** The loops of [ospfs_dir_lookup] and [find_direntry] are the same
    search. *)
Lemma lookup_scan_find (m : mem) (dir_oi : Z) (name : list Z) (namelen : Z)
    (todo : nat) :
  forall off,
    lookup_scan m dir_oi name namelen todo off
    = find_direntry_from m dir_oi name namelen todo off.
Proof.
  induction todo as [| k IH]; intros off; [reflexivity |].
  cbn [lookup_scan find_direntry_from].
  destruct (off <? oi_size m dir_oi); [| reflexivity].
  cbv zeta. rewrite od_ino_live, IH. reflexivity.
Qed.

Lemma find_direntry_from_spec (m : mem) (dir_oi : Z) (name : list Z)
    (namelen : Z) (todo : nat) :
  0 < OSPFS_DIRENTRY_SIZE ->
  forall k, 0 <= k ->
    match find_direntry_from m dir_oi name namelen todo
            (k * OSPFS_DIRENTRY_SIZE) with
    | Some od =>
        exists i, k <= i < k + Z.of_nat todo
          /\ i * OSPFS_DIRENTRY_SIZE < oi_size m dir_oi
          /\ od = direntry_at m dir_oi i
          /\ direntry_named m od name namelen = true
          /\ forall j, k <= j < i ->
               direntry_named m (direntry_at m dir_oi j) name namelen = false
    | None =>
        forall j, k <= j < k + Z.of_nat todo ->
          j * OSPFS_DIRENTRY_SIZE < oi_size m dir_oi ->
          direntry_named m (direntry_at m dir_oi j) name namelen = false
    end.
Proof.
  intros Hdes.
  induction todo as [| n IH]; intros k Hk; cbn [find_direntry_from].
  - intros j Hj. lia.
  - destruct (Z.ltb_spec (k * OSPFS_DIRENTRY_SIZE) (oi_size m dir_oi)) as [Hin | Hout].
    + cbv zeta. fold (direntry_at m dir_oi k).
      fold (direntry_named m (direntry_at m dir_oi k) name namelen).
      destruct (direntry_named m (direntry_at m dir_oi k) name namelen) eqn:Hnamed.
      * exists k. split; [lia |]. split; [exact Hin |].
        split; [reflexivity |]. split; [exact Hnamed |]. intros j Hj. lia.
      * replace (k * OSPFS_DIRENTRY_SIZE + OSPFS_DIRENTRY_SIZE)
          with ((k + 1) * OSPFS_DIRENTRY_SIZE) by lia.
        assert (0 <= k + 1) as Hk1 by lia.
        specialize (IH (k + 1) Hk1).
        destruct (find_direntry_from m dir_oi name namelen n
                    ((k + 1) * OSPFS_DIRENTRY_SIZE)) as [od |].
        -- destruct IH as (i & Hi & Hlt & Hod & Hnm & Hbefore).
           exists i. split; [lia |]. split; [exact Hlt |].
           split; [exact Hod |]. split; [exact Hnm |].
           intros j Hj. destruct (Z.eq_dec j k) as [-> | Hne]; [exact Hnamed |].
           apply Hbefore. lia.
        -- intros j Hj Hlt. destruct (Z.eq_dec j k) as [-> | Hne]; [exact Hnamed |].
           apply IH; lia.
    + intros j Hj Hlt. nia.
Qed.

(** The loop of [ospfs_unlink] when no entry carries the name and the
    directory is a whole number of entries long: it ends at the size. *)
Lemma unlink_scan_missing (m : mem) (dir_oi : Z) (name : list Z) (namelen : Z)
    (entries : Z) (fuel : nat) :
  0 < OSPFS_DIRENTRY_SIZE ->
  oi_size m dir_oi = entries * OSPFS_DIRENTRY_SIZE ->
  forall k od,
    0 <= k <= entries -> entries <= k + Z.of_nat fuel ->
    (forall j, k <= j -> j * OSPFS_DIRENTRY_SIZE < oi_size m dir_oi ->
               direntry_named m (direntry_at m dir_oi j) name namelen = false) ->
    exists od',
      unlink_scan m dir_oi name namelen fuel (k * OSPFS_DIRENTRY_SIZE) od
      = Some (od', oi_size m dir_oi).
Proof.
  intros Hdes Hsize.
  induction fuel as [| n IH]; intros k od Hk Hfuel Hnone; cbn [unlink_scan].
  - destruct (Z.ltb_spec (k * OSPFS_DIRENTRY_SIZE) (oi_size m dir_oi)); [nia |].
    exists od. do 2 f_equal. nia.
  - destruct (Z.ltb_spec (k * OSPFS_DIRENTRY_SIZE) (oi_size m dir_oi)) as [Hin | Hout].
    + cbv zeta. rewrite od_ino_live.
      fold (direntry_at m dir_oi k).
      fold (direntry_named m (direntry_at m dir_oi k) name namelen).
      rewrite (Hnone k) by lia.
      replace (k * OSPFS_DIRENTRY_SIZE + OSPFS_DIRENTRY_SIZE)
        with ((k + 1) * OSPFS_DIRENTRY_SIZE) by lia.
      apply IH; [nia | lia |].
      intros j Hj. apply Hnone. lia.
    + exists od. do 2 f_equal. nia.
Qed.

(** The loop of [ospfs_unlink] stops where [find_direntry] finds the
    name. *)
Lemma unlink_scan_found (m : mem) (dir_oi : Z) (name : list Z) (namelen : Z)
    (todo : nat) :
  forall off od0 od,
    find_direntry_from m dir_oi name namelen todo off = Some od ->
    exists off',
      unlink_scan m dir_oi name namelen todo off od0 = Some (Some od, off')
      /\ off' < oi_size m dir_oi.
Proof.
  induction todo as [| n IH]; intros off od0 od Hfind;
    cbn [find_direntry_from] in Hfind; [discriminate |].
  cbn [unlink_scan].
  destruct (Z.ltb_spec off (oi_size m dir_oi)) as [Hin | Hout]; [| discriminate].
  cbv zeta in *. rewrite od_ino_live.
  destruct (negb (od_ino m (ospfs_inode_data m dir_oi off) =? 0)
            && (strlen m (od_name (ospfs_inode_data m dir_oi off)) =? namelen)
            && memcmp0 m (od_name (ospfs_inode_data m dir_oi off))
                 (str_bytes name namelen)).
  - inversion Hfind; subst. exists off. split; [reflexivity | exact Hin].
  - apply IH. exact Hfind.
Qed.

Lemma find_direntry_named (m : mem) (dir_oi : Z) (name : list Z) :
  0 < OSPFS_DIRENTRY_SIZE ->
  match find_direntry m dir_oi name (Z.of_nat (length name)) with
  | Some od =>
      exists i, 0 <= i
        /\ i * OSPFS_DIRENTRY_SIZE < oi_size m dir_oi
        /\ od = direntry_at m dir_oi i
        /\ direntry_named m od name (Z.of_nat (length name)) = true
        /\ forall j, 0 <= j < i ->
             direntry_named m (direntry_at m dir_oi j) name
               (Z.of_nat (length name)) = false
  | None =>
      forall j, 0 <= j -> j * OSPFS_DIRENTRY_SIZE < oi_size m dir_oi ->
        direntry_named m (direntry_at m dir_oi j) name (Z.of_nat (length name))
        = false
  end.
Proof.
  intros Hdes. unfold find_direntry.
  destruct (Z.ltb_spec (Z.of_nat (length name)) 0); [lia |].
  pose proof (load32_range m dir_oi) as Hsz. fold (oi_size m dir_oi) in Hsz.
  pose proof (find_direntry_from_spec m dir_oi name (Z.of_nat (length name))
                (Z.to_nat (oi_size m dir_oi / OSPFS_DIRENTRY_SIZE + 1))
                Hdes 0 (Z.le_refl 0)) as Hspec.
  change (0 * OSPFS_DIRENTRY_SIZE) with 0 in Hspec.
  destruct (find_direntry_from m dir_oi name _ _ 0) as [od |].
  - destruct Hspec as (i & Hi & Hlt & Hod & Hnm & Hbefore).
    exists i. split; [lia |]. split; [exact Hlt |].
    split; [exact Hod |]. split; [exact Hnm |]. intros j Hj. apply Hbefore. lia.
  - intros j Hj Hlt. apply Hspec; [| exact Hlt].
    assert (j < oi_size m dir_oi / OSPFS_DIRENTRY_SIZE + 1).
    { assert (j <= oi_size m dir_oi / OSPFS_DIRENTRY_SIZE); [| lia].
      apply Z.div_le_lower_bound; lia. }
    pose proof (Z.div_pos (oi_size m dir_oi) OSPFS_DIRENTRY_SIZE (proj1 Hsz) Hdes).
    lia.
Qed.

End Directories.

Lemma strlen_scan_le (m : mem) (todo : nat) :
  forall p k, 0 <= k -> load8 m (p + k) = 0 -> strlen_scan m p todo <= k.
Proof.
  induction todo as [| n IH]; intros p k Hk Hz; cbn [strlen_scan]; [lia |].
  destruct (Z.eqb_spec (load8 m p) 0) as [_ | Hnz]; [lia |].
  assert (k <> 0) as Hk0 by (intros ->; rewrite Z.add_0_r in Hz; contradiction).
  assert (strlen_scan m (p + 1) n <= k - 1); [| lia].
  apply IH; [lia |]. rewrite <- Hz. f_equal. lia.
Qed.

(** A [namelen] beyond the length of [name] fits no entry: an entry name of
    that length has a character where [name] has its terminator. *)
Lemma direntry_named_long {H : ospfs_h} (m : mem) (od : Z) (name : list Z)
    (namelen : Z) :
  Z.of_nat (length name) < namelen ->
  direntry_named m od name namelen = false.
Proof.
  intros Hlong. unfold direntry_named.
  destruct (Z.eqb_spec (strlen m (od_name od)) namelen) as [Hlen | _];
    [| now rewrite andb_false_r].
  destruct (memcmp0 m (od_name od) (str_bytes name namelen)) eqn:Hcmp;
    [| now rewrite andb_false_r].
  exfalso. apply memcmp0_holds in Hcmp.
  unfold str_bytes in Hcmp.
  rewrite firstn_all2 in Hcmp by (rewrite length_app; simpl; lia).
  assert (load8 m (od_name od + Z.of_nat (length name)) = 0) as Hz.
  { rewrite (Hcmp (length name)) by (rewrite length_app; simpl; lia).
    rewrite app_nth2 by lia. now rewrite Nat.sub_diag. }
  pose proof (strlen_scan_le m (Z.to_nat (ospfs_length - od_name od))
                (od_name od) (Z.of_nat (length name)) (Nat2Z.is_nonneg _) Hz) as Hle.
  fold (strlen m (od_name od)) in Hle. lia.
Qed.

(** X16: [find_direntry] returns the first entry of the directory, in
    the order of the offsets, that is in use and whose name has [namelen]
    characters, the first [namelen] bytes of the string [name]; it returns
    the null pointer exactly when no entry is such.  A negative [namelen]
    stands for the length of [name], and for a [namelen] beyond that length
    the comparison meets the terminator of [name], so the null pointer is
    returned. *)
Theorem find_direntry_first_match {H : ospfs_h} (m : mem) (dir_oi : Z)
    (name : list Z) (namelen : Z) :
  let len := if namelen <? 0 then Z.of_nat (length name) else namelen in
  0 < OSPFS_DIRENTRY_SIZE ->
  match find_direntry m dir_oi name namelen with
  | Some od =>
      exists i, 0 <= i
        /\ i * OSPFS_DIRENTRY_SIZE < oi_size m dir_oi
        /\ od = direntry_at m dir_oi i
        /\ direntry_named m od name len = true
        /\ len <= Z.of_nat (length name)
        /\ od_ino m od <> 0
        /\ strlen m (od_name od) = len
        /\ holds m (od_name od) (firstn (Z.to_nat len) name)
        /\ forall j, 0 <= j < i ->
             direntry_named m (direntry_at m dir_oi j) name len = false
  | None =>
      forall j, 0 <= j -> j * OSPFS_DIRENTRY_SIZE < oi_size m dir_oi ->
        direntry_named m (direntry_at m dir_oi j) name len = false
  end
  /\ (Z.of_nat (length name) < len ->
      find_direntry m dir_oi name namelen = None).
Proof.
  intros len Hdes.
  assert (match find_direntry m dir_oi name namelen with
          | Some od =>
              exists i, 0 <= i
                /\ i * OSPFS_DIRENTRY_SIZE < oi_size m dir_oi
                /\ od = direntry_at m dir_oi i
                /\ direntry_named m od name len = true
                /\ forall j, 0 <= j < i ->
                     direntry_named m (direntry_at m dir_oi j) name len = false
          | None =>
              forall j, 0 <= j -> j * OSPFS_DIRENTRY_SIZE < oi_size m dir_oi ->
                direntry_named m (direntry_at m dir_oi j) name len = false
          end) as Hscan.
  { unfold find_direntry. fold len.
    pose proof (load32_range m dir_oi) as Hsz. fold (oi_size m dir_oi) in Hsz.
    pose proof (find_direntry_from_spec m dir_oi name len
                  (Z.to_nat (oi_size m dir_oi / OSPFS_DIRENTRY_SIZE + 1))
                  Hdes 0 (Z.le_refl 0)) as Hspec.
    change (0 * OSPFS_DIRENTRY_SIZE) with 0 in Hspec.
    destruct (find_direntry_from m dir_oi name len _ 0) as [od |].
    - destruct Hspec as (i & Hi & Hlt & Hod & Hnm & Hbefore).
      exists i. split; [lia |]. split; [exact Hlt |].
      split; [exact Hod |]. split; [exact Hnm |]. intros j Hj. apply Hbefore. lia.
    - intros j Hj Hlt. apply Hspec; [| exact Hlt].
      assert (j <= oi_size m dir_oi / OSPFS_DIRENTRY_SIZE)
        by (apply Z.div_le_lower_bound; lia).
      pose proof (Z.div_pos (oi_size m dir_oi) OSPFS_DIRENTRY_SIZE (proj1 Hsz) Hdes).
      lia. }
  destruct (find_direntry m dir_oi name namelen) as [od |].
  - destruct Hscan as (i & Hi & Hlt & Hod & Hnm & Hbefore).
    assert (len <= Z.of_nat (length name)) as Hshort.
    { destruct (Z_le_gt_dec len (Z.of_nat (length name))) as [Hle | Hgt];
        [exact Hle |].
      rewrite direntry_named_long in Hnm by lia. discriminate Hnm. }
    split; [| intros Hlong; lia].
    exists i. do 4 (split; [assumption |]). split; [exact Hshort |].
    unfold direntry_named in Hnm.
    apply andb_prop in Hnm. destruct Hnm as [Hnm Hcmp].
    apply andb_prop in Hnm. destruct Hnm as [Hino Hlen].
    split; [destruct (Z.eqb_spec (od_ino m od) 0); [discriminate Hino | assumption] |].
    split; [now apply Z.eqb_eq |].
    split; [| exact Hbefore].
    apply memcmp0_holds in Hcmp. unfold str_bytes in Hcmp.
    rewrite firstn_app in Hcmp.
    replace (Z.to_nat len - length name)%nat with 0%nat in Hcmp by lia.
    cbn [firstn] in Hcmp. now rewrite app_nil_r in Hcmp.
  - split; [exact Hscan | reflexivity].
Qed.

Section Names.

Context {H : ospfs_h}.

(** What [ospfs_dir_lookup] does, in terms of [find_direntry]. *)
Lemma ospfs_dir_lookup_find (m : mem) (dir_ino dir_oi : Z) (name : list Z) :
  Z.of_nat (length name) <= OSPFS_MAXNAMELEN ->
  ospfs_inode m dir_ino = Some dir_oi ->
  ospfs_dir_lookup m dir_ino name
  = match find_direntry m dir_oi name (Z.of_nat (length name)) with
    | None => Negative
    | Some od =>
        match ospfs_mk_linux_inode m (od_ino m od) with
        | Made inode => Positive inode
        | NoInode => LookupError (- EINVAL)
        | Panic => LookupPanic
        end
    end.
Proof.
  intros Hlen Hdir. unfold ospfs_dir_lookup, find_direntry. cbv zeta.
  destruct (Z.ltb_spec OSPFS_MAXNAMELEN (Z.of_nat (length name))); [lia |].
  destruct (Z.ltb_spec (Z.of_nat (length name)) 0); [lia |].
  rewrite Hdir, lookup_scan_find. reflexivity.
Qed.

(** A lookup that gets as far as the directory. *)
Lemma ospfs_dir_lookup_reaches (m : mem) (dir_ino : Z) (name : list Z) :
  ospfs_dir_lookup m dir_ino name <> LookupError (- ENAMETOOLONG) ->
  ospfs_dir_lookup m dir_ino name <> LookupWild ->
  Z.of_nat (length name) <= OSPFS_MAXNAMELEN
  /\ exists dir_oi, ospfs_inode m dir_ino = Some dir_oi.
Proof.
  unfold ospfs_dir_lookup. cbv zeta. intros Hlong Hwild.
  destruct (Z.ltb_spec OSPFS_MAXNAMELEN (Z.of_nat (length name)));
    [congruence |].
  split; [lia |].
  destruct (ospfs_inode m dir_ino) as [dir_oi |]; [| congruence].
  exists dir_oi. reflexivity.
Qed.

End Names.

(** X17: a name that is there cannot be made again.  When
    [ospfs_dir_lookup] finds the name in the directory, [ospfs_create],
    [ospfs_link] and [ospfs_symlink] (with a target of allowed length) for
    that name all return [-EEXIST] and leave the image as it is. *)
Theorem existing_name_refused {H : ospfs_h} (m : mem) (dir_ino src_ino mode : Z)
    (name symname : list Z) (inode : linux_inode) :
  ospfs_dir_lookup m dir_ino name = Positive inode ->
  Z.of_nat (length symname) <= OSPFS_MAXSYMLINKLEN ->
  ospfs_create m dir_ino name mode = Returns (- EEXIST) m
  /\ ospfs_link m src_ino dir_ino name = Returns (- EEXIST) m
  /\ ospfs_symlink m dir_ino name symname = Returns (- EEXIST) m.
Proof.
  intros Hlookup Hsym.
  destruct (ospfs_dir_lookup_reaches m dir_ino name) as (Hlen & dir_oi & Hdir);
    [rewrite Hlookup; discriminate | rewrite Hlookup; discriminate |].
  rewrite (ospfs_dir_lookup_find m dir_ino dir_oi name Hlen Hdir) in Hlookup.
  destruct (find_direntry m dir_oi name (Z.of_nat (length name))) as [od |] eqn:Hfind;
    [| discriminate].
  unfold ospfs_create, ospfs_link, ospfs_symlink. cbv zeta.
  rewrite Hdir, Hfind.
  destruct (Z.ltb_spec OSPFS_MAXNAMELEN (Z.of_nat (length name))); [lia |].
  destruct (Z.ltb_spec OSPFS_MAXSYMLINKLEN (Z.of_nat (length symname))); [lia |].
  cbn [orb]. repeat split.
Qed.

(** X18: removing a name that is not there.  In a directory that is a
    whole number of entries long, [ospfs_unlink] for a name that
    [ospfs_dir_lookup] does not find returns [-ENOENT] and leaves the image
    as it is. *)
Theorem ospfs_unlink_missing {H : ospfs_h} (m : mem) (ino dir_ino dir_oi : Z)
    (name : list Z) :
  0 < OSPFS_DIRENTRY_SIZE ->
  ospfs_inode m dir_ino = Some dir_oi ->
  oi_size m dir_oi mod OSPFS_DIRENTRY_SIZE = 0 ->
  ospfs_dir_lookup m dir_ino name = Negative ->
  ospfs_unlink m ino dir_ino name = Some (Returns (- ENOENT) m).
Proof.
  intros Hdes Hdir Hwhole Hlookup.
  destruct (ospfs_dir_lookup_reaches m dir_ino name) as (Hlen & _);
    [rewrite Hlookup; discriminate | rewrite Hlookup; discriminate |].
  rewrite (ospfs_dir_lookup_find m dir_ino dir_oi name Hlen Hdir) in Hlookup.
  pose proof (find_direntry_named m dir_oi name Hdes) as Hnone.
  destruct (find_direntry m dir_oi name (Z.of_nat (length name))) as [od |].
  { destruct (ospfs_mk_linux_inode m (od_ino m od)); discriminate. }
  pose proof (load32_range m dir_oi) as Hsz. fold (oi_size m dir_oi) in Hsz.
  assert (OSPFS_DIRENTRY_SIZE <> 0) as Hnz by lia.
  pose proof (Z.div_mod (oi_size m dir_oi) OSPFS_DIRENTRY_SIZE Hnz) as Hdiv.
  pose proof (Z.div_pos (oi_size m dir_oi) OSPFS_DIRENTRY_SIZE (proj1 Hsz) Hdes)
    as Hq.
  set (entries := oi_size m dir_oi / OSPFS_DIRENTRY_SIZE) in *.
  assert (oi_size m dir_oi = entries * OSPFS_DIRENTRY_SIZE) as Hsize by lia.
  assert (0 <= 0 <= entries) as Hk by lia.
  assert (entries <= 0 + Z.of_nat (Z.to_nat (entries + 1))) as Hfuel by lia.
  destruct (unlink_scan_missing m dir_oi name (Z.of_nat (length name))
              entries (Z.to_nat (entries + 1)) Hdes Hsize 0 None Hk Hfuel)
    as (od' & Hscan).
  { intros j Hj. apply Hnone. exact Hj. }
  subst entries. unfold ospfs_unlink. cbv zeta. rewrite Hdir.
  change (0 * OSPFS_DIRENTRY_SIZE) with 0 in Hscan. rewrite Hscan.
  rewrite Z.eqb_refl. reflexivity.
Qed.

(** The image [ospfs_unlink] leaves when the file keeps a link or is a
    symbolic link. *)
Lemma ospfs_unlink_entry_value {H : ospfs_h} (m : mem)
    (ino dir_ino dir_oi oi od : Z) (name : list Z) :
  ospfs_inode m dir_ino = Some dir_oi ->
  ospfs_inode m ino = Some oi ->
  find_direntry m dir_oi name (Z.of_nat (length name)) = Some od ->
  od + 4 <= oi + 4 \/ oi + 12 <= od ->
  oi_nlink m oi <> 1 \/ oi_ftype m oi = OSPFS_FTYPE_SYMLINK ->
  ospfs_unlink m ino dir_ino name
  = Some (Returns 0 (set_oi_nlink (store32 m od 0) oi (u32 (oi_nlink m oi - 1)))).
Proof.
  intros Hdir Hoi Hfind Hapart Hkeep.
  unfold find_direntry in Hfind.
  destruct (Z.ltb_spec (Z.of_nat (length name)) 0); [lia |].
  destruct (unlink_scan_found m dir_oi name (Z.of_nat (length name)) _ 0 None od
              Hfind) as (off' & Hscan & Hoff).
  unfold ospfs_unlink. cbv zeta. rewrite Hdir, Hoi, Hscan.
  destruct (Z.eqb_spec off' (oi_size m dir_oi)); [lia |].
  set (m1 := store32 m od 0).
  assert (oi_nlink m1 oi = oi_nlink m oi) as Hn1
      by (unfold oi_nlink, m1; apply load32_store32_other; lia).
  assert (oi_ftype m1 oi = oi_ftype m oi) as Hf1
      by (unfold oi_ftype, m1; apply load32_store32_other; lia).
  rewrite Hn1.
  set (m2 := set_oi_nlink m1 oi (u32 (oi_nlink m oi - 1))).
  assert (oi_nlink m2 oi = u32 (oi_nlink m oi - 1)) as Hn2.
  { unfold oi_nlink at 1. unfold m2, set_oi_nlink. rewrite load32_store32.
    apply u32_small, u32_range. }
  assert (oi_ftype m2 oi = oi_ftype m oi) as Hf2.
  { rewrite <- Hf1. unfold oi_ftype, m2, set_oi_nlink.
    apply load32_store32_other. lia. }
  pose proof (load32_range m (oi + 8)) as Hnl. fold (oi_nlink m oi) in Hnl.
  change (2 ^ 32) with 4294967296 in Hnl.
  assert ((oi_nlink m2 oi =? 0) && negb (oi_ftype m2 oi =? OSPFS_FTYPE_SYMLINK)
          = false) as ->; [| reflexivity].
  rewrite Hn2, Hf2. destruct Hkeep as [Hne | Hsym].
  - apply andb_false_iff. left. apply Z.eqb_neq.
    unfold u32. change (2 ^ 32) with 4294967296.
    destruct (Z.eq_dec (oi_nlink m oi) 0) as [-> | Hz].
    + discriminate.
    + rewrite Z.mod_small by lia. lia.
  - rewrite Hsym, Z.eqb_refl. apply andb_false_r.
Qed.

(** X19: removing a name whose file keeps a link, or names a symbolic
    link.  [ospfs_unlink] returns 0, the entry that [find_direntry] finds
    for the name is blank afterwards, the link count of the file is one
    less, and no other byte of the image changes. *)
Theorem ospfs_unlink_entry {H : ospfs_h} (m : mem) (ino dir_ino dir_oi oi od : Z)
    (name : list Z) :
  ospfs_inode m dir_ino = Some dir_oi ->
  ospfs_inode m ino = Some oi ->
  find_direntry m dir_oi name (Z.of_nat (length name)) = Some od ->
  od + 4 <= oi + 4 \/ oi + 12 <= od ->
  oi_nlink m oi <> 1 \/ oi_ftype m oi = OSPFS_FTYPE_SYMLINK ->
  exists m',
    ospfs_unlink m ino dir_ino name = Some (Returns 0 m')
    /\ od_ino m' od = 0
    /\ oi_nlink m' oi = u32 (oi_nlink m oi - 1)
    /\ forall x, x < od \/ od + 4 <= x -> x < oi + 8 \/ oi + 12 <= x ->
         load8 m' x = load8 m x.
Proof.
  intros Hdir Hoi Hfind Hapart Hkeep.
  rewrite (ospfs_unlink_entry_value m ino dir_ino dir_oi oi od name
             Hdir Hoi Hfind Hapart Hkeep).
  eexists. split; [reflexivity |].
  unfold set_oi_nlink. split; [| split].
  - unfold od_ino. rewrite load32_store32_other by lia. apply load32_store32.
  - unfold oi_nlink at 1. rewrite load32_store32. apply u32_small, u32_range.
  - intros x Hx1 Hx2. rewrite !load8_store32_other by lia. reflexivity.
Qed.

(** ** Listing a directory *)

Section Listing.

Context {H : ospfs_h}.

Lemma direntry_count_spec (m : mem) (dir_oi : Z) :
  0 < OSPFS_DIRENTRY_SIZE ->
  0 <= direntry_count m dir_oi
  /\ (direntry_count m dir_oi - 1) * OSPFS_DIRENTRY_SIZE < oi_size m dir_oi
     <= direntry_count m dir_oi * OSPFS_DIRENTRY_SIZE.
Proof.
  intros Hdes. unfold direntry_count.
  pose proof (load32_range m dir_oi) as Hsz. fold (oi_size m dir_oi) in Hsz.
  assert (OSPFS_DIRENTRY_SIZE <> 0) as Hnz by lia.
  pose proof (Z.div_mod (oi_size m dir_oi + OSPFS_DIRENTRY_SIZE - 1)
                OSPFS_DIRENTRY_SIZE Hnz).
  pose proof (Z.mod_pos_bound (oi_size m dir_oi + OSPFS_DIRENTRY_SIZE - 1)
                OSPFS_DIRENTRY_SIZE Hdes).
  split; [apply Z.div_pos; lia | lia].
Qed.

Lemma readdir_loop_listing (m : mem) (dir_oi pos0 : Z) :
  0 < OSPFS_DIRENTRY_SIZE ->
  oi_size m dir_oi + OSPFS_DIRENTRY_SIZE + 2 < 2 ^ 31 ->
  (forall k, 0 <= k -> k * OSPFS_DIRENTRY_SIZE < oi_size m dir_oi ->
     od_ino m (direntry_at m dir_oi k) <> 0 ->
     d_type_of m (od_ino m (direntry_at m dir_oi k)) <> None) ->
  forall (todo k fuel : nat) (s : list dirent),
    Z.of_nat k + Z.of_nat todo = direntry_count m dir_oi ->
    (todo < fuel)%nat ->
    readdir_loop (list dirent) take_all fuel m (Some dir_oi) pos0 s
      (2 + Z.of_nat k * OSPFS_DIRENTRY_SIZE)
    = Some (Listed 1 (2 + direntry_count m dir_oi * OSPFS_DIRENTRY_SIZE)
              (s ++ flat_map (listed_entry m dir_oi) (seq k todo))).
Proof.
  intros Hdes Hmax Hvalid.
  destruct (direntry_count_spec m dir_oi Hdes) as (Hc0 & Hc1 & Hc2).
  pose proof (load32_range m dir_oi) as Hsz. fold (oi_size m dir_oi) in Hsz.
  change (2 ^ 31) with 2147483648 in *. change (2 ^ 32) with 4294967296 in *.
  induction todo as [| n IH]; intros k fuel s Hk Hfuel;
    (destruct fuel as [| fuel]; [lia |]); cbn [readdir_loop].
  - destruct (Z.leb_spec 2 (2 + Z.of_nat k * OSPFS_DIRENTRY_SIZE)); [| nia].
    cbv zeta.
    replace (2 + Z.of_nat k * OSPFS_DIRENTRY_SIZE - 2)
      with (Z.of_nat k * OSPFS_DIRENTRY_SIZE) by lia.
    rewrite s32_small by (change (2 ^ 31) with 2147483648; nia).
    rewrite u32_small by (change (2 ^ 32) with 4294967296; nia).
    destruct (Z.leb_spec (oi_size m dir_oi) (Z.of_nat k * OSPFS_DIRENTRY_SIZE));
      [| nia].
    cbn [seq flat_map]. rewrite app_nil_r. do 3 f_equal. nia.
  - destruct (Z.leb_spec 2 (2 + Z.of_nat k * OSPFS_DIRENTRY_SIZE)); [| nia].
    cbv zeta.
    replace (2 + Z.of_nat k * OSPFS_DIRENTRY_SIZE - 2)
      with (Z.of_nat k * OSPFS_DIRENTRY_SIZE) by lia.
    rewrite s32_small by (change (2 ^ 31) with 2147483648; nia).
    rewrite u32_small by (change (2 ^ 32) with 4294967296; nia).
    assert (Z.of_nat k * OSPFS_DIRENTRY_SIZE < oi_size m dir_oi) as Hin by nia.
    destruct (Z.leb_spec (oi_size m dir_oi) (Z.of_nat k * OSPFS_DIRENTRY_SIZE));
      [lia |].
    rewrite (u32_small (2 + Z.of_nat k * OSPFS_DIRENTRY_SIZE + OSPFS_DIRENTRY_SIZE))
      by (change (2 ^ 32) with 4294967296; nia).
    replace (2 + Z.of_nat k * OSPFS_DIRENTRY_SIZE + OSPFS_DIRENTRY_SIZE)
      with (2 + Z.of_nat (S k) * OSPFS_DIRENTRY_SIZE) by lia.
    cbn [seq flat_map]. unfold listed_entry at 1. cbv zeta.
    fold (direntry_at m dir_oi (Z.of_nat k)).
    set (od := direntry_at m dir_oi (Z.of_nat k)) in *.
    rewrite od_ino_live.
    destruct (Z.eqb_spec (od_ino m od) 0) as [Hblank | Hlive]; cbn [negb].
    + cbn [app]. apply IH; lia.
    + specialize (Hvalid (Z.of_nat k) ltac:(lia) Hin Hlive).
      fold od in Hvalid. unfold d_type_of in *.
      destruct (ospfs_inode m (od_ino m od)) as [entry_oi |]; [| congruence].
      destruct (oi_ftype m entry_oi =? OSPFS_FTYPE_REG);
        [| destruct (oi_ftype m entry_oi =? OSPFS_FTYPE_DIR);
           [| destruct (oi_ftype m entry_oi =? OSPFS_FTYPE_SYMLINK);
              [| congruence]]];
        unfold take_all; cbn [Z.ltb Z.compare];
        rewrite IH by lia; rewrite <- app_assoc; reflexivity.
Qed.

Lemma blank_scan_spec (m : mem) (dir_oi : Z) (todo : nat) :
  0 < OSPFS_DIRENTRY_SIZE ->
  forall k, 0 <= k ->
    match blank_scan m dir_oi todo (k * OSPFS_DIRENTRY_SIZE) with
    | inl od =>
        exists i, k <= i < k + Z.of_nat todo
          /\ i * OSPFS_DIRENTRY_SIZE < oi_size m dir_oi
          /\ od = direntry_at m dir_oi i
          /\ od_ino m od = 0
          /\ forall j, k <= j < i -> od_ino m (direntry_at m dir_oi j) <> 0
    | inr off =>
        forall j, k <= j < k + Z.of_nat todo ->
          j * OSPFS_DIRENTRY_SIZE < oi_size m dir_oi ->
          od_ino m (direntry_at m dir_oi j) <> 0
    end.
Proof.
  intros Hdes.
  induction todo as [| n IH]; intros k Hk; cbn [blank_scan].
  - intros j Hj. lia.
  - destruct (Z.ltb_spec (k * OSPFS_DIRENTRY_SIZE) (oi_size m dir_oi)) as [Hin | Hout].
    + cbv zeta. fold (direntry_at m dir_oi k).
      destruct (Z.eqb_spec (od_ino m (direntry_at m dir_oi k)) 0) as [Hz | Hnz].
      * exists k. split; [lia |]. split; [exact Hin |].
        split; [reflexivity |]. split; [exact Hz |]. intros j Hj. lia.
      * replace (k * OSPFS_DIRENTRY_SIZE + OSPFS_DIRENTRY_SIZE)
          with ((k + 1) * OSPFS_DIRENTRY_SIZE) by lia.
        assert (0 <= k + 1) as Hk1 by lia.
        specialize (IH (k + 1) Hk1).
        destruct (blank_scan m dir_oi n ((k + 1) * OSPFS_DIRENTRY_SIZE)) as [od | off].
        -- destruct IH as (i & Hi & Hlt & Hod & Hblank & Hbefore).
           exists i. split; [lia |]. split; [exact Hlt |].
           split; [exact Hod |]. split; [exact Hblank |].
           intros j Hj. destruct (Z.eq_dec j k) as [-> | Hne]; [exact Hnz |].
           apply Hbefore. lia.
        -- intros j Hj Hlt. destruct (Z.eq_dec j k) as [-> | Hne]; [exact Hnz |].
           apply IH; lia.
    + intros j Hj Hlt. nia.
Qed.

End Listing.

(** X20: the entry [create_blank_direntry] hands out.  An entry pointer
    into the image that it returns is blank in the image it returns.  When
    the directory has a blank entry, the pointer is the first blank entry
    in the order of the offsets and the image is left as it is. *)
Theorem create_blank_direntry_blank {H : ospfs_h} (m : mem) (dir_oi : Z) :
  0 < OSPFS_DIRENTRY_SIZE ->
  (forall od, fst (create_blank_direntry m dir_oi) = InImage od ->
              od_ino (snd (create_blank_direntry m dir_oi)) od = 0)
  /\ forall k, 0 <= k -> k * OSPFS_DIRENTRY_SIZE < oi_size m dir_oi ->
       od_ino m (direntry_at m dir_oi k) = 0 ->
       snd (create_blank_direntry m dir_oi) = m
       /\ exists i, 0 <= i <= k
            /\ fst (create_blank_direntry m dir_oi) = InImage (direntry_at m dir_oi i)
            /\ forall j, 0 <= j < i -> od_ino m (direntry_at m dir_oi j) <> 0.
Proof.
  intros Hdes.
  pose proof (load32_range m dir_oi) as Hsz. fold (oi_size m dir_oi) in Hsz.
  pose proof (blank_scan_spec m dir_oi
                (Z.to_nat (oi_size m dir_oi / OSPFS_DIRENTRY_SIZE + 1))
                Hdes 0 (Z.le_refl 0)) as Hspec.
  change (0 * OSPFS_DIRENTRY_SIZE) with 0 in Hspec.
  pose proof (Z.div_pos (oi_size m dir_oi) OSPFS_DIRENTRY_SIZE (proj1 Hsz) Hdes)
    as Hq.
  unfold create_blank_direntry.
  destruct (blank_scan m dir_oi _ 0) as [od0 | off].
  - destruct Hspec as (i & Hi & Hlt & Hod & Hblank & Hbefore).
    cbn [fst snd]. split.
    + intros od Heq. inversion Heq; subst. exact Hblank.
    + intros k Hk Hin Hzero. split; [reflexivity |].
      exists i. split.
      * destruct (Z_le_gt_dec i k) as [Hle | Hgt]; [lia |].
        exfalso. apply (Hbefore k); [lia | exact Hzero].
      * split; [now rewrite Hod |]. intros j Hj. apply Hbefore. lia.
  - split.
    + intros od.
      destruct (add_block m dir_oi) as [success m1]. cbn [fst snd].
      destruct (success <? 0); cbn [fst snd]; [discriminate |].
      destruct (Z.eqb_spec (od_ino m1 (ospfs_inode_data m1 dir_oi off)) 0)
        as [Hz | Hnz]; cbn [negb fst snd]; [| discriminate].
      intros Heq. inversion Heq; subst. exact Hz.
    + intros k Hk Hin Hzero. exfalso. apply (Hspec k); [| exact Hin | exact Hzero].
      assert (k <= oi_size m dir_oi / OSPFS_DIRENTRY_SIZE)
        by (apply Z.div_le_lower_bound; lia).
      lia.
Qed.

(** X21: listing a directory.  With a buffer that takes every entry,
    [ospfs_dir_readdir] from position 0 offers [.] and [..] and then the
    entries in use, in the order of the offsets, each with its name, its
    position, its inode number and its type; it returns 1 and leaves the
    position behind the last entry.  Blank entries are passed over. *)
Theorem ospfs_dir_readdir_listing {H : ospfs_h} (m : mem)
    (dir_ino parent_ino dir_oi : Z) :
  0 < OSPFS_DIRENTRY_SIZE ->
  ospfs_inode m dir_ino = Some dir_oi ->
  oi_size m dir_oi + OSPFS_DIRENTRY_SIZE + 2 < 2 ^ 31 ->
  (forall k, 0 <= k -> k * OSPFS_DIRENTRY_SIZE < oi_size m dir_oi ->
     od_ino m (direntry_at m dir_oi k) <> 0 ->
     d_type_of m (od_ino m (direntry_at m dir_oi k)) <> None) ->
  ospfs_dir_readdir (list dirent) take_all m dir_ino parent_ino 0 []
  = Some (Listed 1 (2 + direntry_count m dir_oi * OSPFS_DIRENTRY_SIZE)
            (listing m dir_ino parent_ino dir_oi)).
Proof.
  intros Hdes Hdir Hmax Hvalid.
  destruct (direntry_count_spec m dir_oi Hdes) as (Hc0 & Hc1 & Hc2).
  pose proof (load32_range m dir_oi) as Hsz. fold (oi_size m dir_oi) in Hsz.
  unfold ospfs_dir_readdir. cbv zeta. rewrite Hdir.
  change (u32 0) with 0. cbn [Z.eqb]. unfold take_all at 1 2.
  cbn [Z.leb Z.compare Z.eqb andb app]. change (u32 (0 + 1)) with 1.
  cbn [Z.eqb Pos.eqb]. change (u32 (1 + 1)) with 2.
  pose proof (readdir_loop_listing m dir_oi 0 Hdes Hmax Hvalid
                (Z.to_nat (direntry_count m dir_oi)) 0
                (Z.to_nat (oi_size m dir_oi / OSPFS_DIRENTRY_SIZE + 2))
                [([46], 0, dir_ino, DT_DIR); ([46; 46], 1, parent_ino, DT_DIR)])
    as Hloop.
  change (2 + Z.of_nat 0 * OSPFS_DIRENTRY_SIZE) with 2 in Hloop.
  apply Hloop; [lia |].
  assert (direntry_count m dir_oi <= oi_size m dir_oi / OSPFS_DIRENTRY_SIZE + 1).
  { assert (direntry_count m dir_oi - 1 <= oi_size m dir_oi / OSPFS_DIRENTRY_SIZE);
      [| lia].
    apply Z.div_le_lower_bound; lia. }
  lia.
Qed.

(** X22: [ospfs_notify_change] with a new size and a new mode.  For a
    directory the call returns [-EPERM] and changes nothing, the mode
    included.  For another file, when the new size needs as many blocks as
    the file has, the size and the mode are stored, nothing else changes,
    and the value returned is that of the kernel's own checks. *)
Theorem ospfs_notify_change_size_mode {H : ospfs_h} (m : mem)
    (ino oi ia_valid ia_size ia_mode change_ok setattr : Z) :
  0 < OSPFS_BLKSIZE ->
  ospfs_inode m ino = Some oi ->
  Z.land ia_valid ATTR_SIZE <> 0 ->
  Z.land ia_valid ATTR_MODE <> 0 ->
  (oi_ftype m oi = OSPFS_FTYPE_DIR ->
   ospfs_notify_change m ino ia_valid ia_size ia_mode change_ok setattr
   = Some (Returns (- EPERM) m))
  /\ (oi_ftype m oi <> OSPFS_FTYPE_DIR ->
      ospfs_size2nblocks (u32 ia_size) = ospfs_size2nblocks (oi_size m oi) ->
      exists m',
        ospfs_notify_change m ino ia_valid ia_size ia_mode change_ok setattr
        = Some (Returns (if change_ok <? 0 then change_ok else setattr) m')
        /\ oi_size m' oi = u32 ia_size
        /\ oi_mode m' oi = u32 ia_mode
        /\ forall x, x < oi \/ oi + 4 <= x -> x < oi + 12 \/ oi + 16 <= x ->
             load8 m' x = load8 m x).
Proof.
  intros HB Hoi Hsize Hmode.
  apply Z.eqb_neq in Hsize, Hmode.
  unfold ospfs_notify_change. rewrite Hoi, Hsize, Hmode. cbn [negb].
  split.
  - intros Hdir. rewrite Hdir, Z.eqb_refl. reflexivity.
  - intros Hfile Hsame.
    destruct (Z.eqb_spec (oi_ftype m oi) OSPFS_FTYPE_DIR); [contradiction |].
    rewrite (change_size_same m oi (u32 ia_size) HB Hsame).
    cbn [Z.ltb Z.compare].
    eexists. split; [reflexivity |].
    unfold set_oi_mode, set_oi_size, oi_size, oi_mode.
    split; [| split].
    + rewrite load32_store32_other by lia.
      rewrite load32_store32. apply u32_small, u32_range.
    + rewrite load32_store32. apply u32_small, u32_range.
    + intros x Hx1 Hx2. rewrite !load8_store32_other by lia. reflexivity.
Qed.

(** ** Directory operations and the lookup that follows *)

Lemma clear_of_spec (R : list (Z * Z)) (a n x : Z) :
  clear_of R a n = true -> a <= x < a + n ->
  forall r, In r R -> x < fst r \/ fst r + snd r <= x.
Proof.
  unfold clear_of. rewrite forallb_forall. intros Hall Hx r Hr.
  specialize (Hall r Hr). unfold ranges_apart in Hall.
  apply orb_true_iff in Hall. destruct Hall as [Hc | Hc];
    [apply Z.leb_le in Hc | apply Z.leb_le in Hc]; lia.
Qed.

Lemma kept_bytes (R : list (Z * Z)) (m m' : mem) (a n x : Z) :
  changed_only R m m' -> clear_of R a n = true -> a <= x < a + n ->
  load8 m' x = load8 m x.
Proof.
  intros Hch Hclear Hx. apply Hch. now apply (clear_of_spec R a n x).
Qed.

Lemma kept_word (R : list (Z * Z)) (m m' : mem) (w : Z) :
  changed_only R m m' -> clear_of R w 4 = true -> load32 m' w = load32 m w.
Proof.
  intros Hch Hclear. apply load32_frame. intros x Hx.
  now apply (kept_bytes R m m' w 4 x).
Qed.

Lemma clear_of_sub (R : list (Z * Z)) (a n b k : Z) :
  clear_of R a n = true -> a <= b -> b + k <= a + n -> clear_of R b k = true.
Proof.
  unfold clear_of. rewrite !forallb_forall. intros Hall Hb Hk r Hr.
  specialize (Hall r Hr). unfold ranges_apart in *.
  apply orb_true_iff in Hall. apply orb_true_iff.
  destruct Hall as [Hc | Hc]; apply Z.leb_le in Hc;
    [left | right]; apply Z.leb_le; lia.
Qed.

Lemma strlen_scan_nonneg (m : mem) (todo : nat) :
  forall p, 0 <= strlen_scan m p todo.
Proof.
  induction todo as [| k IH]; intros p; cbn [strlen_scan]; [lia |].
  destruct (load8 m p =? 0); [lia |]. specialize (IH (p + 1)). lia.
Qed.

Lemma strlen_scan_frame (m m' : mem) (todo : nat) :
  forall p,
    (forall x, p <= x < p + strlen_scan m p todo + 1 -> load8 m' x = load8 m x) ->
    strlen_scan m' p todo = strlen_scan m p todo.
Proof.
  induction todo as [| k IH]; intros p Hkept; [reflexivity |].
  cbn [strlen_scan] in *.
  pose proof (strlen_scan_nonneg m k (p + 1)) as Hnn.
  assert (load8 m' p = load8 m p) as ->.
  { apply Hkept. destruct (load8 m p =? 0); lia. }
  destruct (load8 m p =? 0); [reflexivity |].
  rewrite IH; [reflexivity |]. intros x Hx. apply Hkept. lia.
Qed.

Lemma memcmp0_frame (m m' : mem) (bs : list Z) :
  forall p,
    (forall x, p <= x < p + Z.of_nat (length bs) -> load8 m' x = load8 m x) ->
    memcmp0 m' p bs = memcmp0 m p bs.
Proof.
  induction bs as [| b rest IH]; intros p Hkept; [reflexivity |].
  cbn [memcmp0 length] in *.
  rewrite Hkept by lia. rewrite (IH (p + 1)); [reflexivity |].
  intros x Hx. apply Hkept. lia.
Qed.

Section Kept.

Context {H : ospfs_h}.

Lemma strlen_nonneg (m : mem) (p : Z) : 0 <= strlen m p.
Proof. apply strlen_scan_nonneg. Qed.

Lemma direntry_named_frame (m m' : mem) (od : Z) (name : list Z) (namelen : Z) :
  (forall x, od <= x < od + 5 + strlen m (od_name od) -> load8 m' x = load8 m x) ->
  direntry_named m' od name namelen = direntry_named m od name namelen.
Proof.
  intros Hkept. pose proof (strlen_nonneg m (od_name od)) as Hnn.
  unfold direntry_named, od_name in *.
  assert (od_ino m' od = od_ino m od) as ->.
  { apply load32_frame. intros x Hx. apply Hkept. lia. }
  assert (strlen m' (od + 4) = strlen m (od + 4)) as ->.
  { apply strlen_scan_frame. intros x Hx. apply Hkept.
    fold (strlen m (od + 4)) in Hx. lia. }
  destruct (Z.eqb_spec (strlen m (od + 4)) namelen) as [Hlen | Hlen];
    [| now rewrite !andb_false_r].
  rewrite (memcmp0_frame m m'); [reflexivity |].
  intros x Hx. apply Hkept.
  pose proof (firstn_le_length (Z.to_nat namelen) (name ++ [0])) as Hle.
  unfold str_bytes in Hx. lia.
Qed.

Lemma blockno_frame (m m' : mem) (oi p : Z) :
  (forall w, In w ([oi; oi + 4] ++ block_index_words m oi (p / OSPFS_BLKSIZE)) ->
             load32 m' w = load32 m w) ->
  ospfs_inode_blockno m' oi p = ospfs_inode_blockno m oi p.
Proof.
  intros Hw.
  unfold ospfs_inode_blockno, block_index_words in *. cbv zeta in *.
  unfold oi_size, oi_ftype, oi_indirect2, oi_indirect, oi_direct in *.
  rewrite (Hw oi) by (simpl; auto 10).
  rewrite (Hw (oi + 4)) by (simpl; auto 10).
  destruct ((load32 m oi <=? p) || (load32 m (oi + 4) =? OSPFS_FTYPE_SYMLINK));
    [reflexivity |].
  destruct (OSPFS_NDIRECT + OSPFS_NINDIRECT <=? p / OSPFS_BLKSIZE).
  - rewrite (Hw (oi_indirect2_at oi)) by (simpl; auto 10).
    rewrite (Hw (ospfs_block (load32 m (oi_indirect2_at oi)) + _))
      by (simpl; auto 10).
    apply Hw. simpl. auto 10.
  - destruct (OSPFS_NDIRECT <=? p / OSPFS_BLKSIZE).
    + rewrite (Hw (oi_indirect_at oi)) by (simpl; auto 10).
      apply Hw. simpl. auto 10.
    + apply Hw. simpl. auto 10.
Qed.

Variables (R : list (Z * Z)) (m m' : mem) (dir_oi : Z).
Hypothesis Hchanged : changed_only R m m'.
Hypothesis Hdir : dir_clear_of m dir_oi R = true.

Lemma kept_super :
  os_ninodes m' = os_ninodes m /\ os_firstinob m' = os_firstinob m.
Proof.
  unfold dir_clear_of in Hdir. apply andb_true_iff in Hdir. destruct Hdir as [Hs _].
  unfold os_ninodes, os_firstinob. split; apply (kept_word R); try assumption.
  - apply (clear_of_sub R (ospfs_super + 8) 8); [assumption | lia | lia].
  - apply (clear_of_sub R (ospfs_super + 8) 8); [assumption | lia | lia].
Qed.

Lemma kept_inode (ino : Z) : ospfs_inode m' ino = ospfs_inode m ino.
Proof.
  unfold ospfs_inode. destruct kept_super as [-> ->]. reflexivity.
Qed.

Lemma kept_dir_size : oi_size m' dir_oi = oi_size m dir_oi.
Proof.
  unfold dir_clear_of in Hdir. apply andb_true_iff in Hdir. destruct Hdir as [_ Hd].
  unfold oi_size. apply (kept_word R); [assumption |].
  apply (clear_of_sub R dir_oi 8); [assumption | lia | lia].
Qed.

Lemma kept_direntry_at (j : Z) :
  forallb (fun w => clear_of R w 4)
    (block_index_words m dir_oi (j * OSPFS_DIRENTRY_SIZE / OSPFS_BLKSIZE)) = true ->
  direntry_at m' dir_oi j = direntry_at m dir_oi j.
Proof.
  intros Hwords. rewrite forallb_forall in Hwords.
  unfold dir_clear_of in Hdir. apply andb_true_iff in Hdir. destruct Hdir as [_ Hd].
  unfold direntry_at, ospfs_inode_data. rewrite (blockno_frame m m'); [reflexivity |].
  intros w Hw. apply (kept_word R); [assumption |].
  apply in_app_or in Hw. destruct Hw as [[<- | [<- | []]] | Hw].
  - apply (clear_of_sub R dir_oi 8); [assumption | lia | lia].
  - apply (clear_of_sub R dir_oi 8); [assumption | lia | lia].
  - apply Hwords. exact Hw.
Qed.

Lemma kept_direntry_named (j : Z) (name : list Z) (namelen : Z) :
  entry_clear_of m dir_oi R j = true ->
  direntry_at m' dir_oi j = direntry_at m dir_oi j
  /\ direntry_named m' (direntry_at m dir_oi j) name namelen
     = direntry_named m (direntry_at m dir_oi j) name namelen.
Proof.
  unfold entry_clear_of. cbv zeta. intros Hclear.
  apply andb_true_iff in Hclear. destruct Hclear as [Hentry Hwords].
  split; [now apply kept_direntry_at |].
  apply direntry_named_frame. intros x Hx.
  apply (kept_bytes R m m' (direntry_at m dir_oi j)
           (5 + strlen m (od_name (direntry_at m dir_oi j)))); try assumption.
  lia.
Qed.

End Kept.

Lemma holds_memcmp0 (bs : list Z) :
  forall m p, holds m p bs -> memcmp0 m p bs = true.
Proof.
  induction bs as [| b rest IH]; intros m p Hh; [reflexivity |].
  apply holds_cons in Hh. destruct Hh as [Hb Hrest].
  cbn [memcmp0]. rewrite Hb, Z.eqb_refl. cbn [andb]. now apply IH.
Qed.

Lemma holds_memcpy (m : mem) (p : Z) (bs : list Z) :
  plain_name bs = true -> holds (memcpy m p bs) p bs.
Proof.
  intros Hplain i Hi. rewrite load8_memcpy.
  destruct (Z.leb_spec p (p + Z.of_nat i)); [| lia].
  destruct (Z.ltb_spec (p + Z.of_nat i) (p + Z.of_nat (length bs))); [| lia].
  cbn [andb]. replace (Z.to_nat (p + Z.of_nat i - p)) with i by lia.
  unfold plain_name in Hplain. rewrite forallb_forall in Hplain.
  specialize (Hplain (nth i bs 0) (nth_In bs 0 Hi)).
  apply andb_true_iff in Hplain. destruct Hplain as [Hlo Hhi].
  apply Z.ltb_lt in Hlo, Hhi. apply Z.mod_small. lia.
Qed.

Lemma plain_name_no_nul (bs : list Z) :
  plain_name bs = true -> forallb (fun c => negb (c =? 0)) bs = true.
Proof.
  unfold plain_name. rewrite !forallb_forall. intros Hp c Hc.
  specialize (Hp c Hc). apply andb_true_iff in Hp. destruct Hp as [Hlo _].
  apply Z.ltb_lt in Hlo. destruct (Z.eqb_spec c 0); [lia | reflexivity].
Qed.

Lemma forallb_seq (f : nat -> bool) (n : nat) :
  forallb f (seq 0 n) = true -> forall j, (j < n)%nat -> f j = true.
Proof.
  rewrite forallb_forall. intros Hall j Hj. apply Hall. apply in_seq. lia.
Qed.

Section OneImage.

Context {H : ospfs_h}.

(** The entry [find_direntry] returns, from the entries in front of it. *)
Lemma find_direntry_at (m : mem) (dir_oi k : Z) (name : list Z) :
  0 < OSPFS_DIRENTRY_SIZE ->
  0 <= k -> k * OSPFS_DIRENTRY_SIZE < oi_size m dir_oi ->
  direntry_named m (direntry_at m dir_oi k) name (Z.of_nat (length name)) = true ->
  (forall j, 0 <= j < k ->
     direntry_named m (direntry_at m dir_oi j) name (Z.of_nat (length name))
     = false) ->
  find_direntry m dir_oi name (Z.of_nat (length name))
  = Some (direntry_at m dir_oi k).
Proof.
  intros Hdes Hk Hin Hnamed Hbefore.
  pose proof (find_direntry_named m dir_oi name Hdes) as Hspec.
  destruct (find_direntry m dir_oi name (Z.of_nat (length name))) as [od |].
  - destruct Hspec as (i & Hi & Hlt & Hod & Hnm & Hfirst).
    destruct (Z.lt_trichotomy i k) as [Hlt' | [-> | Hgt]].
    + rewrite Hod, Hbefore in Hnm by lia. discriminate.
    + now rewrite Hod.
    + rewrite Hfirst in Hnamed by lia. discriminate.
  - rewrite Hspec in Hnamed by assumption. discriminate.
Qed.

Lemma find_direntry_absent (m : mem) (dir_oi : Z) (name : list Z) :
  0 < OSPFS_DIRENTRY_SIZE ->
  (forall j, 0 <= j -> j * OSPFS_DIRENTRY_SIZE < oi_size m dir_oi ->
     direntry_named m (direntry_at m dir_oi j) name (Z.of_nat (length name))
     = false) ->
  find_direntry m dir_oi name (Z.of_nat (length name)) = None.
Proof.
  intros Hdes Hnone.
  pose proof (find_direntry_named m dir_oi name Hdes) as Hspec.
  destruct (find_direntry m dir_oi name (Z.of_nat (length name))) as [od |];
    [| reflexivity].
  destruct Hspec as (i & Hi & Hlt & Hod & Hnm & _).
  rewrite Hod, Hnone in Hnm by assumption. discriminate.
Qed.

Lemma first_blank_spec (m : mem) (dir_oi k : Z) :
  first_blank m dir_oi k = true ->
  0 <= k /\ k * OSPFS_DIRENTRY_SIZE < oi_size m dir_oi
  /\ od_ino m (direntry_at m dir_oi k) = 0
  /\ forall j, 0 <= j < k -> od_ino m (direntry_at m dir_oi j) <> 0.
Proof.
  unfold first_blank. intros Hfb.
  apply andb_true_iff in Hfb. destruct Hfb as [Hfb Hall].
  apply andb_true_iff in Hfb. destruct Hfb as [Hfb Hz].
  apply andb_true_iff in Hfb. destruct Hfb as [Hk Hin].
  apply Z.leb_le in Hk. apply Z.ltb_lt in Hin. apply Z.eqb_eq in Hz.
  repeat split; try assumption.
  intros j Hj. pose proof (forallb_seq _ _ Hall (Z.to_nat j)) as Hj'.
  cbv beta in Hj'. rewrite Z2Nat.id in Hj' by lia.
  specialize (Hj' ltac:(lia)). apply negb_true_iff, Z.eqb_neq in Hj'. exact Hj'.
Qed.

(** With a blank entry in the directory, [create_blank_direntry] hands out
    the first one and leaves the image alone. *)
Lemma create_blank_direntry_first (m : mem) (dir_oi k : Z) :
  0 < OSPFS_DIRENTRY_SIZE ->
  first_blank m dir_oi k = true ->
  create_blank_direntry m dir_oi = (InImage (direntry_at m dir_oi k), m).
Proof.
  intros Hdes Hfb.
  destruct (first_blank_spec m dir_oi k Hfb) as (Hk & Hin & Hz & Hbefore).
  pose proof (load32_range m dir_oi) as Hsz. fold (oi_size m dir_oi) in Hsz.
  pose proof (blank_scan_spec m dir_oi
                (Z.to_nat (oi_size m dir_oi / OSPFS_DIRENTRY_SIZE + 1))
                Hdes 0 (Z.le_refl 0)) as Hspec.
  change (0 * OSPFS_DIRENTRY_SIZE) with 0 in Hspec.
  pose proof (Z.div_pos (oi_size m dir_oi) OSPFS_DIRENTRY_SIZE (proj1 Hsz) Hdes)
    as Hq.
  unfold create_blank_direntry.
  destruct (blank_scan m dir_oi _ 0) as [od0 | off].
  - destruct Hspec as (i & Hi & Hlt & Hod & Hblank & Hfirst).
    destruct (Z.lt_trichotomy i k) as [Hlt' | [-> | Hgt]].
    + exfalso. apply (Hbefore i); [lia |]. now rewrite <- Hod.
    + now rewrite Hod.
    + exfalso. apply (Hfirst k); [lia | exact Hz].
  - exfalso. apply (Hspec k); [| exact Hin | exact Hz].
    assert (k <= oi_size m dir_oi / OSPFS_DIRENTRY_SIZE)
      by (apply Z.div_le_lower_bound; lia).
    lia.
Qed.

End OneImage.

Lemma load32_zero (m : mem) (w : Z) :
  (forall x, w <= x < w + 4 -> load8 m x = 0) -> load32 m w = 0.
Proof. intros Hz. unfold load32. rewrite !Hz by lia. reflexivity. Qed.

Lemma changed_only_refl (R : list (Z * Z)) (m : mem) : changed_only R m m.
Proof. intros x _. reflexivity. Qed.

Section SlotClear.

Context {H : ospfs_h}.

Lemma slot_clear_of_spec (m : mem) (dir_oi : Z) (R : list (Z * Z)) (k : Z) :
  slot_clear_of m dir_oi R k = true ->
  dir_clear_of m dir_oi R = true
  /\ forallb (fun w => clear_of R w 4)
       (block_index_words m dir_oi (k * OSPFS_DIRENTRY_SIZE / OSPFS_BLKSIZE)) = true
  /\ forall j, 0 <= j < k -> entry_clear_of m dir_oi R j = true.
Proof.
  unfold slot_clear_of. intros Hs.
  apply andb_true_iff in Hs. destruct Hs as [Hs Hentries].
  apply andb_true_iff in Hs. destruct Hs as [Hdir Hwords].
  split; [exact Hdir | split; [exact Hwords |]].
  intros j Hj. pose proof (forallb_seq _ _ Hentries (Z.to_nat j)) as Hj'.
  cbv beta in Hj'. rewrite Z2Nat.id in Hj' by lia. apply Hj'. lia.
Qed.

End SlotClear.

(** X24: a file made by [ospfs_create] is found by [ospfs_dir_lookup].
    In a directory that does not hold the name and has a blank entry, with
    a free inode other than inode 0, and where the entry and the inode
    record that are written overlap neither each other nor the superblock,
    the directory's inode, the pointers to its blocks and the entries in
    front: [ospfs_create] returns 0, changes no byte outside that entry and
    that inode record, and a lookup of the name gives the new inode, a
    regular file of size 0 with one link and the mode asked for. *)
Theorem ospfs_create_lookup {H : ospfs_h} (m : mem) (dir_ino dir_oi k mode : Z)
    (name : list Z) :
  let len := Z.of_nat (length name) in
  let od := direntry_at m dir_oi k in
  let entry_ino := free_inode_scan m (Z.to_nat (os_ninodes m)) 0 in
  let ino := inode_at m entry_ino in
  let R := [(od, 5 + len); (ino, OSPFS_INODESIZE)] in
  0 < OSPFS_DIRENTRY_SIZE -> 16 <= OSPFS_INODESIZE ->
  0 <= OSPFS_FTYPE_REG < 2 ^ 32 ->
  len <= OSPFS_MAXNAMELEN -> plain_name name = true ->
  ospfs_inode m dir_ino = Some dir_oi ->
  find_direntry m dir_oi name len = None ->
  first_blank m dir_oi k = true ->
  0 < entry_ino < os_ninodes m ->
  od + 4 + len < ospfs_length ->
  slot_clear_of m dir_oi R k = true ->
  ranges_apart od (5 + len) ino OSPFS_INODESIZE = true ->
  exists m',
    ospfs_create m dir_ino name mode = Returns 0 m'
    /\ changed_only R m m'
    /\ ospfs_dir_lookup m' dir_ino name
       = Positive {| i_ino := entry_ino; i_uid := 0; i_gid := 0; i_size := 0;
                     i_mode := Z.lor (u32 mode) S_IFREG mod 2 ^ 16;
                     i_op := ospfs_reg_inode_ops; i_nlink := 1 |}.
Proof.
  intros len od entry_ino ino R Hdes Hisz Hreg Hlen Hplain Hdir Hfind Hfb
    Hino Hbound Hslot Hapart.
  destruct (slot_clear_of_spec m dir_oi R k Hslot) as (Hcdir & Hwords & Hentries).
  destruct (first_blank_spec m dir_oi k Hfb) as (Hk & Hin & _ & _).
  pose proof (load32_range m (ospfs_super + 8)) as Hnin.
  fold (os_ninodes m) in Hnin.
  change (2 ^ 32) with 4294967296 in *.
  assert (0 <= len) as Hlen0 by (unfold len; lia).
  unfold ranges_apart in Hapart. apply orb_true_iff in Hapart.
  assert (od + (5 + len) <= ino \/ ino + OSPFS_INODESIZE <= od) as Hapart'
      by (destruct Hapart as [Ha | Ha]; apply Z.leb_le in Ha; lia).
  clear Hapart.
  assert (ospfs_inode m entry_ino = Some ino) as Hinode.
  { unfold ospfs_inode. destruct (Z.leb_spec (os_ninodes m) entry_ino); [lia |].
    reflexivity. }
  (* the entry *)
  set (m1 := store32 m od entry_ino).
  set (m2 := memcpy m1 (od_name od) name).
  set (m3 := store8 m2 (od_name od + len) 0).
  assert (forall x, x < od \/ od + 5 + len <= x -> load8 m3 x = load8 m x) as Hm3.
  { intros x Hx. unfold m3, m2, m1, od_name.
    rewrite load8_store8. destruct (Z.eqb_spec x (od + 4 + len)); [lia |].
    rewrite load8_memcpy. fold len.
    destruct (Z.leb_spec (od + 4) x); destruct (Z.ltb_spec x (od + 4 + len));
      cbn [andb]; try lia; apply load8_store32_other; lia. }
  assert (od_ino m3 od = entry_ino) as Hod3.
  { unfold od_ino. transitivity (load32 m1 od).
    - apply load32_frame. intros x Hx. unfold m3, m2, od_name.
      rewrite load8_store8. destruct (Z.eqb_spec x (od + 4 + len)); [lia |].
      rewrite load8_memcpy.
      destruct (Z.leb_spec (od + 4) x); [lia |]. reflexivity.
    - unfold m1. rewrite load32_store32. apply u32_small.
      change (2 ^ 32) with 4294967296. lia. }
  assert (holds m3 (od_name od) (name ++ [0])) as Hname3.
  { unfold m3, len. apply holds_store8_end. unfold m2. now apply holds_memcpy. }
  assert (changed_only R m m3) as Hch3.
  { intros x Hx. apply Hm3. specialize (Hx (od, 5 + len)). cbn [fst snd] in Hx.
    assert (In (od, 5 + len) R) as HinR by (unfold R; simpl; auto).
    specialize (Hx HinR). lia. }
  assert (ospfs_inode m3 (od_ino m3 od) = Some ino) as Hinode3.
  { rewrite Hod3, (kept_inode R m m3 dir_oi Hch3 Hcdir). exact Hinode. }
  (* the inode *)
  set (m4 := memset m3 ino 0 OSPFS_INODESIZE).
  set (m5 := set_oi_ftype m4 ino OSPFS_FTYPE_REG).
  set (m6 := set_oi_nlink m5 ino (u32 (oi_nlink m5 ino + 1))).
  set (m7 := set_oi_mode m6 ino (u32 mode)).
  assert (oi_nlink m5 ino = 0) as Hn5.
  { unfold oi_nlink, m5, set_oi_ftype.
    rewrite load32_store32_other by lia.
    apply load32_zero. intros x Hx. unfold m4. rewrite load8_memset.
    destruct (Z.leb_spec ino x); [| lia].
    destruct (Z.ltb_spec x (ino + OSPFS_INODESIZE)); [reflexivity | lia]. }
  assert (forall x, x < ino \/ ino + OSPFS_INODESIZE <= x ->
                    load8 m7 x = load8 m3 x) as Hm7.
  { intros x Hx. unfold m7, m6, m5, m4, set_oi_mode, set_oi_nlink, set_oi_ftype.
    rewrite !load8_store32_other by lia.
    rewrite load8_memset.
    destruct (Z.leb_spec ino x); destruct (Z.ltb_spec x (ino + OSPFS_INODESIZE));
      cbn [andb]; try lia; reflexivity. }
  assert (changed_only R m m7) as Hch7.
  { intros x Hx.
    assert (In (od, 5 + len) R) as HinE by (unfold R; simpl; auto).
    assert (In (ino, OSPFS_INODESIZE) R) as HinI by (unfold R; simpl; auto).
    pose proof (Hx _ HinE) as HxE. pose proof (Hx _ HinI) as HxI.
    cbn [fst snd] in HxE, HxI.
    rewrite Hm7 by lia. apply Hm3. lia. }
  assert (oi_size m7 ino = 0) as Hsize7.
  { unfold oi_size, m7, m6, m5, set_oi_mode, set_oi_nlink, set_oi_ftype.
    rewrite !load32_store32_other by lia.
    apply load32_zero. intros x Hx. unfold m4. rewrite load8_memset.
    destruct (Z.leb_spec ino x); [| lia].
    destruct (Z.ltb_spec x (ino + OSPFS_INODESIZE)); [reflexivity | lia]. }
  assert (oi_ftype m7 ino = OSPFS_FTYPE_REG) as Hftype7.
  { unfold oi_ftype, m7, m6, m5, set_oi_mode, set_oi_nlink, set_oi_ftype.
    rewrite !load32_store32_other by lia.
    rewrite load32_store32. apply u32_small.
    change (2 ^ 32) with 4294967296. lia. }
  assert (oi_nlink m7 ino = 1) as Hnlink7.
  { unfold oi_nlink at 1. unfold m7, m6, set_oi_mode, set_oi_nlink.
    rewrite load32_store32_other by lia.
    rewrite load32_store32, Hn5. reflexivity. }
  assert (oi_mode m7 ino = u32 mode) as Hmode7.
  { unfold oi_mode, m7, set_oi_mode. rewrite load32_store32.
    apply u32_small, u32_range. }
  assert (forall x, od <= x < od + 5 + len -> load8 m7 x = load8 m3 x) as Hentry7.
  { intros x Hx. apply Hm7. lia. }
  assert (od_ino m7 od = entry_ino) as Hod7.
  { rewrite <- Hod3. unfold od_ino. apply load32_frame.
    intros x Hx. apply Hentry7. lia. }
  assert (holds m7 (od_name od) (name ++ [0])) as Hname7.
  { apply (holds_frame m3); [| exact Hname3].
    intros a Ha. apply Hentry7. rewrite length_app in Ha. cbn [length] in Ha.
    unfold od_name in Ha. fold len in Ha. lia. }
  assert (direntry_named m7 od name len = true) as Hnamed7.
  { unfold direntry_named. rewrite Hod7.
    destruct (Z.eqb_spec entry_ino 0); [lia |]. cbn [negb andb].
    rewrite (strlen_eq m7 (od_name od) name Hname7 (plain_name_no_nul name Hplain))
      by (unfold od_name; fold len; lia).
    fold len. rewrite Z.eqb_refl. cbn [andb].
    unfold len. rewrite str_bytes_all.
    apply holds_memcmp0. apply (holds_app m7 (od_name od) name [0] Hname7). }
  exists m7. split; [| split; [exact Hch7 |]].
  - unfold ospfs_create. cbv zeta. fold len.
    destruct (Z.ltb_spec OSPFS_MAXNAMELEN len); [lia |].
    rewrite Hdir, Hfind.
    rewrite (create_blank_direntry_first m dir_oi k Hdes Hfb).
    cbn [IS_ERR]. fold od. fold entry_ino.
    destruct (Z.eqb_spec entry_ino (os_ninodes m)); [lia |].
    fold m1 m2 m3. rewrite Hinode3. reflexivity.
  - assert (ospfs_inode m7 dir_ino = Some dir_oi) as Hdir7
        by (rewrite (kept_inode R m m7 dir_oi Hch7 Hcdir); exact Hdir).
    rewrite (ospfs_dir_lookup_find m7 dir_ino dir_oi name Hlen Hdir7).
    assert (direntry_at m7 dir_oi k = od) as Hat7
        by (apply (kept_direntry_at R m m7 dir_oi Hch7 Hcdir k Hwords)).
    pose proof (find_direntry_named m dir_oi name Hdes) as Hnone.
    fold len in Hnone. rewrite Hfind in Hnone.
    rewrite (find_direntry_at m7 dir_oi k name Hdes Hk).
    + rewrite Hat7, Hod7. unfold ospfs_mk_linux_inode.
      rewrite (kept_inode R m m7 dir_oi Hch7 Hcdir), Hinode.
      rewrite Hftype7, Z.eqb_refl. cbv zeta.
      rewrite Hsize7, Hmode7, Hnlink7. reflexivity.
    + rewrite (kept_dir_size R m m7 dir_oi Hch7 Hcdir). exact Hin.
    + rewrite Hat7. exact Hnamed7.
    + intros j Hj.
      destruct (kept_direntry_named R m m7 dir_oi Hch7 Hcdir j name len
                  (Hentries j Hj)) as [Hat Hnm].
      fold len. rewrite Hat, Hnm. apply Hnone; [lia | nia].
Qed.

Section Unlink.

Context {H : ospfs_h}.

Lemma direntry_count_below (m : mem) (dir_oi j : Z) :
  0 < OSPFS_DIRENTRY_SIZE -> 0 <= j ->
  (j * OSPFS_DIRENTRY_SIZE < oi_size m dir_oi <-> j < direntry_count m dir_oi).
Proof.
  intros Hdes Hj.
  destruct (direntry_count_spec m dir_oi Hdes) as (Hc0 & Hc1 & Hc2).
  split; intros Hlt; nia.
Qed.

End Unlink.

(** X25: a name removed by [ospfs_unlink] is not found any more.  When
    the name stands in one entry of the directory only, the file keeps a
    link or is a symbolic link, and the two words that are written (the
    entry's inode number, the file's link count) overlap neither each other
    nor the superblock, the directory's inode, the pointers to its blocks
    and the other entries: [ospfs_unlink] returns 0, changes no byte
    outside those two words, and [ospfs_dir_lookup] of the name gives a
    negative dentry. *)
Theorem ospfs_unlink_lookup {H : ospfs_h} (m : mem) (ino dir_ino dir_oi oi k : Z)
    (name : list Z) :
  let od := direntry_at m dir_oi k in
  let R := [(od, 4); (oi + 8, 4)] in
  0 < OSPFS_DIRENTRY_SIZE ->
  Z.of_nat (length name) <= OSPFS_MAXNAMELEN ->
  ospfs_inode m dir_ino = Some dir_oi ->
  ospfs_inode m ino = Some oi ->
  dir_clear_of m dir_oi R = true ->
  only_named m dir_oi R name k = true ->
  od + 4 <= oi + 4 \/ oi + 12 <= od ->
  oi_nlink m oi <> 1 \/ oi_ftype m oi = OSPFS_FTYPE_SYMLINK ->
  exists m',
    ospfs_unlink m ino dir_ino name = Some (Returns 0 m')
    /\ changed_only R m m'
    /\ ospfs_dir_lookup m' dir_ino name = Negative.
Proof.
  intros od R Hdes Hlen Hdir Hoi Hcdir Honly Hapart Hkeep.
  unfold only_named in Honly.
  apply andb_true_iff in Honly. destruct Honly as [Honly Hothers].
  apply andb_true_iff in Honly. destruct Honly as [Honly Hwords].
  apply andb_true_iff in Honly. destruct Honly as [Hk Hnamed].
  apply andb_true_iff in Hk. destruct Hk as [Hk0 Hk1].
  apply Z.leb_le in Hk0. apply Z.ltb_lt in Hk1. fold od in Hnamed.
  assert (k * OSPFS_DIRENTRY_SIZE < oi_size m dir_oi) as Hin
      by (apply direntry_count_below; assumption).
  assert (forall j, 0 <= j -> j * OSPFS_DIRENTRY_SIZE < oi_size m dir_oi ->
            j <> k ->
            direntry_named m (direntry_at m dir_oi j) name
              (Z.of_nat (length name)) = false
            /\ entry_clear_of m dir_oi R j = true) as Hother.
  { intros j Hj Hlt Hne.
    apply direntry_count_below in Hlt; [| assumption | assumption].
    pose proof (forallb_seq _ _ Hothers (Z.to_nat j)) as Hj'.
    cbv beta in Hj'. rewrite Z2Nat.id in Hj' by lia.
    specialize (Hj' ltac:(lia)).
    destruct (Z.eqb_spec j k); [contradiction |]. cbn [orb] in Hj'.
    apply andb_true_iff in Hj'. destruct Hj' as [Hn Hc].
    apply negb_true_iff in Hn. split; assumption. }
  assert (find_direntry m dir_oi name (Z.of_nat (length name)) = Some od) as Hfind.
  { apply find_direntry_at; try assumption.
    intros j Hj. apply Hother; [lia | nia | lia]. }
  rewrite (ospfs_unlink_entry_value m ino dir_ino dir_oi oi od name
             Hdir Hoi Hfind Hapart Hkeep).
  set (m' := set_oi_nlink (store32 m od 0) oi (u32 (oi_nlink m oi - 1))).
  assert (changed_only R m m') as Hch.
  { intros x Hx.
    assert (In (od, 4) R) as HinE by (unfold R; simpl; auto).
    assert (In (oi + 8, 4) R) as HinI by (unfold R; simpl; auto).
    pose proof (Hx _ HinE) as HxE. pose proof (Hx _ HinI) as HxI.
    cbn [fst snd] in HxE, HxI.
    unfold m', set_oi_nlink. rewrite !load8_store32_other by lia. reflexivity. }
  exists m'. split; [reflexivity | split; [exact Hch |]].
  assert (ospfs_inode m' dir_ino = Some dir_oi) as Hdir'
      by (rewrite (kept_inode R m m' dir_oi Hch Hcdir); exact Hdir).
  rewrite (ospfs_dir_lookup_find m' dir_ino dir_oi name Hlen Hdir').
  rewrite find_direntry_absent; [reflexivity | exact Hdes |].
  intros j Hj Hlt. rewrite (kept_dir_size R m m' dir_oi Hch Hcdir) in Hlt.
  destruct (Z.eq_dec j k) as [-> | Hne].
  - rewrite (kept_direntry_at R m m' dir_oi Hch Hcdir k Hwords). fold od.
    unfold direntry_named.
    assert (od_ino m' od = 0) as ->; [| reflexivity].
    unfold od_ino, m', set_oi_nlink.
    rewrite load32_store32_other by lia. apply load32_store32.
  - destruct (Hother j Hj Hlt Hne) as [Hnot Hclear].
    destruct (kept_direntry_named R m m' dir_oi Hch Hcdir j name
                (Z.of_nat (length name)) Hclear) as [Hat Hnm].
    rewrite Hat, Hnm. exact Hnot.
Qed.

(** X26: a second name made by [ospfs_link] leads to the same inode.
    In a directory that does not hold the name and has a blank entry, for
    a regular file other than inode 0, and where the entry and the link
    count that are written overlap neither the rest of the file's inode nor
    the superblock, the directory's inode, the pointers to its blocks and
    the entries in front: [ospfs_link] returns 0, changes no byte outside
    that entry and that link count, and a lookup of the new name gives the
    inode of the file, with its size and mode and one link more. *)
Theorem ospfs_link_lookup {H : ospfs_h} (m : mem) (src_ino dir_ino dir_oi k : Z)
    (name : list Z) :
  let len := Z.of_nat (length name) in
  let od := direntry_at m dir_oi k in
  let target := inode_at m src_ino in
  let R := [(od, 5 + len); (target + 8, 4)] in
  0 < OSPFS_DIRENTRY_SIZE ->
  len <= OSPFS_MAXNAMELEN -> plain_name name = true ->
  ospfs_inode m dir_ino = Some dir_oi ->
  find_direntry m dir_oi name len = None ->
  first_blank m dir_oi k = true ->
  0 < src_ino < os_ninodes m ->
  oi_ftype m target = OSPFS_FTYPE_REG ->
  od + 4 + len < ospfs_length ->
  slot_clear_of m dir_oi R k = true ->
  ranges_apart od (5 + len) target 16 = true ->
  exists m',
    ospfs_link m src_ino dir_ino name = Returns 0 m'
    /\ changed_only R m m'
    /\ ospfs_dir_lookup m' dir_ino name
       = Positive {| i_ino := src_ino; i_uid := 0; i_gid := 0;
                     i_size := oi_size m target;
                     i_mode := Z.lor (oi_mode m target) S_IFREG mod 2 ^ 16;
                     i_op := ospfs_reg_inode_ops;
                     i_nlink := u32 (oi_nlink m target + 1) |}.
Proof.
  intros len od target R Hdes Hlen Hplain Hdir Hfind Hfb Hsrc Hreg Hbound
    Hslot Hapart.
  destruct (slot_clear_of_spec m dir_oi R k Hslot) as (Hcdir & Hwords & Hentries).
  destruct (first_blank_spec m dir_oi k Hfb) as (Hk & Hin & _ & _).
  pose proof (load32_range m (ospfs_super + 8)) as Hnin.
  fold (os_ninodes m) in Hnin.
  change (2 ^ 32) with 4294967296 in *.
  assert (0 <= len) as Hlen0 by (unfold len; lia).
  unfold ranges_apart in Hapart. apply orb_true_iff in Hapart.
  assert (od + (5 + len) <= target \/ target + 16 <= od) as Hapart'
      by (destruct Hapart as [Ha | Ha]; apply Z.leb_le in Ha; lia).
  clear Hapart.
  assert (u32 src_ino = src_ino) as Hu
      by (apply u32_small; change (2 ^ 32) with 4294967296; lia).
  assert (ospfs_inode m src_ino = Some target) as Hinode.
  { unfold ospfs_inode. destruct (Z.leb_spec (os_ninodes m) src_ino); [lia |].
    reflexivity. }
  set (m1 := memcpy m (od_name od) name).
  set (m2 := store8 m1 (od_name od + len) 0).
  set (m3 := store32 m2 od src_ino).
  set (m4 := set_oi_nlink m3 target (u32 (oi_nlink m3 target + 1))).
  assert (forall x, x < od \/ od + 5 + len <= x -> load8 m3 x = load8 m x) as Hm3.
  { intros x Hx. unfold m3, m2, m1, od_name.
    rewrite load8_store32_other by lia.
    rewrite load8_store8. destruct (Z.eqb_spec x (od + 4 + len)); [lia |].
    rewrite load8_memcpy. fold len.
    destruct (Z.leb_spec (od + 4) x); destruct (Z.ltb_spec x (od + 4 + len));
      cbn [andb]; try lia; reflexivity. }
  assert (od_ino m3 od = src_ino) as Hod3.
  { unfold od_ino, m3. rewrite load32_store32. exact Hu. }
  assert (holds m3 (od_name od) (name ++ [0])) as Hname3.
  { apply (holds_frame m2).
    - intros a Ha. unfold m3, od_name in *. apply load8_store32_other. lia.
    - unfold m2, len. apply holds_store8_end. unfold m1. now apply holds_memcpy. }
  assert (changed_only R m m3) as Hch3.
  { intros x Hx. apply Hm3.
    assert (In (od, 5 + len) R) as HinR by (unfold R; simpl; auto).
    specialize (Hx _ HinR). cbn [fst snd] in Hx. lia. }
  assert (forall w, target <= w -> w + 4 <= target + 16 ->
                    load32 m3 w = load32 m w) as Hfields3.
  { intros w Hw1 Hw2. apply load32_frame. intros x Hx. apply Hm3. lia. }
  assert (oi_nlink m3 target = oi_nlink m target) as Hn3
      by (apply Hfields3; lia).
  assert (forall x, x < target + 8 \/ target + 12 <= x ->
                    load8 m4 x = load8 m3 x) as Hm4.
  { intros x Hx. unfold m4, set_oi_nlink. apply load8_store32_other. lia. }
  assert (changed_only R m m4) as Hch4.
  { intros x Hx.
    assert (In (od, 5 + len) R) as HinE by (unfold R; simpl; auto).
    assert (In (target + 8, 4) R) as HinI by (unfold R; simpl; auto).
    pose proof (Hx _ HinE) as HxE. pose proof (Hx _ HinI) as HxI.
    cbn [fst snd] in HxE, HxI.
    rewrite Hm4 by lia. apply Hm3. lia. }
  assert (oi_size m4 target = oi_size m target) as Hsize4.
  { unfold oi_size. rewrite <- (Hfields3 target) by lia.
    apply load32_frame. intros x Hx. apply Hm4. lia. }
  assert (oi_ftype m4 target = OSPFS_FTYPE_REG) as Hftype4.
  { rewrite <- Hreg. unfold oi_ftype. rewrite <- (Hfields3 (target + 4)) by lia.
    apply load32_frame. intros x Hx. apply Hm4. lia. }
  assert (oi_mode m4 target = oi_mode m target) as Hmode4.
  { unfold oi_mode. rewrite <- (Hfields3 (target + 12)) by lia.
    apply load32_frame. intros x Hx. apply Hm4. lia. }
  assert (oi_nlink m4 target = u32 (oi_nlink m target + 1)) as Hnlink4.
  { unfold oi_nlink at 1. unfold m4, set_oi_nlink.
    rewrite load32_store32, Hn3. apply u32_small, u32_range. }
  assert (forall x, od <= x < od + 5 + len -> load8 m4 x = load8 m3 x) as Hentry4.
  { intros x Hx. apply Hm4. lia. }
  assert (od_ino m4 od = src_ino) as Hod4.
  { rewrite <- Hod3. unfold od_ino. apply load32_frame.
    intros x Hx. apply Hentry4. lia. }
  assert (holds m4 (od_name od) (name ++ [0])) as Hname4.
  { apply (holds_frame m3); [| exact Hname3].
    intros a Ha. apply Hentry4. rewrite length_app in Ha. cbn [length] in Ha.
    unfold od_name in Ha. fold len in Ha. lia. }
  assert (direntry_named m4 od name len = true) as Hnamed4.
  { unfold direntry_named. rewrite Hod4.
    destruct (Z.eqb_spec src_ino 0); [lia |]. cbn [negb andb].
    rewrite (strlen_eq m4 (od_name od) name Hname4 (plain_name_no_nul name Hplain))
      by (unfold od_name; fold len; lia).
    fold len. rewrite Z.eqb_refl. cbn [andb].
    unfold len. rewrite str_bytes_all.
    apply holds_memcmp0. apply (holds_app m4 (od_name od) name [0] Hname4). }
  exists m4. split; [| split; [exact Hch4 |]].
  - unfold ospfs_link. cbv zeta. fold len.
    rewrite Hdir, Hfind.
    rewrite (create_blank_direntry_first m dir_oi k Hdes Hfb).
    cbn [IS_ERR]. fold od.
    destruct (Z.ltb_spec OSPFS_MAXNAMELEN len); [lia |].
    rewrite Hu. fold m1 m2 m3.
    rewrite (kept_inode R m m3 dir_oi Hch3 Hcdir), Hinode. reflexivity.
  - assert (ospfs_inode m4 dir_ino = Some dir_oi) as Hdir4
        by (rewrite (kept_inode R m m4 dir_oi Hch4 Hcdir); exact Hdir).
    rewrite (ospfs_dir_lookup_find m4 dir_ino dir_oi name Hlen Hdir4).
    assert (direntry_at m4 dir_oi k = od) as Hat4
        by (apply (kept_direntry_at R m m4 dir_oi Hch4 Hcdir k Hwords)).
    pose proof (find_direntry_named m dir_oi name Hdes) as Hnone.
    fold len in Hnone. rewrite Hfind in Hnone.
    rewrite (find_direntry_at m4 dir_oi k name Hdes Hk).
    + rewrite Hat4, Hod4. unfold ospfs_mk_linux_inode.
      rewrite (kept_inode R m m4 dir_oi Hch4 Hcdir), Hinode.
      rewrite Hftype4, Z.eqb_refl. cbv zeta.
      rewrite Hsize4, Hmode4, Hnlink4. reflexivity.
    + rewrite (kept_dir_size R m m4 dir_oi Hch4 Hcdir). exact Hin.
    + rewrite Hat4. exact Hnamed4.
    + intros j Hj.
      destruct (kept_direntry_named R m m4 dir_oi Hch4 Hcdir j name len
                  (Hentries j Hj)) as [Hat Hnm].
      fold len. rewrite Hat, Hnm. apply Hnone; [lia | nia].
Qed.

(** X27: the inode scan of [ospfs_create] and [ospfs_symlink] is first
    fit: it stops at the lowest inode number, 0 included, whose inode has
    no links, and reaches [os_ninodes] exactly when every inode has a
    link. *)
Theorem free_inode_scan_first_fit {H : ospfs_h} (m : mem) :
  let r := free_inode_scan m (Z.to_nat (os_ninodes m)) 0 in
  0 <= r <= os_ninodes m
  /\ (forall j, 0 <= j < r -> oi_nlink m (inode_at m j) <> 0)
  /\ (r < os_ninodes m -> oi_nlink m (inode_at m r) = 0).
Proof.
  pose proof (load32_range m (ospfs_super + 8)) as Hnin.
  fold (os_ninodes m) in Hnin.
  assert (forall todo e, 0 <= e ->
            e <= free_inode_scan m todo e <= e + Z.of_nat todo
            /\ (forall j, e <= j < free_inode_scan m todo e ->
                          oi_nlink m (inode_at m j) <> 0)
            /\ (free_inode_scan m todo e < e + Z.of_nat todo ->
                free_inode_scan m todo e < os_ninodes m ->
                oi_nlink m (inode_at m (free_inode_scan m todo e)) = 0)) as Hscan.
  { induction todo as [| n IH]; intros e He; cbn [free_inode_scan].
    - split; [lia |]. split; [intros j Hj; lia | lia].
    - unfold ospfs_inode. fold (inode_at m e).
      destruct (Z.leb_spec (os_ninodes m) e) as [Hout | Hin].
      + split; [lia |]. split; [intros j Hj; lia | lia].
      + destruct (Z.eqb_spec (oi_nlink m (inode_at m e)) 0) as [Hz | Hnz].
        * split; [lia |]. split; [intros j Hj; lia |]. intros _ _. exact Hz.
        * assert (0 <= e + 1) as He1 by lia.
          destruct (IH (e + 1) He1) as (Hr & Hbefore & Hat).
          split; [lia |]. split.
          -- intros j Hj. destruct (Z.eq_dec j e) as [-> | Hne]; [exact Hnz |].
             apply Hbefore. lia.
          -- intros Hlt Hlt'. apply Hat; lia. }
  cbv zeta.
  destruct (Hscan (Z.to_nat (os_ninodes m)) 0 (Z.le_refl 0)) as (Hr & Hbefore & Hat).
  split; [lia |]. split; [exact Hbefore |].
  intros Hlt. apply Hat; lia.
Qed.

Lemma holds_memcpy_bytes (m : mem) (p : Z) (bs : list Z) :
  forallb (fun c => (0 <=? c) && (c <? 256)) bs = true ->
  holds (memcpy m p bs) p bs.
Proof.
  intros Hbytes i Hi. rewrite load8_memcpy.
  destruct (Z.leb_spec p (p + Z.of_nat i)); [| lia].
  destruct (Z.ltb_spec (p + Z.of_nat i) (p + Z.of_nat (length bs))); [| lia].
  cbn [andb]. replace (Z.to_nat (p + Z.of_nat i - p)) with i by lia.
  rewrite forallb_forall in Hbytes.
  specialize (Hbytes (nth i bs 0) (nth_In bs 0 Hi)).
  apply andb_true_iff in Hbytes. destruct Hbytes as [Hlo Hhi].
  apply Z.leb_le in Hlo. apply Z.ltb_lt in Hhi. apply Z.mod_small. lia.
Qed.

Lemma plain_name_bytes (bs : list Z) :
  plain_name bs = true ->
  forallb (fun c => (0 <=? c) && (c <? 256)) (bs ++ [0]) = true.
Proof.
  intros Hp. rewrite forallb_app. apply andb_true_iff. split; [| reflexivity].
  unfold plain_name in Hp. rewrite forallb_forall in *. intros c Hc.
  specialize (Hp c Hc). apply andb_true_iff in Hp. destruct Hp as [Hlo Hhi].
  apply Z.ltb_lt in Hlo. rewrite Hhi, andb_true_r. apply Z.leb_le. lia.
Qed.

(** X28: a symbolic link made by [ospfs_symlink] is found by
    [ospfs_dir_lookup] and holds its target.  In a directory that does not
    hold the name and has a blank entry, with a free inode other than
    inode 0, and where the entry and the part of the inode record that are
    written overlap neither each other nor the superblock, the directory's
    inode, the pointers to its blocks and the entries in front:
    [ospfs_symlink] returns 0, changes no byte outside them, a lookup of
    the name gives the new inode, a symbolic link with one link whose size
    is the length of the target, and the inode holds the target as a
    string. *)
Theorem ospfs_symlink_lookup {H : ospfs_h} (m : mem) (dir_ino dir_oi k : Z)
    (name symname : list Z) :
  let len := Z.of_nat (length name) in
  let slen := Z.of_nat (length symname) in
  let od := direntry_at m dir_oi k in
  let entry_ino := free_inode_scan m (Z.to_nat (os_ninodes m)) 0 in
  let ino := inode_at m entry_ino in
  let R := [(od, 5 + len); (ino, 17 + slen)] in
  0 < OSPFS_DIRENTRY_SIZE ->
  0 <= OSPFS_FTYPE_SYMLINK < 2 ^ 32 ->
  OSPFS_FTYPE_SYMLINK <> OSPFS_FTYPE_REG ->
  OSPFS_FTYPE_SYMLINK <> OSPFS_FTYPE_DIR ->
  len <= OSPFS_MAXNAMELEN -> slen <= OSPFS_MAXSYMLINKLEN < 2 ^ 32 ->
  plain_name name = true -> plain_name symname = true ->
  ospfs_inode m dir_ino = Some dir_oi ->
  find_direntry m dir_oi name len = None ->
  first_blank m dir_oi k = true ->
  0 < entry_ino < os_ninodes m ->
  od + 4 + len < ospfs_length ->
  ino + 16 + slen < ospfs_length ->
  slot_clear_of m dir_oi R k = true ->
  ranges_apart od (5 + len) ino (17 + slen) = true ->
  exists m',
    ospfs_symlink m dir_ino name symname = Returns 0 m'
    /\ changed_only R m m'
    /\ ospfs_dir_lookup m' dir_ino name
       = Positive {| i_ino := entry_ino; i_uid := 0; i_gid := 0; i_size := slen;
                     i_mode := Z.lor S_IRWXUGO S_IFLNK mod 2 ^ 16;
                     i_op := ospfs_symlink_inode_ops; i_nlink := 1 |}
    /\ cstring m' (oi_symlink ino) = symname.
Proof.
  intros len slen od entry_ino ino R Hdes Hsym Hsr Hsd Hlen Hslen Hplain Hsplain
    Hdir Hfind Hfb Hino Hbound Hsbound Hslot Hapart.
  destruct (slot_clear_of_spec m dir_oi R k Hslot) as (Hcdir & Hwords & Hentries).
  destruct (first_blank_spec m dir_oi k Hfb) as (Hk & Hin & _ & _).
  pose proof (load32_range m (ospfs_super + 8)) as Hnin.
  fold (os_ninodes m) in Hnin.
  change (2 ^ 32) with 4294967296 in *.
  assert (0 <= len) as Hlen0 by (unfold len; lia).
  assert (0 <= slen) as Hslen0 by (unfold slen; lia).
  unfold ranges_apart in Hapart. apply orb_true_iff in Hapart.
  assert (od + (5 + len) <= ino \/ ino + (17 + slen) <= od) as Hapart'
      by (destruct Hapart as [Ha | Ha]; apply Z.leb_le in Ha; lia).
  clear Hapart.
  assert (ospfs_inode m entry_ino = Some ino) as Hinode.
  { unfold ospfs_inode. destruct (Z.leb_spec (os_ninodes m) entry_ino); [lia |].
    reflexivity. }
  (* the inode *)
  set (a1 := set_oi_size m ino slen).
  set (a2 := set_oi_ftype a1 ino OSPFS_FTYPE_SYMLINK).
  set (a3 := set_oi_nlink a2 ino 1).
  set (a4 := strcpy a3 (oi_symlink ino) symname).
  assert (forall x, x < ino \/ ino + 17 + slen <= x -> load8 a4 x = load8 m x)
    as Ha4.
  { intros x Hx. unfold a4, strcpy, oi_symlink. rewrite load8_memcpy.
    rewrite length_app. cbn [length].
    destruct (Z.leb_spec (ino + 16) x);
      destruct (Z.ltb_spec x (ino + 16 + Z.of_nat (length symname + 1)));
      cbn [andb]; try (unfold slen in *; lia);
      unfold a3, a2, a1, set_oi_nlink, set_oi_ftype, set_oi_size;
      rewrite !load8_store32_other by lia; reflexivity. }
  assert (forall w, ino <= w -> w + 4 <= ino + 16 -> load32 a4 w = load32 a3 w)
    as Hfields.
  { intros w Hw1 Hw2. apply load32_frame. intros x Hx.
    unfold a4, strcpy, oi_symlink. rewrite load8_memcpy.
    destruct (Z.leb_spec (ino + 16) x); [lia | reflexivity]. }
  assert (holds a4 (oi_symlink ino) (symname ++ [0])) as Htarget4.
  { unfold a4, strcpy. apply holds_memcpy_bytes. now apply plain_name_bytes. }
  (* the entry *)
  set (b1 := store32 a4 od entry_ino).
  set (b2 := memcpy b1 (od_name od) name).
  set (b3 := store8 b2 (od_name od + len) 0).
  assert (forall x, x < od \/ od + 5 + len <= x -> load8 b3 x = load8 a4 x) as Hb3.
  { intros x Hx. unfold b3, b2, b1, od_name.
    rewrite load8_store8. destruct (Z.eqb_spec x (od + 4 + len)); [lia |].
    rewrite load8_memcpy. fold len.
    destruct (Z.leb_spec (od + 4) x); destruct (Z.ltb_spec x (od + 4 + len));
      cbn [andb]; try lia; apply load8_store32_other; lia. }
  assert (od_ino b3 od = entry_ino) as Hod3.
  { unfold od_ino. transitivity (load32 b1 od).
    - apply load32_frame. intros x Hx. unfold b3, b2, od_name.
      rewrite load8_store8. destruct (Z.eqb_spec x (od + 4 + len)); [lia |].
      rewrite load8_memcpy.
      destruct (Z.leb_spec (od + 4) x); [lia |]. reflexivity.
    - unfold b1. rewrite load32_store32. apply u32_small.
      change (2 ^ 32) with 4294967296. lia. }
  assert (holds b3 (od_name od) (name ++ [0])) as Hname3.
  { unfold b3, len. apply holds_store8_end. unfold b2. now apply holds_memcpy. }
  assert (changed_only R m b3) as Hch.
  { intros x Hx.
    assert (In (od, 5 + len) R) as HinE by (unfold R; simpl; auto).
    assert (In (ino, 17 + slen) R) as HinI by (unfold R; simpl; auto).
    pose proof (Hx _ HinE) as HxE. pose proof (Hx _ HinI) as HxI.
    cbn [fst snd] in HxE, HxI.
    rewrite Hb3 by lia. apply Ha4. lia. }
  assert (forall w, ino <= w -> w + 4 <= ino + 16 -> load32 b3 w = load32 a3 w)
    as Hfields3.
  { intros w Hw1 Hw2. rewrite <- (Hfields w Hw1 Hw2).
    apply load32_frame. intros x Hx. apply Hb3. lia. }
  assert (oi_size b3 ino = slen) as Hsize3.
  { unfold oi_size. rewrite Hfields3 by lia.
    unfold a3, a2, a1, set_oi_nlink, set_oi_ftype, set_oi_size.
    rewrite !load32_store32_other by lia. rewrite load32_store32.
    apply u32_small. change (2 ^ 32) with 4294967296. lia. }
  assert (oi_ftype b3 ino = OSPFS_FTYPE_SYMLINK) as Hftype3.
  { unfold oi_ftype. rewrite Hfields3 by lia.
    unfold a3, a2, set_oi_nlink, set_oi_ftype.
    rewrite !load32_store32_other by lia. rewrite load32_store32.
    apply u32_small. change (2 ^ 32) with 4294967296. lia. }
  assert (oi_nlink b3 ino = 1) as Hnlink3.
  { unfold oi_nlink. rewrite Hfields3 by lia.
    unfold a3, set_oi_nlink. rewrite load32_store32. reflexivity. }
  assert (holds b3 (oi_symlink ino) (symname ++ [0])) as Htarget3.
  { apply (holds_frame a4); [| exact Htarget4].
    intros a Ha. apply Hb3. rewrite length_app in Ha. cbn [length] in Ha.
    unfold oi_symlink in Ha. unfold slen in *. lia. }
  assert (direntry_named b3 od name len = true) as Hnamed3.
  { unfold direntry_named. rewrite Hod3.
    destruct (Z.eqb_spec entry_ino 0); [lia |]. cbn [negb andb].
    rewrite (strlen_eq b3 (od_name od) name Hname3 (plain_name_no_nul name Hplain))
      by (unfold od_name; fold len; lia).
    fold len. rewrite Z.eqb_refl. cbn [andb].
    unfold len. rewrite str_bytes_all.
    apply holds_memcmp0. apply (holds_app b3 (od_name od) name [0] Hname3). }
  exists b3. split; [| split; [exact Hch | split]].
  - unfold ospfs_symlink. cbv zeta. fold len slen. rewrite Hdir.
    destruct (Z.ltb_spec OSPFS_MAXNAMELEN len); [lia |].
    destruct (Z.ltb_spec OSPFS_MAXSYMLINKLEN slen); [lia |].
    cbn [orb]. rewrite Hfind. fold entry_ino.
    destruct (Z.eqb_spec entry_ino (os_ninodes m)); [lia |].
    rewrite (create_blank_direntry_first m dir_oi k Hdes Hfb).
    cbn [IS_ERR]. reflexivity.
  - assert (ospfs_inode b3 dir_ino = Some dir_oi) as Hdir3
        by (rewrite (kept_inode R m b3 dir_oi Hch Hcdir); exact Hdir).
    rewrite (ospfs_dir_lookup_find b3 dir_ino dir_oi name Hlen Hdir3).
    assert (direntry_at b3 dir_oi k = od) as Hat3
        by (apply (kept_direntry_at R m b3 dir_oi Hch Hcdir k Hwords)).
    pose proof (find_direntry_named m dir_oi name Hdes) as Hnone.
    fold len in Hnone. rewrite Hfind in Hnone.
    rewrite (find_direntry_at b3 dir_oi k name Hdes Hk).
    + rewrite Hat3, Hod3. unfold ospfs_mk_linux_inode.
      rewrite (kept_inode R m b3 dir_oi Hch Hcdir), Hinode.
      rewrite Hftype3.
      destruct (Z.eqb_spec OSPFS_FTYPE_SYMLINK OSPFS_FTYPE_REG); [contradiction |].
      destruct (Z.eqb_spec OSPFS_FTYPE_SYMLINK OSPFS_FTYPE_DIR); [contradiction |].
      rewrite Z.eqb_refl. cbv zeta.
      rewrite Hsize3, Hnlink3. reflexivity.
    + rewrite (kept_dir_size R m b3 dir_oi Hch Hcdir). exact Hin.
    + rewrite Hat3. exact Hnamed3.
    + intros j Hj.
      destruct (kept_direntry_named R m b3 dir_oi Hch Hcdir j name len
                  (Hentries j Hj)) as [Hat Hnm].
      fold len. rewrite Hat, Hnm. apply Hnone; [lia | nia].
  - apply cstring_eq; [exact Htarget3 | now apply plain_name_no_nul |].
    unfold oi_symlink. fold slen. lia.
Qed.

(** X29: growing a file by one block.  For a file with a free direct
    pointer, when a free block exists, the inode record overlaps neither
    that block nor its free-map word, and the new size needs one block
    more than the file has: [change_size] returns 0, the size is the new
    size, the next direct pointer holds the lowest free block, which is
    filled with zeros, and no other byte changes but the free-map word of
    that block. *)
Theorem change_size_grow_one {H : ospfs_h} (m : mem) (oi new_size : Z) :
  let n := ospfs_size2nblocks (oi_size m oi) in
  let a0 := fst (allocate_block m) in
  let blk := ospfs_block a0 in
  let w := ospfs_block OSPFS_FREEMAP_BLK + 4 * (a0 / 32) in
  0 < OSPFS_BLKSIZE ->
  n < OSPFS_NDIRECT ->
  oi_size m oi + 3 * OSPFS_BLKSIZE <= 2 ^ 32 ->
  a0 <> 0 ->
  w + 4 <= oi \/ oi + 16 + 4 * OSPFS_NDIRECT <= w ->
  blk + OSPFS_BLKSIZE <= oi \/ oi + 16 + 4 * OSPFS_NDIRECT <= blk ->
  0 <= new_size < 2 ^ 32 ->
  ospfs_size2nblocks new_size = n + 1 ->
  exists m',
    change_size m oi new_size = Some (0, m')
    /\ oi_size m' oi = new_size
    /\ oi_direct m' oi n = a0
    /\ (forall x, blk <= x < blk + OSPFS_BLKSIZE -> load8 m' x = 0)
    /\ forall x,
         x < w \/ w + 4 <= x -> x < blk \/ blk + OSPFS_BLKSIZE <= x ->
         x < oi \/ oi + 4 <= x ->
         x < oi_direct_at oi n \/ oi_direct_at oi n + 4 <= x ->
         load8 m' x = load8 m x.
Proof.
  intros n a0 blk w HB Hn Hmax3 Hnz Hw Hb Hnew Hone.
  assert (oi_size m oi + 2 * OSPFS_BLKSIZE <= 2 ^ 32) as Hmax by lia.
  destruct (add_block_direct_value m oi HB Hn Hmax Hnz Hw Hb)
    as (Hrun & Ha0 & Hn0 & Hv).
  fold n a0 blk in Hrun, Ha0, Hn0, Hv.
  pose proof (load32_range m oi) as Hsz. fold (oi_size m oi) in Hsz.
  change (2 ^ 31) with 2147483648 in *. change (2 ^ 32) with 4294967296 in *.
  set (m0 := bitvector_clear m (ospfs_block OSPFS_FREEMAP_BLK) a0) in *.
  set (m1 := store32 _ oi ((n + 1) * OSPFS_BLKSIZE)) in Hrun.
  assert (oi_size m1 oi = (n + 1) * OSPFS_BLKSIZE) as Hsize1.
  { unfold oi_size, m1. rewrite load32_store32. apply u32_small. exact Hv. }
  assert (oi_size m oi + OSPFS_BLKSIZE - 1 < 2 ^ 32) as Hwrap
      by (change (2 ^ 32) with 4294967296; lia).
  assert ((n + 1) * OSPFS_BLKSIZE + OSPFS_BLKSIZE - 1 < 2 ^ 32) as Hwrap1.
  { change (2 ^ 32) with 4294967296.
    destruct (size2nblocks_cases (oi_size m oi) HB (proj1 Hsz) Hwrap)
      as [[Hz He] | [Hz He]]; fold n in He.
    - nia.
    - pose proof (Z.mod_pos_bound (oi_size m oi) OSPFS_BLKSIZE HB). nia. }
  assert (ospfs_size2nblocks (oi_size m1 oi) = n + 1) as Hn1.
  { rewrite Hsize1. apply size2nblocks_whole; [exact HB | lia | exact Hwrap1]. }
  exists (set_oi_size m1 oi new_size). split.
  - unfold change_size. cbv zeta. rewrite Hone. fold n.
    destruct (Z.to_nat (n + 1 + 1)) as [| k1] eqn:Hfuel; [lia |].
    destruct k1 as [| k2]; [lia |].
    cbn [change_size_grow]. rewrite Hone. fold n.
    destruct (Z.ltb_spec n (n + 1)); [| lia].
    rewrite Hrun. cbn [Z.eqb Z.ltb Z.compare Z.opp ENOSPC].
    rewrite Hn1, Z.ltb_irrefl.
    assert (0 <= oi_size m1 oi / OSPFS_BLKSIZE) as Hq
        by (apply Z.div_pos; [rewrite Hsize1; lia | exact HB]).
    destruct (Z.to_nat (oi_size m1 oi / OSPFS_BLKSIZE + 2)) as [| k3] eqn:Hfuel3;
      [lia |].
    cbn [change_size_shrink]. rewrite Hone, Hn1, Z.ltb_irrefl. reflexivity.
  - unfold set_oi_size, oi_direct_at.
    split; [| split; [| split]].
    + unfold oi_size. rewrite load32_store32. apply u32_small.
      change (2 ^ 32) with 4294967296. exact Hnew.
    + unfold oi_direct, oi_direct_at, m1.
      rewrite !load32_store32_other by lia.
      rewrite load32_store32. apply u32_small.
      change (2 ^ 32) with 4294967296. lia.
    + intros x Hx. unfold m1. rewrite !load8_store32_other by lia.
      rewrite load8_memset. split_ranges; reflexivity.
    + intros x Hx1 Hx2 Hx3 Hx4. unfold m1.
      rewrite !load8_store32_other by lia.
      rewrite load8_memset. split_ranges; unfold m0; apply bitvector_clear_frame;
        rewrite (proj1 (quot_rem_nonneg a0 ltac:(lia))); exact Hx1.
Qed.


(** ** Instances on the concrete images *)

(** A closed statement about numbers, decided by evaluation. *)
Ltac concrete :=
  first [ vm_compute; repeat split; (reflexivity || discriminate)
        | left; vm_compute; repeat split; (reflexivity || discriminate)
        | right; vm_compute; repeat split; (reflexivity || discriminate) ].

(** The leading hypotheses of [P], each a closed statement about numbers. *)
Ltac discharge P :=
  cbv zeta in P;
  repeat match type of P with
         | ?A -> _ =>
             lazymatch A with
             | forall _, _ => fail
             | _ =>
                 let HA := fresh "HA" in
                 assert A as HA by concrete; specialize (P HA); clear HA
             end
         end.

Lemma bitvector_set_clear_test_witness :
  bitvector_test (bitvector_set Img1.img 2048 7) 2048 7 = true
  /\ bitvector_test (bitvector_clear Img1.img 2048 5) 2048 5 = false.
Proof.
  pose proof (bitvector_set_clear_test Img1.img 2048 7 7) as Pset.
  pose proof (bitvector_set_clear_test Img1.img 2048 5 5) as Pclear.
  discharge Pset. discharge Pclear.
  destruct Pset as [Hset _]. destruct Pclear as [_ [Hclear _]].
  rewrite Hset, Hclear. split; reflexivity.
Defined.

Lemma free_block_allocate_block_witness :
  fst (allocate_block (H := Img1.h) (free_block (H := Img1.h) Img1.img 4)) = 4.
Proof.
  pose proof (free_block_allocate_block (H := Img1.h) Img1.img 4) as P.
  discharge P.
  apply P. intros j Hj.
  assert (j = 0 \/ j = 1 \/ j = 2 \/ j = 3) as [-> | [-> | [-> | ->]]] by lia;
    vm_compute; reflexivity.
Defined.

Lemma ospfs_size2nblocks_ceiling_witness :
  1024 * (ospfs_size2nblocks (H := Img1.h) 100 - 1) < 100
  <= 1024 * ospfs_size2nblocks (H := Img1.h) 100.
Proof.
  pose proof (ospfs_size2nblocks_ceiling (H := Img1.h) 100) as P.
  discharge P. exact P.
Defined.

Lemma block_index_ranges_witness :
  indir2_index (H := lab3 0) 300 = 0
  /\ 0 <= indir_index (H := lab3 0) 300 < @OSPFS_NINDIRECT (lab3 0).
Proof.
  pose proof (block_index_ranges (H := lab3 0) 300) as P.
  discharge P.
  destruct P as [[Hr _] | [[Hr _] | [(_ & H2 & _ & Hi & _) | [Hr _]]]].
  - exfalso. revert Hr. concrete.
  - exfalso. destruct Hr as [_ Hr]. revert Hr. concrete.
  - split; [exact H2 | exact Hi].
  - exfalso. apply Hr. concrete.
Defined.

Lemma add_block_disk_full_witness :
  snd (add_block (H := Img3.h) Img3.full (Img3.inode 1)) = Img3.full
  /\ fst (add_block (H := Img3.h) Img3.full (Img3.inode 1)) = - ENOSPC.
Proof.
  pose proof (add_block_disk_full (H := Img3.h) Img3.full (Img3.inode 1)) as P.
  discharge P.
  destruct P as [Hsnd Hfst].
  split; [exact Hsnd |].
  rewrite Hfst. vm_compute. reflexivity.
Defined.

Lemma change_size_disk_full_witness :
  change_size (H := Img3.h) Img3.full (Img3.inode 1) 2048
  = Some (- ENOSPC, Img3.full).
Proof.
  pose proof (change_size_disk_full (H := Img3.h) Img3.full (Img3.inode 1) 2048)
    as P.
  discharge P.
  rewrite P.
  assert ((ospfs_size2nblocks (H := Img3.h) (oi_size Img3.full (Img3.inode 1))
           <? @OSPFS_MAXFILEBLKS Img3.h) = true) as -> by concrete.
  reflexivity.
Defined.

Lemma change_size_same_blocks_witness :
  exists m',
    change_size (H := Img1.h) Img1.img Img1.inode2 200 = Some (0, m')
    /\ oi_size m' Img1.inode2 = 200.
Proof.
  pose proof (change_size_same_blocks (H := Img1.h) Img1.img Img1.inode2 200) as P.
  discharge P.
  destruct P as (m' & Hrun & Hsize & _).
  exists m'. split; [exact Hrun | exact Hsize].
Defined.



Lemma add_block_remove_block_witness :
  exists m1 m2,
    add_block (H := Img2.h) Img2.img Img2.inode3 = (0, m1)
    /\ remove_block (H := Img2.h) m1 Img2.inode3 = (0, m2)
    /\ oi_size m2 Img2.inode3 = oi_size Img2.img Img2.inode3
    /\ forall x, x < 529 * 1024 \/ 530 * 1024 <= x ->
         x < Img2.inode3 + 16 \/ Img2.inode3 + 20 <= x ->
         load8 m2 x = load8 Img2.img x.
Proof.
  pose proof (add_block_remove_block (H := Img2.h) Img2.img Img2.inode3) as P.
  discharge P.
  destruct P as (m1 & m2 & Hadd & Hremove & Hsize & _ & Hframe).
  exists m1, m2. split; [exact Hadd |]. split; [exact Hremove |].
  split; [exact Hsize | exact Hframe].
Defined.

Lemma ospfs_read_file_bytes_witness :
  exists um',
    ospfs_read (H := Img1.h) Img1.img Img1.inode2 (ubuf 8192 [255; 255; 255])
      8192 3 10
    = Some (3, 10 + 3, um')
    /\ forall j, 0 <= j < 3 ->
         um' (8192 + j)
         = Some (load8 Img1.img
                   (ospfs_inode_data (H := Img1.h) Img1.img Img1.inode2 (10 + j))).
Proof.
  pose proof (ospfs_read_file_bytes (H := Img1.h) Img1.img Img1.inode2
                (ubuf 8192 [255; 255; 255]) 8192 3 10) as P.
  discharge P.
  assert (Z.min 3 (oi_size Img1.img Img1.inode2 - 10) = 3) as Hn by concrete.
  rewrite Hn in P.
  assert (forall p, 10 <= p < 10 + 3 ->
            ospfs_inode_blockno (H := Img1.h) Img1.img Img1.inode2 p <> 0) as Hmap.
  { intros p Hp.
    assert (p = 10 \/ p = 11 \/ p = 12) as [-> | [-> | ->]] by lia; concrete. }
  assert (forall j, 0 <= j < 3 -> ubuf 8192 [255; 255; 255] (8192 + j) <> None)
    as Hum.
  { intros j Hj.
    assert (j = 0 \/ j = 1 \/ j = 2) as [-> | [-> | ->]] by lia; concrete. }
  destruct (P Hmap Hum) as (um' & Hrun & Hbytes & _).
  exists um'. split; [exact Hrun | exact Hbytes].
Defined.

Lemma no_block_is_eio_witness :
  ospfs_read (H := Img1.h) Img1_hole Img1.inode2 (ubuf 8192 [1; 2; 3; 4; 5])
    8192 5 0
  = Some (- EIO, 0, ubuf 8192 [1; 2; 3; 4; 5])
  /\ ospfs_write (H := Img1.h) Img1_hole Img1.inode2 0 (ubuf 8192 [1; 2; 3; 4; 5])
       8192 5 0
     = Some (- EIO, 0, Img1_hole).
Proof.
  pose proof (no_block_is_eio (H := Img1.h) Img1_hole Img1.inode2 0
                (ubuf 8192 [1; 2; 3; 4; 5]) 8192 5 0) as P.
  discharge P. exact P.
Defined.

Lemma ospfs_read_at_eof_witness :
  ospfs_read (H := Img1.h) Img1.img Img1.inode2 (ubuf 8192 [1; 2; 3; 4; 5])
    8192 5 (oi_size Img1.img Img1.inode2)
  = Some (0, oi_size Img1.img Img1.inode2, ubuf 8192 [1; 2; 3; 4; 5]).
Proof.
  pose proof (ospfs_read_at_eof (H := Img1.h) Img1.img Img1.inode2
                (ubuf 8192 [1; 2; 3; 4; 5]) 8192 5) as P.
  discharge P. exact P.
Defined.

Lemma ospfs_write_past_eof_witness :
  ospfs_write (H := Img1.h) Img1.img Img1.inode2 0 (ubuf 8192 [1; 2; 3; 4; 5])
    8192 5 200
  = Some (- EIO, 200, Img1.img).
Proof.
  pose proof (ospfs_write_past_eof (H := Img1.h) Img1.img Img1.inode2 0
                (ubuf 8192 [1; 2; 3; 4; 5]) 8192 5 200) as P.
  discharge P. exact P.
Defined.

Lemma find_direntry_first_match_witness :
  exists i,
    0 <= i
    /\ find_direntry (H := Img3.h) Img3.base (Img3.inode 1) (chars "c") 1
       = Some (direntry_at (H := Img3.h) Img3.base (Img3.inode 1) i)
    /\ forall j, 0 <= j < i ->
         direntry_named (H := Img3.h) Img3.base
           (direntry_at (H := Img3.h) Img3.base (Img3.inode 1) j) (chars "c") 1
         = false.
Proof.
  pose proof (find_direntry_first_match (H := Img3.h) Img3.base (Img3.inode 1)
                (chars "c") 1) as P.
  discharge P.
  assert (find_direntry (H := Img3.h) Img3.base (Img3.inode 1) (chars "c") 1
          = Some (Img3.entry 2)) as Hfind by concrete.
  destruct P as [P _].
  rewrite Hfind in P.
  destruct P as (i & Hi & _ & Hod & _ & _ & _ & _ & _ & Hbefore).
  exists i. split; [exact Hi |]. split; [| exact Hbefore].
  rewrite Hfind, Hod. reflexivity.
Defined.

(** In a directory with an entry cx, the name c handed over with the length
    2 finds nothing: the second byte compared is the terminator of c. *)
Example find_direntry_beyond_name :
  cstring (H := Img3.h) Img3_cx (od_name (Img3.entry 2)) = chars "cx"
  /\ find_direntry (H := Img3.h) Img3_cx (Img3.inode 1) (chars "cx") 2
     = Some (Img3.entry 2)
  /\ find_direntry (H := Img3.h) Img3_cx (Img3.inode 1) (chars "cx") (-1)
     = Some (Img3.entry 2)
  /\ find_direntry (H := Img3.h) Img3_cx (Img3.inode 1) (chars "c") 2 = None
  /\ find_direntry (H := Img3.h) Img3_cx (Img3.inode 1) (chars "cx") 1 = None
  /\ find_direntry (H := Img3.h) Img3.base (Img3.inode 1) (chars "cx") 1
     = Some (Img3.entry 2).
Proof. vm_compute. repeat split. Qed.

Lemma existing_name_refused_witness :
  ospfs_create (H := Img3.h) Img3.base 1 (chars "a") 420
  = Returns (- EEXIST) Img3.base
  /\ ospfs_link (H := Img3.h) Img3.base 3 1 (chars "a")
     = Returns (- EEXIST) Img3.base
  /\ ospfs_symlink (H := Img3.h) Img3.base 1 (chars "a") (chars "t")
     = Returns (- EEXIST) Img3.base.
Proof.
  pose proof (existing_name_refused (H := Img3.h) Img3.base 1 3 420
                (chars "a") (chars "t")
                {| i_ino := 2; i_uid := 0; i_gid := 0; i_size := 0;
                   i_mode := 32768; i_op := ospfs_reg_inode_ops; i_nlink := 1 |})
    as P.
  discharge P. exact P.
Defined.

Lemma ospfs_unlink_missing_witness :
  ospfs_unlink (H := Img3.h) Img3.base 2 1 (chars "zz")
  = Some (Returns (- ENOENT) Img3.base).
Proof.
  pose proof (ospfs_unlink_missing (H := Img3.h) Img3.base 2 1 (Img3.inode 1)
                (chars "zz")) as P.
  discharge P. exact P.
Defined.

Lemma ospfs_unlink_entry_witness :
  exists m',
    ospfs_unlink (H := Img3.h) Img3.linked 10 1 (chars "lnk")
    = Some (Returns 0 m')
    /\ od_ino m' (Img3.entry 7) = 0
    /\ oi_nlink m' (Img3.inode 10) = 0.
Proof.
  pose proof (ospfs_unlink_entry (H := Img3.h) Img3.linked 10 1 (Img3.inode 1)
                (Img3.inode 10) (Img3.entry 7) (chars "lnk")) as P.
  discharge P.
  destruct P as (m' & Hrun & Hod & Hnlink & _).
  exists m'. split; [exact Hrun |]. split; [exact Hod | exact Hnlink].
Defined.

Lemma create_blank_direntry_blank_witness :
  od_ino (snd (create_blank_direntry (H := Img3.h) Img3.base (Img3.inode 1)))
    (Img3.entry 7) = 0.
Proof.
  pose proof (create_blank_direntry_blank (H := Img3.h) Img3.base (Img3.inode 1))
    as P.
  discharge P. destruct P as [Hblank _].
  apply Hblank. concrete.
Defined.

Lemma ospfs_dir_readdir_listing_witness :
  ospfs_dir_readdir (H := Img3.h) (list dirent) take_all Img3.base 1 1 0 []
  = Some (Listed 1 1026
            [([46], 0, 1, 4); ([46; 46], 1, 1, 4); ([97], 2, 2, 8);
             ([98], 130, 3, 8); ([99], 258, 4, 8); ([100], 386, 5, 8);
             ([101], 514, 6, 8); ([102], 642, 7, 8); ([103], 770, 8, 8)]).
Proof.
  pose proof (ospfs_dir_readdir_listing (H := Img3.h) Img3.base 1 1 (Img3.inode 1))
    as P.
  discharge P.
  assert (oi_size Img3.base (Img3.inode 1) = 1024) as Hsize by concrete.
  rewrite Hsize in P.
  rewrite P.
  - concrete.
  - intros k Hk Hlt Hlive. change (@OSPFS_DIRENTRY_SIZE Img3.h) with 128 in Hlt.
    assert (k = 0 \/ k = 1 \/ k = 2 \/ k = 3 \/ k = 4 \/ k = 5 \/ k = 6 \/ k = 7)
      as [-> | [-> | [-> | [-> | [-> | [-> | [-> | ->]]]]]]] by lia; concrete.
Defined.

Lemma ospfs_notify_change_size_mode_witness :
  exists m',
    ospfs_notify_change (H := Img1.h) Img1.img 2 9 200 420 0 0
    = Some (Returns 0 m')
    /\ oi_size m' Img1.inode2 = 200
    /\ oi_mode m' Img1.inode2 = 420.
Proof.
  pose proof (ospfs_notify_change_size_mode (H := Img1.h) Img1.img 2 Img1.inode2
                9 200 420 0 0) as P.
  discharge P. destruct P as [_ P]. discharge P.
  destruct P as (m' & Hrun & Hsize & Hmode & _).
  exists m'. split; [exact Hrun |]. split; [exact Hsize | exact Hmode].
Defined.

Lemma ospfs_create_lookup_witness :
  exists m',
    ospfs_create (H := Img3.h) Img3.base 1 (chars "new") 420 = Returns 0 m'
    /\ ospfs_dir_lookup (H := Img3.h) m' 1 (chars "new")
       = Positive {| i_ino := 10; i_uid := 0; i_gid := 0; i_size := 0;
                     i_mode := 33188; i_op := ospfs_reg_inode_ops;
                     i_nlink := 1 |}.
Proof.
  pose proof (ospfs_create_lookup (H := Img3.h) Img3.base 1 (Img3.inode 1) 7 420
                (chars "new")) as P.
  discharge P.
  destruct P as (m' & Hrun & _ & Hlookup).
  exists m'. split; [exact Hrun | exact Hlookup].
Defined.

Lemma ospfs_unlink_lookup_witness :
  exists m',
    ospfs_unlink (H := Img3.h) Img3.linked 10 1 (chars "lnk")
    = Some (Returns 0 m')
    /\ ospfs_dir_lookup (H := Img3.h) m' 1 (chars "lnk") = Negative.
Proof.
  pose proof (ospfs_unlink_lookup (H := Img3.h) Img3.linked 10 1 (Img3.inode 1)
                (Img3.inode 10) 7 (chars "lnk")) as P.
  discharge P.
  destruct P as (m' & Hrun & _ & Hlookup).
  exists m'. split; [exact Hrun | exact Hlookup].
Defined.

Lemma ospfs_link_lookup_witness :
  exists m',
    ospfs_link (H := Img3.h) Img3.base 3 1 (chars "hard") = Returns 0 m'
    /\ ospfs_dir_lookup (H := Img3.h) m' 1 (chars "hard")
       = Positive {| i_ino := 3; i_uid := 0; i_gid := 0; i_size := 0;
                     i_mode := 32768; i_op := ospfs_reg_inode_ops;
                     i_nlink := 2 |}.
Proof.
  pose proof (ospfs_link_lookup (H := Img3.h) Img3.base 3 1 (Img3.inode 1) 7
                (chars "hard")) as P.
  discharge P.
  destruct P as (m' & Hrun & _ & Hlookup).
  exists m'. split; [exact Hrun | exact Hlookup].
Defined.

Lemma ospfs_symlink_lookup_witness :
  exists m',
    ospfs_symlink (H := Img3.h) Img3.base 1 (chars "lnk") (chars "/tmp/foo")
    = Returns 0 m'
    /\ ospfs_dir_lookup (H := Img3.h) m' 1 (chars "lnk")
       = Positive {| i_ino := 10; i_uid := 0; i_gid := 0; i_size := 8;
                     i_mode := 41471; i_op := ospfs_symlink_inode_ops;
                     i_nlink := 1 |}
    /\ cstring (H := Img3.h) m' (oi_symlink (Img3.inode 10)) = chars "/tmp/foo".
Proof.
  pose proof (ospfs_symlink_lookup (H := Img3.h) Img3.base 1 (Img3.inode 1) 7
                (chars "lnk") (chars "/tmp/foo")) as P.
  discharge P.
  destruct P as (m' & Hrun & _ & Hlookup & Htarget).
  exists m'. split; [exact Hrun |]. split; [exact Hlookup | exact Htarget].
Defined.

Lemma change_size_grow_one_witness :
  exists m',
    change_size (H := Img1.h) Img1.img Img1.inode2 1500 = Some (0, m')
    /\ oi_size m' Img1.inode2 = 1500
    /\ oi_direct m' Img1.inode2 1 = 5.
Proof.
  pose proof (change_size_grow_one (H := Img1.h) Img1.img Img1.inode2 1500) as P.
  discharge P.
  destruct P as (m' & Hrun & Hsize & Hslot & _).
  exists m'. split; [exact Hrun |]. split; [exact Hsize | exact Hslot].
Defined.

